(** * model_selection.py: experiment tracking and model comparison

    A shallow embedding of [src/model_selection.py] (classes
    [PerformanceTracker], [Experiment] and [MultiExperiment]) together with
    the properties of its model-comparison and win-tracking logic.

    Conventions of the embedding:
    - Python floats are IEEE 754 values, [spec_float] of the standard
      library, compared with [SFltb] / [SFeqb] (so NaN, the two zeros and
      the infinities behave as in Python); a Python float is a binary64
      value in its canonical encoding ([valid_binary 53 1024]), on which
      [SFltb] is the order of the values, and the theorems hold of every
      [spec_float], so of those;
    - a Python [dict] with string keys is an association list with unique
      keys, kept in insertion order ([max] over [items()] depends on it);
    - a method is a function in a state-and-exception monad: an exception
      leaves the mutations done before it in place, as in Python;
    - scikit-learn and numpy ([_shuffle], [StandardScaler],
      [GridSearchCV], [consensus_score], fancy indexing) are not part of
      the program: those calls are the fields of the class [Sklearn],
      each of them allowed to raise. *)

From Stdlib Require Import List String ZArith Bool Lia PeanoNat.
From Stdlib Require Import Floats.SpecFloat.
Import ListNotations.

Local Open Scope string_scope.
Local Open Scope list_scope.
Local Open Scope Z_scope.

(** ** Python floats *)

Definition float : Type := spec_float.

Module PyFloat.

(** [-np.float('inf')] *)
Definition neg_inf : float := S754_infinity true.
(** [0.0] *)
Definition zero : float := S754_zero false.
Definition nan : float := S754_nan.

(** [a > b] on floats. *)
Definition gt (a b : float) : bool := SFltb b a.
(** [a == b] on floats. *)
Definition eq (a b : float) : bool := SFeqb a b.

Definition is_nan (a : float) : bool :=
  match a with S754_nan => true | _ => false end.

End PyFloat.

(** ** Exceptions and the state-and-exception monad *)

Inductive exn : Type :=
| ValueError (msg : string)
| KeyError (key : string)
| TypeError (msg : string)
| AttributeError (msg : string)
| IndexError (msg : string)
| UnboundLocalError (msg : string)
| LibraryError (msg : string).

Inductive outcome (A : Type) : Type :=
| Return (a : A)
| Raise (e : exn).
Arguments Return {A} a.
Arguments Raise {A} e.

Definition returns {A} (o : outcome A) : bool :=
  match o with Return _ => true | Raise _ => false end.

(** A method of an object whose state has type [S]. *)
Definition M (S A : Type) : Type := S -> outcome A * S.

Definition ret {S A} (a : A) : M S A := fun s => (Return a, s).
Definition raise {S A} (e : exn) : M S A := fun s => (Raise e, s).
Definition bind {S A B} (m : M S A) (k : A -> M S B) : M S B :=
  fun s => match m s with
           | (Return a, s') => k a s'
           | (Raise e, s') => (Raise e, s')
           end.
Definition get {S} : M S S := fun s => (Return s, s).
Definition put {S} (s : S) : M S unit := fun _ => (Return tt, s).
Definition modify {S} (f : S -> S) : M S unit := fun s => (Return tt, f s).
(** A call that cannot touch the state (a dictionary lookup, a library
    function): only its exception is threaded. *)
Definition lift {S A} (o : outcome A) : M S A := fun s => (o, s).

Notation "x <- m ;; k" := (bind m (fun x => k))
  (at level 61, m at next level, right associativity).
Notation "' pat <- m ;; k" :=
  (bind m (fun x => match x with pat => k end))
  (at level 61, pat pattern, m at next level, right associativity).
Notation "m ;;; k" := (bind m (fun _ => k))
  (at level 61, right associativity).

(** [for x in l: body(x)] *)
Fixpoint for_each {S A} (l : list A) (body : A -> M S unit) : M S unit :=
  match l with
  | [] => ret tt
  | x :: rest => body x ;;; for_each rest body
  end.

(** ** Python dictionaries with string keys *)

Module PyDict.
Section Dict.
Context {V : Type}.

Definition t := list (string * V).

Definition empty : t := [].

Fixpoint get (k : string) (d : t) : option V :=
  match d with
  | [] => None
  | (k', v) :: rest => if String.eqb k k' then Some v else get k rest
  end.

(** [d[k] = v]: an existing key keeps its position, a new key goes
    last. *)
Fixpoint set (k : string) (v : V) (d : t) : t :=
  match d with
  | [] => [(k, v)]
  | (k', v') :: rest =>
      if String.eqb k k' then (k', v) :: rest
      else (k', v') :: set k v rest
  end.

Definition keys (d : t) : list string := map fst d.
Definition items (d : t) : list (string * V) := d.

(** [d[k]] as an expression. *)
Definition getitem (k : string) (d : t) : outcome V :=
  match get k d with
  | Some v => Return v
  | None => Raise (KeyError k)
  end.

(** [{k: f(k) for k in ks}] *)
Definition comprehension (f : string -> V) (ks : list string) : t :=
  fold_left (fun d k => set k (f k) d) ks empty.
End Dict.
Arguments t : clear implicits.
End PyDict.

Definition pydict (V : Type) : Type := PyDict.t V.

(** ** Models, estimators and results *)

Inductive pyval : Type :=
| PNone
| PInt (z : Z)
| PStr (s : string)
| PFloat (x : float).

(** Keyword arguments of a constructor call. *)
Definition kwargs := list (string * pyval).
(** A hyperparameter grid: the candidate values of every parameter. *)
Definition param_grid := list (string * list pyval).

(** A model class; the program reads nothing of it but [__name__]. *)
Record model : Type := { name__ : string }.

(** Boolean indicator arrays, one row per bicluster. *)
Definition indicator := list (list bool).

(** An estimator object, built by calling the model class with keyword
    arguments, and, once fitted, its
    [biclusters_] attribute. *)
Record estimator : Type := {
  est_class : model;
  est_kwargs : kwargs;
  biclusters_ : option (indicator * indicator)
}.

(** The call of the model class [m] with the keyword arguments [kw]. *)
Definition construct (m : model) (kw : kwargs) : estimator :=
  {| est_class := m; est_kwargs := kw; biclusters_ := None |}.

Definition ndarray := list (list float).

(** A fitted [GridSearchCV] object, as far as the program reads it. *)
Record grid_result : Type := {
  best_score_ : float;
  best_params_ : kwargs
}.

(** What [compare_models] hands back: the triple (winner name, winner
    model, best score), or [None]. *)
Definition triple : Type := string * estimator * float.
Definition result := option triple.

(** [name, _, score = r] *)
Definition unpack3 (r : result) : outcome triple :=
  match r with
  | Some t => Return t
  | None => Raise (TypeError "cannot unpack non-iterable NoneType object")
  end.

(** ** PerformanceTracker *)

Record PerformanceTracker : Type := {
  test_classes : list string;
  models : list string;
  model_scores : pydict (pydict (list float));
  winning_stats : pydict (pydict Z)
}.

Module Tracker.

Definition _setup_model_score_stats (tcs ms : list string)
  : pydict (pydict (list float)) :=
  fold_left
    (fun stats tc =>
       PyDict.set tc (PyDict.comprehension (fun _ => @nil float) ms) stats)
    tcs PyDict.empty.

Definition _setup_model_win_stats (tcs ms : list string)
  : pydict (pydict Z) :=
  fold_left
    (fun stats tc =>
       PyDict.set tc (PyDict.comprehension (fun _ => 0) ms) stats)
    tcs PyDict.empty.

(** [PerformanceTracker(test_classes, models)] *)
Definition init (tcs ms : list string) : PerformanceTracker :=
  {| test_classes := tcs;
     models := ms;
     model_scores := _setup_model_score_stats tcs ms;
     winning_stats := _setup_model_win_stats tcs ms |}.

Definition set_winning_stats (w : pydict (pydict Z))
  (t : PerformanceTracker) : PerformanceTracker :=
  {| test_classes := test_classes t; models := models t;
     model_scores := model_scores t; winning_stats := w |}.

Definition set_model_scores (s : pydict (pydict (list float)))
  (t : PerformanceTracker) : PerformanceTracker :=
  {| test_classes := test_classes t; models := models t;
     model_scores := s; winning_stats := winning_stats t |}.

(** [self.winning_stats[test_class][name] += 1] *)
Definition incr_win (tc name : string) : M PerformanceTracker unit :=
  t <- get ;;
  inner <- lift (PyDict.getitem tc (winning_stats t)) ;;
  n <- lift (PyDict.getitem name inner) ;;
  put (set_winning_stats
         (PyDict.set tc (PyDict.set name (n + 1) inner) (winning_stats t))
         t).

(** [self.model_scores[test_class][name].append(score)] *)
Definition append_score (tc name : string) (score : float)
  : M PerformanceTracker unit :=
  t <- get ;;
  inner <- lift (PyDict.getitem tc (model_scores t)) ;;
  h <- lift (PyDict.getitem name inner) ;;
  put (set_model_scores
         (PyDict.set tc (PyDict.set name (h ++ [score]) inner)
            (model_scores t))
         t).

(** The body of the loop of [update_stats]. *)
Definition update_class (results : pydict result) (tc : string)
  : M PerformanceTracker unit :=
  r <- lift (PyDict.getitem tc results) ;;
  '(name, _, score) <- lift (unpack3 r) ;;
  incr_win tc name ;;;
  append_score tc name score.

Definition update_stats (results : pydict result)
  : M PerformanceTracker unit :=
  t <- get ;;
  for_each (test_classes t) (update_class results).

(** [max(items, key=operator.itemgetter(1))]: the first item whose count
    no other item exceeds; [ValueError] on an empty sequence. *)
Fixpoint max_from (cur : string * Z) (l : list (string * Z))
  : string * Z :=
  match l with
  | [] => cur
  | x :: rest => max_from (if snd x >? snd cur then x else cur) rest
  end.

Definition max_item (l : list (string * Z)) : outcome (string * Z) :=
  match l with
  | [] => Raise (ValueError "max() arg is an empty sequence")
  | x :: rest => Return (max_from x rest)
  end.

(** The body of the loop of [winner_models], on the local [winners]. *)
Definition winner_class (t : PerformanceTracker) (tc : string)
  : M (pydict string) unit :=
  candidates <- lift (PyDict.getitem tc (winning_stats t)) ;;
  '(winner, _) <- lift (max_item (PyDict.items candidates)) ;;
  modify (PyDict.set tc winner).

(** The property [winner_models]; it reads the tracker only. *)
Definition winner_models (t : PerformanceTracker)
  : outcome (pydict string) :=
  match for_each (test_classes t) (winner_class t) PyDict.empty with
  | (Return _, winners) => Return winners
  | (Raise e, _) => Raise e
  end.

End Tracker.

(** ** The library calls of the program

    [rng_state] stands for the state of numpy's global random generator,
    which [_shuffle] and a model fit draw from when they are given no
    integer seed. *)

Definition rng_state : Type := N.

Class Sklearn : Type := {
  (** [sgen._shuffle(data, random_state=...)]: the shuffled data, the row
      permutation and the column permutation. *)
  _shuffle : ndarray -> option Z -> rng_state ->
             outcome (ndarray * list nat * list nat) * rng_state;
  (** [StandardScaler().fit_transform(X)] *)
  fit_transform : ndarray -> outcome ndarray;
  (** [GridSearchCV(estimator, param_grid, scoring=..., cv=dummy_cv,
      return_train_score=True, refit=False).fit(X, y=None)], read through
      [best_score_] and [best_params_]. *)
  GridSearchCV_fit : estimator -> param_grid -> (estimator -> outcome float) ->
                     ndarray -> rng_state -> outcome grid_result * rng_state;
  (** [consensus_score(a, b)] *)
  consensus_score : indicator * indicator -> indicator * indicator ->
                    outcome float;
  (** numpy's [a[:, idx]] *)
  index_columns : indicator -> list nat -> outcome indicator
}.

(** ** Experiment and MultiExperiment

    One record holds the attributes of a [MultiExperiment] (those of
    [Experiment] and its own); an attribute that is [None] or not yet set
    is [None] here. [np_random] is not an attribute: it is the global
    generator of the process, threaded with the object. *)

Record Experiment : Type := {
  models_and_params : list (model * param_grid);
  verbose : Z;
  random_state : option Z;
  results : option (pydict result);
  _data : option ndarray;
  _rows : option indicator;
  _cols : option indicator;
  row_idx : option (list nat);
  col_idx : option (list nat);
  nruns : Z;
  _tracker : option PerformanceTracker;
  np_random : rng_state
}.

Definition set_results (v : option (pydict result)) (s : Experiment) :=
  {| models_and_params := models_and_params s; verbose := verbose s;
     random_state := random_state s; results := v; _data := _data s;
     _rows := _rows s; _cols := _cols s; row_idx := row_idx s;
     col_idx := col_idx s; nruns := nruns s; _tracker := _tracker s;
     np_random := np_random s |}.

Definition set_data (v : option ndarray) (s : Experiment) :=
  {| models_and_params := models_and_params s; verbose := verbose s;
     random_state := random_state s; results := results s; _data := v;
     _rows := _rows s; _cols := _cols s; row_idx := row_idx s;
     col_idx := col_idx s; nruns := nruns s; _tracker := _tracker s;
     np_random := np_random s |}.

Definition set_rows_cols (r c : option indicator) (s : Experiment) :=
  {| models_and_params := models_and_params s; verbose := verbose s;
     random_state := random_state s; results := results s; _data := _data s;
     _rows := r; _cols := c; row_idx := row_idx s;
     col_idx := col_idx s; nruns := nruns s; _tracker := _tracker s;
     np_random := np_random s |}.

Definition set_idx (r c : option (list nat)) (s : Experiment) :=
  {| models_and_params := models_and_params s; verbose := verbose s;
     random_state := random_state s; results := results s; _data := _data s;
     _rows := _rows s; _cols := _cols s; row_idx := r;
     col_idx := c; nruns := nruns s; _tracker := _tracker s;
     np_random := np_random s |}.

Definition set_tracker (v : option PerformanceTracker) (s : Experiment) :=
  {| models_and_params := models_and_params s; verbose := verbose s;
     random_state := random_state s; results := results s; _data := _data s;
     _rows := _rows s; _cols := _cols s; row_idx := row_idx s;
     col_idx := col_idx s; nruns := nruns s; _tracker := v;
     np_random := np_random s |}.

Definition set_np_random (v : rng_state) (s : Experiment) :=
  {| models_and_params := models_and_params s; verbose := verbose s;
     random_state := random_state s; results := results s; _data := _data s;
     _rows := _rows s; _cols := _cols s; row_idx := row_idx s;
     col_idx := col_idx s; nruns := nruns s; _tracker := _tracker s;
     np_random := v |}.

(** [Experiment(models_and_params, verbose, random_state)], with the
    attributes of [MultiExperiment] left at their defaults. *)
Definition Experiment_init (mp : list (model * param_grid)) (vb : Z)
  (rs : option Z) (w : rng_state) : Experiment :=
  {| models_and_params := mp; verbose := vb; random_state := rs;
     results := None; _data := None; _rows := None; _cols := None;
     row_idx := None; col_idx := None; nruns := 1; _tracker := None;
     np_random := w |}.

(** [MultiExperiment(models_and_params, nruns, verbose, random_state)] *)
Definition MultiExperiment_init (mp : list (model * param_grid)) (n vb : Z)
  (rs : option Z) (w : rng_state) : Experiment :=
  {| models_and_params := mp; verbose := vb; random_state := rs;
     results := None; _data := None; _rows := None; _cols := None;
     row_idx := None; col_idx := None; nruns := n; _tracker := None;
     np_random := w |}.

(** The defaults of [MultiExperiment.__init__]. *)
Definition default_nruns : Z := 1.
Definition default_verbose : Z := 1.
Definition default_random_state : option Z := Some 1.

(** A library call that may draw from the global generator. *)
Definition call_rng {A} (f : rng_state -> outcome A * rng_state)
  : M Experiment A :=
  fun s => let (o, w) := f (np_random s) in (o, set_np_random w s).

(** The attribute [a] of an object, [AttributeError] when it was never
    set. *)
Definition attribute {A} (name : string) (a : option A) : outcome A :=
  match a with
  | Some v => Return v
  | None => Raise (AttributeError name)
  end.

(** A value that must not be [None] where it is used. *)
Definition not_none {A} (what : string) (a : option A) : outcome A :=
  match a with
  | Some v => Return v
  | None => Raise (TypeError what)
  end.

(** [data.shape], which [_shuffle] reads first: [None] has none. *)
Definition shape_of_data {A} (a : option A) : outcome A :=
  match a with
  | Some v => Return v
  | None => Raise (AttributeError "'NoneType' object has no attribute 'shape'")
  end.

(** The random_state keyword as a Python value. *)
Definition seed_value (rs : option Z) : pyval :=
  match rs with Some z => PInt z | None => PNone end.

Section Program.
Context {sk : Sklearn}.

(** [Experiment.jaccard] *)
Definition jaccard (self : Experiment) (est : estimator) : outcome float :=
  match attribute "biclusters_" (biclusters_ est) with
  | Raise e => Raise e
  | Return (rows, cols) =>
      if (Nat.eqb (List.length rows) 0 || Nat.eqb (List.length cols) 0)%bool
      then Return PyFloat.zero
      else
        match attribute "row_idx" (row_idx self) with
        | Raise e => Raise e
        | Return ri =>
        match not_none "'NoneType' object is not subscriptable"
                (_rows self) with
        | Raise e => Raise e
        | Return r =>
        match index_columns r ri with
        | Raise e => Raise e
        | Return yrows =>
        match attribute "col_idx" (col_idx self) with
        | Raise e => Raise e
        | Return ci =>
        match not_none "'NoneType' object is not subscriptable"
                (_cols self) with
        | Raise e => Raise e
        | Return c =>
        match index_columns c ci with
        | Raise e => Raise e
        | Return ycols => consensus_score (rows, cols) (yrows, ycols)
        end end end end end end
  end.

(** The locals of the loop of [score_eval]: [best_score], and
    [winner_name] with [winner_model], which are bound together and
    only in the branch of the comparison. *)
Record locals : Type := {
  best_score : float;
  winner : option (string * estimator)
}.

Definition locals_init : locals :=
  {| best_score := PyFloat.neg_inf; winner := None |}.

(** The comparison at the end of the body of the loop. *)
Definition pick (m : model) (g : grid_result) (loc : locals) : locals :=
  if PyFloat.gt (best_score_ g) (best_score loc)
  then {| best_score := best_score_ g;
          winner := Some (name__ m, construct m (best_params_ g)) |}
  else loc.

(** The grid search of one family, as [score_eval] calls it. *)
Definition grid_fit (X : ndarray) (fam : model * param_grid)
  : M Experiment grid_result :=
  self <- get ;;
  call_rng (GridSearchCV_fit
              (construct (fst fam)
                 [("random_state", seed_value (random_state self))])
              (snd fam) (jaccard self) X).

(** The loop of [score_eval] over [self.models_and_params]. *)
Fixpoint score_loop (X : ndarray) (fams : list (model * param_grid))
  (loc : locals) : M Experiment locals :=
  match fams with
  | [] => ret loc
  | fam :: rest =>
      g <- grid_fit X fam ;;
      score_loop X rest (pick (fst fam) g loc)
  end.

Definition unbound_winner_name : exn :=
  UnboundLocalError
    "local variable 'winner_name' referenced before assignment".

(** The [return] of [score_eval]. *)
Definition return_winner (loc : locals) : outcome triple :=
  match winner loc with
  | Some (n, m) => Return (n, m, best_score loc)
  | None => Raise unbound_winner_name
  end.

(** [Experiment.score_eval] *)
Definition score_eval : M Experiment triple :=
  self <- get ;;
  d <- lift (shape_of_data (_data self)) ;;
  '(_train, ri, ci) <- call_rng (_shuffle d (random_state self)) ;;
  modify (set_idx (Some ri) (Some ci)) ;;;
  _train_std <- lift (fit_transform _train) ;;
  self' <- get ;;
  loc <- score_loop _train_std (models_and_params self') locals_init ;;
  lift (return_winner loc).

(** [Experiment.time_eval]: its body is [pass]. *)
Definition time_eval : M Experiment result := ret None.

Definition invalid_target (target : string) : exn :=
  ValueError ("Invalid target: `" ++ target ++ "`")%string.

(** [Experiment.compare_models] *)
Definition compare_models (target : string) : M Experiment result :=
  if String.eqb target "score" then
    r <- score_eval ;; ret (Some r)
  else if String.eqb target "time" then
    time_eval
  else
    raise (invalid_target target).

(** [self.results[key] = v] *)
Definition results_setitem (key : string) (v : result)
  : M Experiment unit :=
  self <- get ;;
  d <- lift (not_none "'NoneType' object does not support item assignment"
               (results self)) ;;
  put (set_results (Some (PyDict.set key v d)) self).

(** [self.results[key]] *)
Definition results_getitem (key : string) : M Experiment result :=
  self <- get ;;
  d <- lift (not_none "'NoneType' object is not subscriptable"
               (results self)) ;;
  lift (PyDict.getitem key d).

(** The body of the loop of [execute]; printing is not modelled, the
    unpacking that feeds it is. *)
Definition execute_key (data : pydict ndarray)
  (rows cols : pydict indicator) (target : string) (key : string)
  : M Experiment unit :=
  d <- lift (PyDict.getitem key data) ;;
  modify (set_data (Some d)) ;;;
  r <- lift (PyDict.getitem key rows) ;;
  c <- lift (PyDict.getitem key cols) ;;
  modify (set_rows_cols (Some r) (Some c)) ;;;
  res <- compare_models target ;;
  results_setitem key res ;;;
  self <- get ;;
  if verbose self >? 0 then
    v <- results_getitem key ;;
    _ <- lift (unpack3 v) ;;
    ret tt
  else ret tt.

(** [Experiment.execute] *)
Definition execute (data : pydict ndarray)
  (indicators : pydict indicator * pydict indicator) (target : string)
  : M Experiment unit :=
  let '(rows, cols) := indicators in
  modify (set_results (Some PyDict.empty)) ;;;
  for_each (PyDict.keys data) (execute_key data rows cols target).

(** [MultiExperiment.model_labels] *)
Definition model_labels (self : Experiment) : list string :=
  map (fun mp => name__ (fst mp)) (models_and_params self).

(** A method call on [self._tracker]. *)
Definition on_tracker {A} (m : M PerformanceTracker A) : M Experiment A :=
  fun s =>
    match _tracker s with
    | None => (Raise (AttributeError "'NoneType' object has no attribute"), s)
    | Some t => let (o, t') := m t in (o, set_tracker (Some t') s)
    end.

(** [self._tracker.update_stats(self.results)] *)
Definition track_results : M Experiment unit :=
  self <- get ;;
  match results self with
  | Some r => on_tracker (Tracker.update_stats r)
  | None => raise (TypeError "'NoneType' object is not subscriptable")
  end.

Definition dataset_entry : Type :=
  pydict ndarray * pydict indicator * pydict indicator.

(** The body of the inner loop of [execute_all]. *)
Definition execute_entry (target : string) (entry : dataset_entry)
  : M Experiment unit :=
  let '(data, rows, cols) := entry in
  execute data (rows, cols) target ;;;
  track_results.

(** One pass of the outer loop of [execute_all]. *)
Definition one_run (dataset : list dataset_entry) (target : string)
  : M Experiment unit :=
  for_each dataset (execute_entry target).

(** [MultiExperiment.execute_all] *)
Definition execute_all (dataset : list dataset_entry)
  (tcs : list string) (target : string) : M Experiment unit :=
  self <- get ;;
  put (set_tracker (Some (Tracker.init tcs (model_labels self))) self) ;;;
  for_each (seq 0 (Z.to_nat (nruns self)))
    (fun _ => one_run dataset target).

(** [MultiExperiment.class_winners] *)
Definition class_winners (self : Experiment) : outcome (pydict string) :=
  match _tracker self with
  | Some t => Tracker.winner_models t
  | None => Raise (AttributeError "'NoneType' object has no attribute")
  end.

End Program.

(** ** Observations used in the statements *)

(** [d[c][f]] when both keys are there. *)
Definition lookup2 {V} (d : pydict (pydict V)) (c f : string) : option V :=
  match PyDict.get c d with
  | Some inner => PyDict.get f inner
  | None => None
  end.

(** The sum of the values of a dictionary of counts. *)
Definition dict_sum (d : pydict Z) : Z :=
  fold_right (fun kv acc => snd kv + acc) 0 d.

(** The sum over the registered families of [winning_stats[c][f]]. *)
Definition total_wins (t : PerformanceTracker) (c : string) : option Z :=
  option_map dict_sum (PyDict.get c (winning_stats t)).

(** The tracker states reachable from a fresh tracker by calls of
    [update_stats], whether a call returns or raises part-way. *)
Inductive reachable (tcs ms : list string) : PerformanceTracker -> Prop :=
| reach_init : reachable tcs ms (Tracker.init tcs ms)
| reach_update t results :
    reachable tcs ms t ->
    reachable tcs ms (snd (Tracker.update_stats results t)).

Definition mem (k : string) (ks : list string) : bool :=
  existsb (String.eqb k) ks.

Definition none_unpack : exn :=
  TypeError "cannot unpack non-iterable NoneType object".

(** From [t] to [t']: every history that was there got a suffix appended
    and its counter was raised by the length of that suffix. *)
Definition grows (t t' : PerformanceTracker) : Prop :=
  forall c f h n,
    lookup2 (model_scores t) c f = Some h ->
    lookup2 (winning_stats t) c f = Some n ->
    exists suffix,
      lookup2 (model_scores t') c f = Some (h ++ suffix) /\
      lookup2 (winning_stats t') c f =
        Some (n + Z.of_nat (List.length suffix)).

(** The invariant: a counter and the length of its history agree, and
    each is there exactly when the other is. *)
Definition consistent (t : PerformanceTracker) : Prop :=
  forall c f,
    lookup2 (winning_stats t) c f =
    option_map (fun h => Z.of_nat (List.length h))
      (lookup2 (model_scores t) c f).

(** The winner that [winner_models] computes for one class: the first
    maximal item of [winning_stats[c]], when there is one. *)
Definition class_winner (t : PerformanceTracker) (c : string)
  : option string :=
  match PyDict.get c (winning_stats t) with
  | Some candidates =>
      match Tracker.max_item (PyDict.items candidates) with
      | Return (w, _) => Some w
      | Raise _ => None
      end
  | None => None
  end.

(** ** Runs of [score_eval], for the statements

    [library_run] performs the library calls of [score_eval] in its
    order (the shuffle, the scaling, then one grid search per family)
    and collects the fitted grids; [select] is the comparison of the
    loop over those grids. [score_eval] is the one followed by the
    other, which [score_eval_select] proves. *)

Section Runs.
Context {sk : Sklearn}.

Fixpoint fit_all (X : ndarray) (fams : list (model * param_grid))
  : M Experiment (list grid_result) :=
  match fams with
  | [] => ret []
  | fam :: rest =>
      g <- grid_fit X fam ;;
      gs <- fit_all X rest ;;
      ret (g :: gs)
  end.

Definition prepare : M Experiment ndarray :=
  self <- get ;;
  d <- lift (shape_of_data (_data self)) ;;
  '(_train, ri, ci) <- call_rng (_shuffle d (random_state self)) ;;
  modify (set_idx (Some ri) (Some ci)) ;;;
  lift (fit_transform _train).

Definition library_run : M Experiment (list grid_result) :=
  X <- prepare ;;
  self <- get ;;
  fit_all X (models_and_params self).

Definition select_pairs (l : list (model * param_grid * grid_result))
  (loc : locals) : locals :=
  fold_left (fun acc fg => pick (fst (fst fg)) (snd fg) acc) l loc.

Definition select (fams : list (model * param_grid))
  (gs : list grid_result) (loc : locals) : locals :=
  select_pairs (combine fams gs) loc.

(** The locals once the comparison chose the family [fg]. *)
Definition chosen (fg : model * param_grid * grid_result) : locals :=
  {| best_score := best_score_ (snd fg);
     winner := Some (name__ (fst (fst fg)),
                     construct (fst (fst fg)) (best_params_ (snd fg))) |}.

(** Fitting is deterministic under the seed [seed]: what the shuffle and
    a grid search of an estimator built with that seed return depends
    neither on the state of the global generator nor on more of the
    scorer than the scores it gives. *)
Definition deterministic_fitting (seed : Z) : Prop :=
  (forall d w1 w2,
      fst (_shuffle d (Some seed) w1) = fst (_shuffle d (Some seed) w2)) /\
  (forall m grid sc1 sc2 X w1 w2,
      (forall e, sc1 e = sc2 e) ->
      fst (GridSearchCV_fit (construct m [("random_state", PInt seed)])
             grid sc1 X w1) =
      fst (GridSearchCV_fit (construct m [("random_state", PInt seed)])
             grid sc2 X w2)).

(** The results that [execute] leaves for a dataset entry. *)
Definition entry_results (target : string) (st : Experiment)
  (entry : dataset_entry) : pydict result :=
  let '(data, rows, cols) := entry in
  match results (snd (execute data (rows, cols) target st)) with
  | Some r => r
  | None => PyDict.empty
  end.

End Runs.

(** Two experiments with the same configuration: the attributes set by
    the constructor and never assigned again. *)
Definition same_config (s1 s2 : Experiment) : Prop :=
  models_and_params s1 = models_and_params s2 /\
  verbose s1 = verbose s2 /\
  random_state s1 = random_state s2 /\
  nruns s1 = nruns s2.

(** ... which also hold the same results. *)
Definition same_results (s1 s2 : Experiment) : Prop :=
  same_config s1 s2 /\ results s1 = results s2.

(** ... and the same data and ground truth. *)
Definition same_data (s1 s2 : Experiment) : Prop :=
  same_results s1 s2 /\
  _data s1 = _data s2 /\ _rows s1 = _rows s2 /\ _cols s1 = _cols s2.

(** ... and the same shuffle indices. *)
Definition same_idx (s1 s2 : Experiment) : Prop :=
  same_data s1 s2 /\
  row_idx s1 = row_idx s2 /\ col_idx s1 = col_idx s2.

(** From [s] to [s'] the configuration and the tracker were kept. *)
Definition keeps (s s' : Experiment) : Prop :=
  models_and_params s' = models_and_params s /\
  verbose s' = verbose s /\
  random_state s' = random_state s /\
  nruns s' = nruns s /\
  _tracker s' = _tracker s.

(** A method preserves [P], whether it returns or raises. *)
Definition preserves {A} (P : Experiment -> Prop) (m : M Experiment A)
  : Prop :=
  forall s, P s -> P (snd (m s)).

(** Two experiments seeded with [seed] that [R] relates. *)
Definition seeded (seed : Z) (R : Experiment -> Experiment -> Prop)
  (s1 s2 : Experiment) : Prop :=
  random_state s1 = Some seed /\ R s1 s2.

(** A method does the same from any two related experiments: the same
    outcome, and related experiments again. *)
Definition agrees {A} (Rpre Rpost : Experiment -> Experiment -> Prop)
  (m : M Experiment A) : Prop :=
  forall s1 s2,
    Rpre s1 s2 ->
    fst (m s1) = fst (m s2) /\ Rpost (snd (m s1)) (snd (m s2)).

(** ** A small stand-in for the library

    Its grid search reads the outcome off the grid: a grid with a
    parameter [raise] fails to fit, a grid with a parameter [score]
    whose first candidate is a float has that float as best score, any
    other grid gives NaN. Nothing in it draws from the generator. *)

Module Toy.

Fixpoint grid_lookup (k : string) (g : param_grid) : option (list pyval) :=
  match g with
  | [] => None
  | (k', vs) :: rest => if String.eqb k k' then Some vs else grid_lookup k rest
  end.

Definition fit (est : estimator) (g : param_grid)
  (scoring : estimator -> outcome float) (X : ndarray) (w : rng_state)
  : outcome grid_result * rng_state :=
  match grid_lookup "raise" g with
  | Some _ => (Raise (LibraryError "fit failed"), w)
  | None =>
      match grid_lookup "score" g with
      | Some (PFloat x :: _) =>
          (Return {| best_score_ := x; best_params_ := [("score", PFloat x)] |},
           w)
      | _ => (Return {| best_score_ := PyFloat.nan; best_params_ := [] |}, w)
      end
  end.

Definition sklearn : Sklearn :=
  {| _shuffle := fun d _ w => (Return (d, [], []), w);
     fit_transform := fun d => Return d;
     GridSearchCV_fit := fit;
     consensus_score := fun _ _ => Return PyFloat.zero;
     index_columns := fun a _ => Return a |}.

End Toy.

(** ** Concrete inputs

    A tracker over one class and two families, and the results of trials
    that family [A] wins with score 0.5. *)

Module Example.

Definition A : model := {| name__ := "A" |}.
Definition B : model := {| name__ := "B" |}.

(** 0.5, 0.25 and 0.75 in their binary64 encodings: a mantissa of 53
    bits, [2^52] or [3 * 2^51], and the exponent that goes with it. *)
Definition half : float :=
  S754_finite false 4503599627370496 (-53).
Definition quarter : float :=
  S754_finite false 4503599627370496 (-54).
Definition three_quarters : float :=
  S754_finite false 6755399441055744 (-53).

Definition est_A : estimator := construct A [].
Definition est_B : estimator := construct B [].

Definition tracker0 : PerformanceTracker :=
  Tracker.init ["dense"] ["A"; "B"].

Definition results_A : pydict result :=
  [("dense", Some ("A", est_A, half))].

Definition results_B : pydict result :=
  [("dense", Some ("B", est_B, quarter))].

Definition tracker1 : PerformanceTracker :=
  snd (Tracker.update_stats results_A tracker0).

Definition tracker2 : PerformanceTracker :=
  snd (for_each [results_A; results_B] Tracker.update_stats tracker0).

(** Families for the stand-in library, with their best scores. *)
Definition scoring (x : float) : param_grid := [("score", [PFloat x])].
Definition broken : param_grid := [("raise", [])].

Definition dense_data : pydict ndarray := [("dense", [[half]])].
Definition dense_rows : pydict indicator := [("dense", [[true]])].
Definition dense_cols : pydict indicator := [("dense", [[true]])].
Definition dense_entry : dataset_entry :=
  (dense_data, dense_rows, dense_cols).

(** An experiment over [fams], quiet, with the default seed, about to
    compare the models on the class [dense]. *)
Definition experiment (fams : list (model * param_grid)) (n : Z)
  : Experiment :=
  set_rows_cols (Some [[true]]) (Some [[true]])
    (set_data (Some [[half]])
       (MultiExperiment_init fams n 0 default_random_state 0%N)).

(** What the stand-in grid search returns for the grid [scoring x]. *)
Definition fitted (x : float) : grid_result :=
  {| best_score_ := x; best_params_ := [("score", PFloat x)] |}.

Definition C : model := {| name__ := "C" |}.

(** An estimator fitted to no row bicluster at all. *)
Definition est_empty : estimator :=
  {| est_class := A; est_kwargs := [];
     biclusters_ := Some ([], [[true]]) |}.

(** [A] and [B] tie at 0.5, above [C]. *)
Definition st_tie : Experiment :=
  experiment [(C, scoring quarter); (A, scoring half); (B, scoring half)] 1.

(** Every best score is NaN. *)
Definition st_nan : Experiment := experiment [(A, []); (B, [])] 1.

(** The fit of [A] raises; [B] alone would score 0.5. *)
Definition st_broken : Experiment :=
  experiment [(A, broken); (B, scoring half)] 1.
Definition st_only_B : Experiment := experiment [(B, scoring half)] 1.

(** Three runs over one class group, and the experiment they leave. *)
Definition st_runs : Experiment :=
  experiment [(A, scoring half); (B, scoring quarter)] 3.

Definition st_runs_done : Experiment :=
  Eval vm_compute in
    snd (execute_all (sk := Toy.sklearn) [dense_entry] ["dense"] "score"
           st_runs).

End Example.

(** ** Further observations on the tracker *)

(** The classes of a nested mapping with the families of each, in
    insertion order. *)
Definition shape {V} (d : pydict (pydict V)) : list (string * list string) :=
  map (fun ci => (fst ci, PyDict.keys (snd ci))) d.

(** The score that the results [r] of one trial record for family [f] in
    class [c]: the score of the class when [f] is its winner. *)
Definition won_score (c f : string) (r : pydict result) : list float :=
  match PyDict.get c r with
  | Some (Some (name, _, score)) =>
      if String.eqb name f then [score] else []
  | _ => []
  end.

(** The scores with which [f] won class [c] over the trials [rs], in the
    order of the trials. *)
Definition won_scores (c f : string) (rs : list (pydict result))
  : list float :=
  flat_map (won_score c f) rs.

(** What one call of [update_stats] with the results [r] records for
    family [f] in class [c]: the score of the class when [f] is its
    winner, once for every time that [c] stands in the test classes
    [tcs] (once, when the labels are distinct). *)
Definition recorded (tcs : list string) (c f : string) (r : pydict result)
  : list float :=
  List.concat (repeat (won_score c f r) (count_occ string_dec tcs c)).

Module Cases.

(** A tracker over two classes. *)
Definition tracker_two : PerformanceTracker :=
  Tracker.init ["dense"; "sparse"] ["A"; "B"].

(** Results that lack the class [sparse]. *)
Definition results_dense_only : pydict result :=
  [("dense", Some ("A", Example.est_A, Example.half))].

(** Results that name a family that is not registered. *)
Definition results_unknown : pydict result :=
  [("dense", Some ("A", Example.est_A, Example.half));
   ("sparse", Some ("Z", Example.est_A, Example.half))].

Definition tracker_two_dense : PerformanceTracker :=
  Eval vm_compute in
    snd (for_each ["dense"] (Tracker.update_class results_dense_only)
           tracker_two).

End Cases.

(** A tracker with the classes and families of the fresh tracker over
    [tcs] and [ms]. *)
Definition fresh_shape (tcs ms : list string) (t : PerformanceTracker)
  : Prop :=
  shape (winning_stats t) = shape (winning_stats (Tracker.init tcs ms)) /\
  shape (model_scores t) = shape (model_scores (Tracker.init tcs ms)).

(** ** Further observations on the experiment *)

(** The place of a float that is not NaN in the order of the floats:
    triples compared lexicographically, by sign class, then exponent,
    then mantissa. *)
Definition float_key (x : float) : Z * Z * Z :=
  match x with
  | S754_infinity true => (-2, 0, 0)
  | S754_finite true m e => (-1, - e, - Zpos m)
  | S754_zero _ => (0, 0, 0)
  | S754_nan => (0, 0, 0)
  | S754_finite false m e => (1, e, Zpos m)
  | S754_infinity false => (2, 0, 0)
  end.

Definition key_lt (a b : Z * Z * Z) : Prop :=
  fst (fst a) < fst (fst b) \/
  (fst (fst a) = fst (fst b) /\
   (snd (fst a) < snd (fst b) \/
    (snd (fst a) = snd (fst b) /\ snd a < snd b))).

(** From [s] to [s'] nothing was assigned but the shuffle indices, and
    nothing else changed but the state of the generator. *)
Definition untouched (s s' : Experiment) : Prop :=
  keeps s s' /\
  results s' = results s /\ _data s' = _data s /\
  _rows s' = _rows s /\ _cols s' = _cols s.

(** A result that [update_stats] can record for a tracker over the
    families [labels]. *)
Definition recordable (labels : list string) (v : result) : Prop :=
  exists name est score, v = Some (name, est, score) /\ In name labels.

(** ** The reports of [MultiExperiment]

    [np.mean] and [np.std] are numpy's: fields of the class [Numpy]. A
    [DataFrame] with an index is the list of its index labels with their
    rows. *)

Class Numpy : Type := {
  np_mean : list float -> float;
  np_std : list float -> float
}.

(** [MultiExperiment.best_models] *)
Definition best_models (self : Experiment) : option (pydict result) :=
  results self.

(** [MultiExperiment.model_votes] *)
Definition model_votes (self : Experiment) : outcome (pydict (pydict Z)) :=
  match _tracker self with
  | Some t => Return (winning_stats t)
  | None => Raise (AttributeError "'NoneType' object has no attribute")
  end.

(** A row of the report: model, avg score, std score. *)
Definition report_row : Type := string * float * float.

(** The body of the loop of [performance_report], on the locals
    [score_stats] and [test_classes]. *)
Definition report_class {np : Numpy} (t : PerformanceTracker)
  (item : string * string) : M (list report_row * list string) unit :=
  inner <- lift (PyDict.getitem (fst item) (model_scores t)) ;;
  win_scores <- lift (PyDict.getitem (snd item) inner) ;;
  modify (fun loc =>
            (fst loc ++ [(snd item, np_mean win_scores, np_std win_scores)],
             snd loc ++ [fst item])).

(** [MultiExperiment.performance_report] *)
Definition performance_report {np : Numpy} (self : Experiment)
  : outcome (list (string * report_row)) :=
  match class_winners self with
  | Raise e => Raise e
  | Return winners =>
      match _tracker self with
      | None => Raise (AttributeError "'NoneType' object has no attribute")
      | Some t =>
          match for_each (PyDict.items winners) (report_class t) ([], []) with
          | (Return _, (score_stats, tcs)) => Return (combine tcs score_stats)
          | (Raise e, _) => Raise e
          end
      end
  end.

(** The row that the report holds for the class and winner [item]. *)
Definition reports {np : Numpy} (t : PerformanceTracker)
  (item : string * string) (row : report_row) : Prop :=
  exists h,
    lookup2 (model_scores t) (fst item) (snd item) = Some h /\
    row = (snd item, np_mean h, np_std h).

Module ToyNumpy.

(** A stand-in for numpy: the first score for the mean, zero for the
    deviation. *)
Definition numpy : Numpy :=
  {| np_mean := fun l => hd PyFloat.nan l;
     np_std := fun _ => PyFloat.zero |}.

End ToyNumpy.

Module MoreCases.

(** The experiment of [Example.st_runs] after [execute] on the class
    group, and with a fresh tracker. *)
Definition st_executed : Experiment :=
  Eval vm_compute in
    snd (execute (sk := Toy.sklearn) Example.dense_data
           (Example.dense_rows, Example.dense_cols) "score" Example.st_runs).

Definition st_tracked : Experiment :=
  set_tracker (Some Example.tracker0) Example.st_runs.

Definition st_tracked_executed : Experiment :=
  Eval vm_compute in
    snd (execute (sk := Toy.sklearn) Example.dense_data
           (Example.dense_rows, Example.dense_cols) "score" st_tracked).

(** An experiment that is to run no trial. *)
Definition st_no_run : Experiment :=
  Example.experiment
    [(Example.A, Example.scoring Example.half);
     (Example.B, Example.scoring Example.quarter)] 0.

(** An experiment holding the tracker of two trials, one won by each
    family. *)
Definition st_reported : Experiment :=
  set_tracker (Some Example.tracker2) Example.st_runs.

Definition st_tie_done : Experiment :=
  Eval vm_compute in snd (score_eval (sk := Toy.sklearn) Example.st_tie).

End MoreCases.

(*MARK-CONCRETE*)

(** * Properties *)

(** ** Comparison of floats *)

Lemma compare_cont_Eq_antisym (p q : positive) :
  Pos.compare_cont Eq p q = CompOpp (Pos.compare_cont Eq q p).
Proof. rewrite (Pos.compare_cont_antisym q p Eq). reflexivity. Qed.

Lemma SFcompare_antisym (a b : float) :
  SFcompare a b = option_map CompOpp (SFcompare b a).
Proof.
  destruct a as [sa|sa| |sa ma ea], b as [sb|sb| |sb mb eb]; simpl;
    try reflexivity;
    try (destruct sa; reflexivity); try (destruct sb; reflexivity);
    try (destruct sa, sb; reflexivity).
  destruct sa, sb; try reflexivity; f_equal;
    rewrite (Z.compare_antisym eb ea);
    destruct (eb ?= ea)%Z; simpl; try reflexivity;
    rewrite (compare_cont_Eq_antisym ma mb);
    destruct (Pos.compare_cont Eq mb ma); reflexivity.
Qed.

Lemma SFcompare_nan (a b : float) :
  SFcompare a b = None -> PyFloat.is_nan a = true \/ PyFloat.is_nan b = true.
Proof.
  destruct a as [sa|sa| |sa ma ea], b as [sb|sb| |sb mb eb]; simpl;
    try discriminate; auto.
Qed.

Lemma gt_irrefl (a : float) : PyFloat.gt a a = false.
Proof.
  unfold PyFloat.gt, SFltb.
  destruct a as [s|s| |s m e]; simpl; try reflexivity.
  - destruct s; reflexivity.
  - destruct s; rewrite Z.compare_refl, Pos.compare_cont_refl; reflexivity.
Qed.

Lemma gt_not_nan (a b : float) :
  PyFloat.gt a b = true -> PyFloat.is_nan a = false /\ PyFloat.is_nan b = false.
Proof.
  unfold PyFloat.gt, SFltb.
  destruct a as [sa|sa| |sa ma ea], b as [sb|sb| |sb mb eb]; simpl;
    try discriminate; auto.
Qed.

Lemma eq_not_nan (a b : float) :
  PyFloat.eq a b = true -> PyFloat.is_nan a = false /\ PyFloat.is_nan b = false.
Proof.
  unfold PyFloat.eq, SFeqb.
  destruct a as [sa|sa| |sa ma ea], b as [sb|sb| |sb mb eb]; simpl;
    try discriminate; auto.
Qed.

Lemma nan_never_gt (b : float) : PyFloat.gt PyFloat.nan b = false.
Proof. unfold PyFloat.gt, SFltb. destruct b; reflexivity. Qed.

(** On two floats that are not NaN, one of [a > b], [a == b], [b > a]
    holds. *)
Lemma gt_trichotomy (a b : float) :
  PyFloat.is_nan a = false -> PyFloat.is_nan b = false ->
  PyFloat.gt a b = false -> PyFloat.eq a b = false -> PyFloat.gt b a = true.
Proof.
  unfold PyFloat.gt, PyFloat.eq, SFltb, SFeqb. intros Ha Hb.
  rewrite (SFcompare_antisym b a).
  destruct (SFcompare a b) as [[ | | ]|] eqn:E; simpl;
    try discriminate; try reflexivity.
  destruct (SFcompare_nan _ _ E); congruence.
Qed.

Lemma gt_asym (a b : float) : PyFloat.gt a b = true -> PyFloat.gt b a = false.
Proof.
  unfold PyFloat.gt, SFltb. rewrite (SFcompare_antisym a b).
  destruct (SFcompare b a) as [[ | | ]|]; simpl; congruence.
Qed.

Lemma eq_not_gt (a b : float) : PyFloat.eq a b = true -> PyFloat.gt b a = false.
Proof.
  unfold PyFloat.gt, PyFloat.eq, SFltb, SFeqb.
  destruct (SFcompare a b) as [[ | | ]|]; simpl; congruence.
Qed.

(** ** Dictionaries *)

Lemma get_set {V} (k k' : string) (v : V) (d : pydict V) :
  PyDict.get k' (PyDict.set k v d) =
  if String.eqb k' k then Some v else PyDict.get k' d.
Proof.
  induction d as [|[k0 v0] d IH]; simpl.
  - destruct (String.eqb k' k); reflexivity.
  - destruct (String.eqb_spec k k0) as [->|Hk]; simpl.
    + destruct (String.eqb k' k0); reflexivity.
    + rewrite IH.
      destruct (String.eqb_spec k' k0) as [->|Hk'].
      * destruct (String.eqb_spec k0 k); [congruence | reflexivity].
      * reflexivity.
Qed.

Lemma get_set_same {V} (k : string) (v : V) (d : pydict V) :
  PyDict.get k (PyDict.set k v d) = Some v.
Proof. rewrite get_set, String.eqb_refl. reflexivity. Qed.

Lemma get_set_other {V} (k k' : string) (v : V) (d : pydict V) :
  k' <> k -> PyDict.get k' (PyDict.set k v d) = PyDict.get k' d.
Proof.
  intros H. rewrite get_set.
  destruct (String.eqb_spec k' k); [contradiction | reflexivity].
Qed.


Lemma mem_In (k : string) (ks : list string) : mem k ks = true <-> In k ks.
Proof.
  unfold mem. rewrite existsb_exists. split.
  - intros [x [Hin Hx]]. apply String.eqb_eq in Hx. subst. assumption.
  - intros Hin. exists k. split; [assumption | apply String.eqb_refl].
Qed.

(** A loop of assignments [d[k] = f(k)]: a key of the loop maps to its
    value, any other key is as before. *)
Lemma get_fold_set {V} (f : string -> V) (ks : list string) :
  forall (d0 : pydict V) (k : string),
    PyDict.get k (fold_left (fun d x => PyDict.set x (f x) d) ks d0) =
    if mem k ks then Some (f k) else PyDict.get k d0.
Proof.
  induction ks as [|x ks IH]; intros d0 k; simpl.
  - reflexivity.
  - rewrite IH, get_set.
    destruct (String.eqb_spec k x) as [->|Hk]; simpl.
    + destruct (mem x ks); reflexivity.
    + reflexivity.
Qed.

Lemma get_comprehension {V} (f : string -> V) (ks : list string) (k : string) :
  PyDict.get k (PyDict.comprehension f ks) =
  if mem k ks then Some (f k) else None.
Proof. unfold PyDict.comprehension. rewrite get_fold_set. reflexivity. Qed.

Lemma lookup2_update {V} (d : pydict (pydict V)) (tc name : string)
  (inner : pydict V) (v : V) (c f : string) :
  PyDict.get tc d = Some inner ->
  lookup2 (PyDict.set tc (PyDict.set name v inner) d) c f =
  if (String.eqb c tc && String.eqb f name)%bool then Some v
  else lookup2 d c f.
Proof.
  intros Hd. unfold lookup2. rewrite get_set.
  destruct (String.eqb_spec c tc) as [->|Hc]; simpl.
  - rewrite get_set, Hd. reflexivity.
  - reflexivity.
Qed.

(** ** Loops *)

Lemma for_each_cons {S A} (x : A) (l : list A) (body : A -> M S unit) (s : S) :
  for_each (x :: l) body s =
  match body x s with
  | (Return _, s') => for_each l body s'
  | (Raise e, s') => (Raise e, s')
  end.
Proof. reflexivity. Qed.

(** What every step of a loop preserves holds when the loop stops,
    whether it ends or raises. *)
Lemma for_each_preserves {S A} (P : S -> Prop) (body : A -> M S unit) :
  (forall x s, P s -> P (snd (body x s))) ->
  forall l s, P s -> P (snd (for_each l body s)).
Proof.
  intros Hbody l. induction l as [|x l IH]; intros s Hs; simpl.
  - assumption.
  - unfold bind. specialize (Hbody x s Hs).
    destruct (body x s) as [[u|e] s']; simpl in *.
    + apply IH. assumption.
    + assumption.
Qed.

(** A loop that returns went through every step, each of which returned. *)
Lemma for_each_returns {S A} (P : S -> Prop) (body : A -> M S unit) :
  (forall x s s', P s -> body x s = (Return tt, s') -> P s') ->
  forall l s s', P s -> for_each l body s = (Return tt, s') -> P s'.
Proof.
  intros Hbody l. induction l as [|x l IH]; intros s s' Hs Hrun; simpl in Hrun.
  - unfold ret in Hrun. inversion Hrun. subst. assumption.
  - unfold bind in Hrun.
    destruct (body x s) as [[[]|e] s1] eqn:E.
    + eapply IH; [|eassumption]. eapply Hbody; eassumption.
    + discriminate.
Qed.

(** ** PerformanceTracker: one step of [update_stats] *)


Lemma update_class_eq (results : pydict result) (tc : string)
  (t : PerformanceTracker) :
  Tracker.update_class results tc t =
  match PyDict.get tc results with
  | None => (Raise (KeyError tc), t)
  | Some None => (Raise none_unpack, t)
  | Some (Some (name, _, score)) =>
      match PyDict.get tc (winning_stats t) with
      | None => (Raise (KeyError tc), t)
      | Some wi =>
          match PyDict.get name wi with
          | None => (Raise (KeyError name), t)
          | Some n =>
              let t1 :=
                Tracker.set_winning_stats
                  (PyDict.set tc (PyDict.set name (n + 1) wi)
                     (winning_stats t)) t in
              match PyDict.get tc (model_scores t) with
              | None => (Raise (KeyError tc), t1)
              | Some si =>
                  match PyDict.get name si with
                  | None => (Raise (KeyError name), t1)
                  | Some h =>
                      (Return tt,
                       Tracker.set_model_scores
                         (PyDict.set tc (PyDict.set name (h ++ [score]) si)
                            (model_scores t)) t1)
                  end
              end
          end
      end
  end.
Proof.
  unfold Tracker.update_class, Tracker.incr_win, Tracker.append_score,
    bind, lift, get, put, PyDict.getitem, unpack3.
  destruct (PyDict.get tc results) as [[[[name est] score]|]|]; try reflexivity.
  destruct (PyDict.get tc (winning_stats t)) as [wi|]; try reflexivity.
  destruct (PyDict.get name wi) as [n|]; try reflexivity.
  simpl.
  destruct (PyDict.get tc (model_scores t)) as [si|]; try reflexivity.
  destruct (PyDict.get name si) as [h|]; reflexivity.
Qed.


Lemma grows_refl (t : PerformanceTracker) : grows t t.
Proof.
  intros c f h n Hh Hn. exists []. rewrite app_nil_r, Z.add_0_r. auto.
Qed.

Lemma grows_trans (t1 t2 t3 : PerformanceTracker) :
  grows t1 t2 -> grows t2 t3 -> grows t1 t3.
Proof.
  intros H12 H23 c f h n Hh Hn.
  destruct (H12 c f h n Hh Hn) as [s1 [Hh2 Hn2]].
  destruct (H23 c f _ _ Hh2 Hn2) as [s2 [Hh3 Hn3]].
  exists (s1 ++ s2). rewrite app_assoc, length_app, Nat2Z.inj_add.
  split; [assumption|]. rewrite Hn3. f_equal. lia.
Qed.

Lemma update_class_grows (results : pydict result) (tc : string)
  (t : PerformanceTracker) :
  grows t (snd (Tracker.update_class results tc t)).
Proof.
  rewrite update_class_eq.
  destruct (PyDict.get tc results) as [[[[name est] score]|]|];
    try apply grows_refl.
  destruct (PyDict.get tc (winning_stats t)) as [wi|] eqn:Hwi;
    try apply grows_refl.
  destruct (PyDict.get name wi) as [n0|] eqn:Hn0; try apply grows_refl.
  cbv zeta.
  destruct (PyDict.get tc (model_scores t)) as [si|] eqn:Hsi.
  2:{ intros c f h n Hh Hn. simpl.
      exists []. rewrite app_nil_r, Z.add_0_r. split; [assumption|].
      rewrite (lookup2_update _ _ _ _ _ _ _ Hwi).
      destruct (String.eqb_spec c tc) as [->|]; simpl; [|assumption].
      unfold lookup2 in Hh. rewrite Hsi in Hh. discriminate. }
  destruct (PyDict.get name si) as [h0|] eqn:Hh0.
  2:{ intros c f h n Hh Hn. simpl.
      exists []. rewrite app_nil_r, Z.add_0_r. split; [assumption|].
      rewrite (lookup2_update _ _ _ _ _ _ _ Hwi).
      destruct (String.eqb_spec c tc) as [->|]; simpl; [|assumption].
      destruct (String.eqb_spec f name) as [->|]; simpl; [|assumption].
      unfold lookup2 in Hh. rewrite Hsi, Hh0 in Hh. discriminate. }
  intros c f h n Hh Hn. simpl.
  rewrite (lookup2_update _ _ _ _ _ _ _ Hwi).
  rewrite (lookup2_update _ _ _ _ _ _ _ Hsi).
  destruct (String.eqb c tc && String.eqb f name)%bool eqn:E.
  - apply andb_true_iff in E. destruct E as [Ec Ef].
    apply String.eqb_eq in Ec, Ef. subst c f.
    unfold lookup2 in Hh, Hn. rewrite Hsi, Hh0 in Hh. rewrite Hwi, Hn0 in Hn.
    inversion Hh. inversion Hn. subst. exists [score]. auto.
  - exists []. rewrite app_nil_r, Z.add_0_r. auto.
Qed.

Lemma update_stats_grows (results : pydict result) (t : PerformanceTracker) :
  grows t (snd (Tracker.update_stats results t)).
Proof.
  unfold Tracker.update_stats, bind, get.
  apply (for_each_preserves (grows t)).
  - intros x s Hs. eapply grows_trans; [exact Hs | apply update_class_grows].
  - apply grows_refl.
Qed.

(** ** PerformanceTracker: the fresh tracker *)

Lemma init_winning_stats (tcs ms : list string) (c f : string) :
  lookup2 (winning_stats (Tracker.init tcs ms)) c f =
  if (mem c tcs && mem f ms)%bool then Some 0 else None.
Proof.
  unfold lookup2. simpl. unfold Tracker._setup_model_win_stats.
  rewrite (get_fold_set (fun _ => PyDict.comprehension (fun _ => 0) ms)).
  destruct (mem c tcs); simpl; [|reflexivity].
  exact (get_comprehension (fun _ => 0) ms f).
Qed.

Lemma init_model_scores (tcs ms : list string) (c f : string) :
  lookup2 (model_scores (Tracker.init tcs ms)) c f =
  if (mem c tcs && mem f ms)%bool then Some [] else None.
Proof.
  unfold lookup2. simpl. unfold Tracker._setup_model_score_stats.
  rewrite (get_fold_set
             (fun _ => PyDict.comprehension (fun _ => @nil float) ms)).
  destruct (mem c tcs); simpl; [|reflexivity].
  exact (get_comprehension (fun _ => @nil float) ms f).
Qed.


Lemma init_consistent (tcs ms : list string) : consistent (Tracker.init tcs ms).
Proof.
  intros c f. rewrite init_winning_stats, init_model_scores.
  destruct (mem c tcs && mem f ms)%bool; reflexivity.
Qed.

Lemma update_class_consistent (results : pydict result) (tc : string)
  (t : PerformanceTracker) :
  consistent t -> consistent (snd (Tracker.update_class results tc t)).
Proof.
  intros Ht. rewrite update_class_eq.
  destruct (PyDict.get tc results) as [[[[name est] score]|]|];
    try exact Ht.
  destruct (PyDict.get tc (winning_stats t)) as [wi|] eqn:Hwi; try exact Ht.
  destruct (PyDict.get name wi) as [n0|] eqn:Hn0; try exact Ht.
  pose proof (Ht tc name) as Hpair. unfold lookup2 in Hpair.
  rewrite Hwi, Hn0 in Hpair. cbv zeta.
  destruct (PyDict.get tc (model_scores t)) as [si|] eqn:Hsi;
    [|discriminate].
  destruct (PyDict.get name si) as [h0|] eqn:Hh0; [|discriminate].
  simpl in Hpair. inversion Hpair as [Hlen]. clear Hpair.
  intros c f. simpl.
  rewrite (lookup2_update _ _ _ _ _ _ _ Hwi).
  rewrite (lookup2_update _ _ _ _ _ _ _ Hsi).
  destruct (String.eqb c tc && String.eqb f name)%bool.
  - simpl. rewrite length_app, Nat2Z.inj_add. reflexivity.
  - apply Ht.
Qed.

Lemma update_stats_consistent (results : pydict result)
  (t : PerformanceTracker) :
  consistent t -> consistent (snd (Tracker.update_stats results t)).
Proof.
  intros Ht. unfold Tracker.update_stats, bind, get.
  apply (for_each_preserves consistent); [|assumption].
  intros x s Hs. apply update_class_consistent. assumption.
Qed.

(** What one returning pass of the loop of [update_stats] does: the
    winner of the class has its counter raised by one and its score
    appended, and no other entry changes. *)
Lemma update_class_returns (results : pydict result) (tc : string)
  (t t' : PerformanceTracker) :
  Tracker.update_class results tc t = (Return tt, t') ->
  exists name est score n h,
    PyDict.get tc results = Some (Some (name, est, score)) /\
    lookup2 (winning_stats t) tc name = Some n /\
    lookup2 (model_scores t) tc name = Some h /\
    (forall c f,
        lookup2 (winning_stats t') c f =
        if (String.eqb c tc && String.eqb f name)%bool then Some (n + 1)
        else lookup2 (winning_stats t) c f) /\
    (forall c f,
        lookup2 (model_scores t') c f =
        if (String.eqb c tc && String.eqb f name)%bool
        then Some (h ++ [score])
        else lookup2 (model_scores t) c f).
Proof.
  rewrite update_class_eq.
  destruct (PyDict.get tc results) as [[[[name est] score]|]|];
    try discriminate.
  destruct (PyDict.get tc (winning_stats t)) as [wi|] eqn:Hwi;
    try discriminate.
  destruct (PyDict.get name wi) as [n0|] eqn:Hn0; try discriminate.
  cbv zeta.
  destruct (PyDict.get tc (model_scores t)) as [si|] eqn:Hsi;
    try discriminate.
  destruct (PyDict.get name si) as [h0|] eqn:Hh0; try discriminate.
  intros Heq. inversion Heq. subst t'. clear Heq.
  exists name, est, score, n0, h0. unfold lookup2 at 1 2.
  rewrite Hwi, Hsi. repeat split; try assumption.
  - intros c f. simpl. apply lookup2_update. assumption.
  - intros c f. simpl. apply lookup2_update. assumption.
Qed.

(** ** PerformanceTracker: the wins of a class *)

Lemma dict_sum_set (k : string) (v v' : Z) (d : pydict Z) :
  PyDict.get k d = Some v ->
  dict_sum (PyDict.set k v' d) = dict_sum d - v + v'.
Proof.
  induction d as [|[k0 v0] d IH]; simpl; [discriminate|].
  destruct (String.eqb_spec k k0) as [->|Hk]; simpl.
  - intros H. inversion H. subst. lia.
  - intros H. rewrite (IH H). lia.
Qed.

Lemma dict_sum_zeros (ks : list string) :
  dict_sum (PyDict.comprehension (fun _ => 0) ks) = 0.
Proof.
  unfold PyDict.comprehension.
  assert (Hgen : forall d0 : pydict Z,
             Forall (fun kv => snd kv = 0) d0 ->
             Forall (fun kv => snd kv = 0)
               (fold_left (fun d x => PyDict.set x 0 d) ks d0)).
  { induction ks as [|x ks IH]; intros d0 Hd0; simpl; [assumption|].
    apply IH. clear IH. induction Hd0 as [|[k0 v0] d Hkv Hd IHd]; simpl.
    - constructor; [reflexivity | constructor].
    - destruct (String.eqb x k0); constructor; auto. }
  specialize (Hgen PyDict.empty (Forall_nil _)).
  induction Hgen as [|[k0 v0] d Hkv Hd IHd]; simpl in *; lia.
Qed.

Lemma init_total_wins (tcs ms : list string) (c : string) :
  total_wins (Tracker.init tcs ms) c = if mem c tcs then Some 0 else None.
Proof.
  unfold total_wins. simpl. unfold Tracker._setup_model_win_stats.
  rewrite (get_fold_set (fun _ => PyDict.comprehension (fun _ => 0) ms)).
  destruct (mem c tcs); simpl; [|reflexivity].
  rewrite dict_sum_zeros. reflexivity.
Qed.

Lemma update_class_test_classes (results : pydict result) (tc : string)
  (t : PerformanceTracker) :
  test_classes (snd (Tracker.update_class results tc t)) = test_classes t.
Proof.
  rewrite update_class_eq.
  destruct (PyDict.get tc results) as [[[[name est] score]|]|];
    try reflexivity.
  destruct (PyDict.get tc (winning_stats t)) as [wi|]; try reflexivity.
  destruct (PyDict.get name wi) as [n0|]; try reflexivity.
  cbv zeta.
  destruct (PyDict.get tc (model_scores t)) as [si|]; try reflexivity.
  destruct (PyDict.get name si) as [h0|]; reflexivity.
Qed.

Lemma update_stats_test_classes (results : pydict result)
  (t : PerformanceTracker) :
  test_classes (snd (Tracker.update_stats results t)) = test_classes t.
Proof.
  unfold Tracker.update_stats, bind, get.
  apply (for_each_preserves (fun s => test_classes s = test_classes t));
    [|reflexivity].
  intros x s Hs. rewrite update_class_test_classes. assumption.
Qed.

(** A returning pass of the loop adds one win to its class and none to
    any other class. *)
Lemma update_class_total (results : pydict result) (tc : string)
  (t t' : PerformanceTracker) (c : string) :
  Tracker.update_class results tc t = (Return tt, t') ->
  total_wins t' c =
  option_map (fun s => if String.eqb c tc then s + 1 else s) (total_wins t c).
Proof.
  rewrite update_class_eq.
  destruct (PyDict.get tc results) as [[[[name est] score]|]|];
    try discriminate.
  destruct (PyDict.get tc (winning_stats t)) as [wi|] eqn:Hwi;
    try discriminate.
  destruct (PyDict.get name wi) as [n0|] eqn:Hn0; try discriminate.
  cbv zeta.
  destruct (PyDict.get tc (model_scores t)) as [si|] eqn:Hsi;
    try discriminate.
  destruct (PyDict.get name si) as [h0|] eqn:Hh0; try discriminate.
  intros Heq. inversion Heq. subst t'. clear Heq.
  unfold total_wins. simpl. rewrite get_set.
  destruct (String.eqb_spec c tc) as [->|Hc]; simpl.
  - rewrite Hwi. simpl. rewrite (dict_sum_set _ _ _ _ Hn0). f_equal. lia.
  - destruct (PyDict.get c (winning_stats t)); reflexivity.
Qed.

(** A returning loop over the classes [l] adds to a class as many wins as
    the class occurs in [l]. *)
Lemma update_loop_total (results : pydict result) (c : string) :
  forall (l : list string) (t t' : PerformanceTracker),
    for_each l (Tracker.update_class results) t = (Return tt, t') ->
    total_wins t' c =
    option_map (fun s => s + Z.of_nat (count_occ string_dec l c))
      (total_wins t c).
Proof.
  induction l as [|x l IH]; intros t t' Hrun.
  - simpl in Hrun. unfold ret in Hrun. inversion Hrun. subst.
    simpl. destruct (total_wins t' c); simpl; [|reflexivity].
    f_equal. lia.
  - rewrite for_each_cons in Hrun.
    destruct (Tracker.update_class results x t) as [[[]|e] t1] eqn:E;
      [|discriminate].
    rewrite (IH _ _ Hrun), (update_class_total _ _ _ _ c E).
    destruct (total_wins t c) as [s|]; simpl; [|reflexivity].
    f_equal. destruct (string_dec x c) as [->|Hx].
    + rewrite String.eqb_refl. lia.
    + destruct (String.eqb_spec c x); [congruence | lia].
Qed.

Lemma count_occ_NoDup_In (l : list string) (c : string) :
  NoDup l -> In c l -> count_occ string_dec l c = 1%nat.
Proof.
  intros Hnd Hin.
  pose proof (proj1 (NoDup_count_occ string_dec l) Hnd c) as Hle.
  pose proof (proj1 (count_occ_In string_dec l c) Hin) as Hgt.
  lia.
Qed.

Lemma update_stats_total (results : pydict result)
  (t t' : PerformanceTracker) (c : string) (k : Z) :
  NoDup (test_classes t) -> In c (test_classes t) ->
  total_wins t c = Some k ->
  Tracker.update_stats results t = (Return tt, t') ->
  total_wins t' c = Some (k + 1).
Proof.
  intros Hnd Hin Hk Hrun.
  unfold Tracker.update_stats, bind, get in Hrun.
  rewrite (update_loop_total _ c _ _ _ Hrun), Hk. simpl.
  rewrite (count_occ_NoDup_In _ _ Hnd Hin). reflexivity.
Qed.

Lemma update_sequence_total (tcs : list string) (c : string) :
  NoDup tcs -> In c tcs ->
  forall (rs : list (pydict result)) (t t' : PerformanceTracker) (k : Z),
    test_classes t = tcs ->
    total_wins t c = Some k ->
    for_each rs Tracker.update_stats t = (Return tt, t') ->
    total_wins t' c = Some (k + Z.of_nat (List.length rs)).
Proof.
  intros Hnd Hin. induction rs as [|r rs IH]; intros t t' k Htcs Hk Hrun.
  - simpl in Hrun. unfold ret in Hrun. inversion Hrun. subst t'.
    rewrite Hk. f_equal. simpl. lia.
  - rewrite for_each_cons in Hrun.
    destruct (Tracker.update_stats r t) as [[[]|e] t1] eqn:E; [|discriminate].
    assert (Ht1 : test_classes t1 = tcs).
    { pose proof (update_stats_test_classes r t) as H.
      rewrite E in H. simpl in H. congruence. }
    assert (Hk1 : total_wins t1 c = Some (k + 1)).
    { apply (update_stats_total r t t1 c k); try assumption;
        rewrite Htcs; assumption. }
    rewrite (IH t1 t' (k + 1) Ht1 Hk1 Hrun). f_equal.
    simpl List.length. lia.
Qed.

(** A pass of the loop over a class other than [c] leaves every counter
    of [c] as it was. *)
Lemma update_loop_other (results : pydict result) (c : string) :
  forall (l : list string) (t t' : PerformanceTracker),
    ~ In c l ->
    for_each l (Tracker.update_class results) t = (Return tt, t') ->
    forall f, lookup2 (winning_stats t') c f = lookup2 (winning_stats t) c f.
Proof.
  induction l as [|x l IH]; intros t t' Hnin Hrun f.
  - simpl in Hrun. unfold ret in Hrun. inversion Hrun. reflexivity.
  - rewrite for_each_cons in Hrun.
    destruct (Tracker.update_class results x t) as [[[]|e] t1] eqn:E;
      [|discriminate].
    rewrite (IH t1 t' (fun H => Hnin (or_intror H)) Hrun f).
    destruct (update_class_returns _ _ _ _ E)
      as (name & est & score & n & h & _ & _ & _ & Hw & _).
    rewrite Hw.
    destruct (String.eqb_spec c x) as [->|Hc]; simpl.
    + exfalso. apply Hnin. left. reflexivity.
    + reflexivity.
Qed.

(** In a returning call over distinct classes, the win of a class goes to
    the family its result names and to no other. *)
Lemma update_loop_one_family (results : pydict result) (c : string) :
  forall (l : list string) (t t' : PerformanceTracker),
    NoDup l -> In c l ->
    for_each l (Tracker.update_class results) t = (Return tt, t') ->
    exists name est score,
      PyDict.get c results = Some (Some (name, est, score)) /\
      forall f,
        lookup2 (winning_stats t') c f =
        if String.eqb f name
        then option_map Z.succ (lookup2 (winning_stats t) c f)
        else lookup2 (winning_stats t) c f.
Proof.
  induction l as [|x l IH]; intros t t' Hnd Hin Hrun; [contradiction|].
  rewrite for_each_cons in Hrun.
  destruct (Tracker.update_class results x t) as [[[]|e] t1] eqn:E;
    [|discriminate].
  inversion Hnd as [|x' l' Hxl Hndl]. subst x' l'.
  destruct (update_class_returns _ _ _ _ E)
    as (name & est & score & n & h & Hres & Hn & _ & Hw & _).
  destruct (string_dec x c) as [->|Hxc].
  - exists name, est, score. split; [assumption|]. intros f.
    rewrite (update_loop_other results c l t1 t' Hxl Hrun f), Hw.
    rewrite String.eqb_refl. simpl.
    destruct (String.eqb_spec f name) as [->|Hf]; [|reflexivity].
    rewrite Hn. reflexivity.
  - destruct Hin as [Hin|Hin]; [contradiction|].
    destruct (IH t1 t' Hndl Hin Hrun) as (name' & est' & score' & Hres' & Hw').
    exists name', est', score'. split; [assumption|]. intros f.
    rewrite Hw', Hw.
    destruct (String.eqb_spec c x) as [->|Hc]; [congruence|]. reflexivity.
Qed.

(** ** PerformanceTracker: [winner_models] *)

Lemma max_from_keeps (post : list (string * Z)) :
  forall cur,
    (forall x, In x post -> snd x <= snd cur) ->
    Tracker.max_from cur post = cur.
Proof.
  induction post as [|x post IH]; intros cur Hpost; simpl; [reflexivity|].
  assert (Hx : snd x <= snd cur) by (apply Hpost; left; reflexivity).
  destruct (Z.gtb_spec (snd x) (snd cur)) as [Hgt|Hle]; [lia|].
  apply IH. intros y Hy. apply Hpost. right. assumption.
Qed.

Lemma max_from_first (pre post : list (string * Z)) (w : string) (n : Z) :
  forall cur,
    snd cur < n ->
    (forall x, In x pre -> snd x < n) ->
    (forall x, In x post -> snd x <= n) ->
    Tracker.max_from cur (pre ++ (w, n) :: post) = (w, n).
Proof.
  induction pre as [|x pre IH]; intros cur Hcur Hpre Hpost; simpl.
  - destruct (Z.gtb_spec n (snd cur)) as [Hgt|Hle]; [|lia].
    apply max_from_keeps. assumption.
  - apply IH.
    + assert (Hx : snd x < n) by (apply Hpre; left; reflexivity).
      destruct (snd x >? snd cur); assumption.
    + intros y Hy. apply Hpre. right. assumption.
    + assumption.
Qed.

(** [max] hands back the first of the items whose count is maximal. *)
Lemma max_item_first (pre post : list (string * Z)) (w : string) (n : Z) :
  (forall x, In x pre -> snd x < n) ->
  (forall x, In x post -> snd x <= n) ->
  Tracker.max_item (pre ++ (w, n) :: post) = Return (w, n).
Proof.
  intros Hpre Hpost. destruct pre as [|x pre]; simpl.
  - rewrite max_from_keeps; [reflexivity | assumption].
  - rewrite (max_from_first pre post w n); try assumption; try reflexivity.
    + apply Hpre. left. reflexivity.
    + intros y Hy. apply Hpre. right. assumption.
Qed.

Lemma max_item_nonempty (l : list (string * Z)) :
  l <> [] -> exists x, Tracker.max_item l = Return x.
Proof.
  destruct l as [|x l]; [congruence|]. intros _. simpl. eauto.
Qed.

(** The loop of [winner_models] returns as soon as every class has a
    candidate, and then holds the winner of every class. *)
Lemma winner_loop (t : PerformanceTracker) :
  forall (l : list string) (w0 : pydict string),
    (forall c, In c l -> exists w, class_winner t c = Some w) ->
    exists winners,
      for_each l (Tracker.winner_class t) w0 = (Return tt, winners) /\
      forall c, PyDict.get c winners =
                if mem c l then class_winner t c else PyDict.get c w0.
Proof.
  induction l as [|x l IH]; intros w0 Hall.
  - exists w0. split; reflexivity.
  - destruct (Hall x (or_introl eq_refl)) as [wx Hwx].
    destruct (IH (PyDict.set x wx w0)) as [winners [Hrun Hget]].
    { intros c Hc. apply Hall. right. assumption. }
    exists winners. split.
    + rewrite for_each_cons.
      unfold Tracker.winner_class at 1.
      unfold bind, lift, modify, PyDict.getitem.
      unfold class_winner in Hwx.
      destruct (PyDict.get x (winning_stats t)) as [cand|]; [|discriminate].
      destruct (Tracker.max_item (PyDict.items cand)) as [[w n]|e];
        [|discriminate].
      inversion Hwx. subst w. exact Hrun.
    + intros c. rewrite Hget, get_set. simpl.
      destruct (String.eqb_spec c x) as [->|Hc]; simpl.
      * destruct (mem x l); [reflexivity | symmetry; assumption].
      * reflexivity.
Qed.

Lemma winner_models_returns (t : PerformanceTracker) :
  (forall c, In c (test_classes t) -> exists w, class_winner t c = Some w) ->
  exists winners,
    Tracker.winner_models t = Return winners /\
    forall c, In c (test_classes t) ->
              PyDict.get c winners = class_winner t c.
Proof.
  intros Hall.
  destruct (winner_loop t (test_classes t) PyDict.empty Hall)
    as [winners [Hrun Hget]].
  exists winners. unfold Tracker.winner_models. rewrite Hrun.
  split; [reflexivity|]. intros c Hin.
  rewrite Hget, (proj2 (mem_In c _) Hin). reflexivity.
Qed.

(** The counts of a class in a fresh tracker: the first registered label
    comes first, and every count is zero. *)
Lemma comprehension_zeros_head (m0 : string) (ms : list string) :
  exists rest,
    PyDict.comprehension (fun _ => 0) (m0 :: ms) = (m0, 0) :: rest /\
    forall x, In x rest -> snd x <= 0.
Proof.
  unfold PyDict.comprehension. simpl.
  assert (Hgen : forall (ks : list string) (d : pydict Z),
             (forall x, In x d -> snd x <= 0) ->
             exists rest,
               fold_left (fun d x => PyDict.set x 0 d) ks ((m0, 0) :: d)
               = (m0, 0) :: rest /\
               forall x, In x rest -> snd x <= 0).
  { induction ks as [|k ks IH]; intros d Hd; simpl.
    - exists d. auto.
    - destruct (String.eqb k m0).
      + apply IH. assumption.
      + apply IH. clear IH. induction d as [|[k0 v0] d IHd]; simpl.
        * intros x [<-|[]]. simpl. lia.
        * destruct (String.eqb k k0).
          -- intros x [<-|Hx]; [simpl; lia|]. apply Hd. right. assumption.
          -- intros x [<-|Hx].
             ++ apply (Hd (k0, v0)). left. reflexivity.
             ++ apply IHd; [|assumption].
                intros y Hy. apply Hd. right. assumption. }
  apply Hgen. intros x [].
Qed.

Lemma init_class_winner (tcs : list string) (m0 : string) (ms : list string)
  (c : string) :
  In c tcs -> class_winner (Tracker.init tcs (m0 :: ms)) c = Some m0.
Proof.
  intros Hin. unfold class_winner. simpl.
  unfold Tracker._setup_model_win_stats.
  rewrite (get_fold_set
             (fun _ => PyDict.comprehension (fun _ => 0) (m0 :: ms))).
  rewrite (proj2 (mem_In c tcs) Hin).
  destruct (comprehension_zeros_head m0 ms) as [rest [Heq Hrest]].
  rewrite Heq. unfold PyDict.items.
  pose proof (max_item_first [] rest m0 0) as Hmax. simpl app in Hmax.
  rewrite Hmax; [reflexivity | intros x [] | assumption].
Qed.

(** C8. [winner_models] on a fresh tracker over at least one family (no
    [update_stats] yet, every counter zero) returns, and gives every test
    class the family whose label was inserted first. More generally, on
    any tracker whose classes each have a candidate, it returns, and
    gives a class the first, in insertion order, of the families whose
    count is maximal. *)
Theorem winner_models_first_on_tie (tcs : list string) (m0 : string)
  (ms : list string) :
  (exists winners,
      Tracker.winner_models (Tracker.init tcs (m0 :: ms)) = Return winners /\
      forall c, In c tcs -> PyDict.get c winners = Some m0) /\
  (forall t,
      (forall c, In c (test_classes t) ->
                 exists cand,
                   PyDict.get c (winning_stats t) = Some cand /\ cand <> []) ->
      exists winners,
        Tracker.winner_models t = Return winners /\
        forall c pre w n post,
          In c (test_classes t) ->
          PyDict.get c (winning_stats t) = Some (pre ++ (w, n) :: post) ->
          (forall x, In x pre -> snd x < n) ->
          (forall x, In x post -> snd x <= n) ->
          PyDict.get c winners = Some w).
Proof.
  split.
  - destruct (winner_models_returns (Tracker.init tcs (m0 :: ms)))
      as [winners [Hret Hget]].
    { intros c Hin. exists m0. apply init_class_winner. exact Hin. }
    exists winners. split; [assumption|]. intros c Hin.
    rewrite (Hget c Hin). apply init_class_winner. exact Hin.
  - intros t Hcand.
    destruct (winner_models_returns t) as [winners [Hret Hget]].
    { intros c Hin. destruct (Hcand c Hin) as [cand [Hc Hne]].
      unfold class_winner. rewrite Hc.
      destruct (max_item_nonempty (PyDict.items cand) Hne) as [[w n] Hmax].
      rewrite Hmax. eauto. }
    exists winners. split; [assumption|].
    intros c pre w n post Hin Hc Hpre Hpost.
    rewrite (Hget c Hin). unfold class_winner. rewrite Hc.
    unfold PyDict.items. rewrite (max_item_first pre post w n Hpre Hpost).
    reflexivity.
Qed.

(** With no registered family, [max] is called on an empty sequence and
    [winner_models] raises. *)
Lemma winner_models_no_family :
  Tracker.winner_models (Tracker.init ["dense"] []) =
  Raise (ValueError "max() arg is an empty sequence").
Proof. reflexivity. Qed.

Example winner_models_fresh :
  Tracker.winner_models Example.tracker0 = Return [("dense", "A")].
Proof. reflexivity. Qed.

(** ** Experiment *)

Section ExperimentProperties.
Context {sk : Sklearn}.

(** C4. For an estimator whose bicluster row set or column set is empty,
    [jaccard] returns exactly 0.0, whatever the ground truth and the
    shuffle indices of the experiment are, and does not raise. *)
Theorem jaccard_empty_is_zero (self : Experiment) (est : estimator)
  (rows cols : indicator) :
  biclusters_ est = Some (rows, cols) ->
  rows = [] \/ cols = [] ->
  jaccard self est = Return (S754_zero false).
Proof.
  intros Hbi Hempty. unfold jaccard. rewrite Hbi. simpl.
  destruct Hempty as [-> | ->]; simpl.
  - reflexivity.
  - rewrite orb_true_r. reflexivity.
Qed.

(** *** The target of the comparison *)

Lemma compare_models_invalid (target : string) (st : Experiment) :
  target <> "score" -> target <> "time" ->
  compare_models target st = (Raise (invalid_target target), st).
Proof.
  intros Hs Ht. unfold compare_models.
  destruct (String.eqb_spec target "score"); [contradiction|].
  destruct (String.eqb_spec target "time"); [contradiction|].
  reflexivity.
Qed.

Lemma compare_models_time (st : Experiment) :
  compare_models "time" st = (Return None, st).
Proof. reflexivity. Qed.

Lemma execute_key_invalid (data : pydict ndarray) (rows cols : pydict indicator)
  (target key : string) (st : Experiment) :
  target <> "score" -> target <> "time" ->
  returns (fst (execute_key data rows cols target key st)) = false /\
  _tracker (snd (execute_key data rows cols target key st)) = _tracker st.
Proof.
  intros Hs Ht. unfold execute_key, bind, lift, modify, PyDict.getitem.
  destruct (PyDict.get key data); [|split; reflexivity].
  destruct (PyDict.get key rows); [|split; reflexivity].
  destruct (PyDict.get key cols); [|split; reflexivity].
  rewrite (compare_models_invalid target _ Hs Ht). split; reflexivity.
Qed.

Lemma execute_key_invalid_raises (data : pydict ndarray)
  (rows cols : pydict indicator) (target key : string) (st : Experiment)
  (d : ndarray) (r c : indicator) :
  target <> "score" -> target <> "time" ->
  PyDict.get key data = Some d ->
  PyDict.get key rows = Some r ->
  PyDict.get key cols = Some c ->
  fst (execute_key data rows cols target key st) =
  Raise (invalid_target target).
Proof.
  intros Hs Ht Hd Hr Hc.
  unfold execute_key, bind, lift, modify, PyDict.getitem.
  rewrite Hd, Hr, Hc.
  rewrite (compare_models_invalid target _ Hs Ht). reflexivity.
Qed.

(** With a target that is neither [score] nor [time], [execute] leaves the
    tracker alone, and returns only when there was no class to compare
    on, with no result. *)
Lemma execute_invalid (data : pydict ndarray) (rows cols : pydict indicator)
  (target : string) (st : Experiment) :
  target <> "score" -> target <> "time" ->
  _tracker (snd (execute data (rows, cols) target st)) = _tracker st /\
  (returns (fst (execute data (rows, cols) target st)) = true ->
   results (snd (execute data (rows, cols) target st)) = Some PyDict.empty).
Proof.
  intros Hs Ht. unfold execute, bind, modify.
  destruct (PyDict.keys data) as [|key keys].
  - split; reflexivity.
  - rewrite for_each_cons.
    destruct (execute_key_invalid data rows cols target key
                (set_results (Some PyDict.empty) st) Hs Ht) as [Hret Htr].
    destruct (execute_key data rows cols target key
                (set_results (Some PyDict.empty) st)) as [[u|e] s1];
      simpl in *; [discriminate|].
    split; [assumption | discriminate].
Qed.

Lemma update_stats_no_results (t : PerformanceTracker) :
  snd (Tracker.update_stats PyDict.empty t) = t.
Proof.
  unfold Tracker.update_stats, bind, get.
  apply (for_each_preserves (fun s => s = t)); [|reflexivity].
  intros x s ->. rewrite update_class_eq. reflexivity.
Qed.

Lemma execute_entry_invalid (target : string) (entry : dataset_entry)
  (st : Experiment) (t : PerformanceTracker) :
  target <> "score" -> target <> "time" ->
  _tracker st = Some t ->
  _tracker (snd (execute_entry target entry st)) = Some t.
Proof.
  intros Hs Ht Htr. destruct entry as [[data rows] cols].
  unfold execute_entry, bind.
  destruct (execute_invalid data rows cols target st Hs Ht) as [Hsame Hres].
  destruct (execute data (rows, cols) target st) as [[u|e] s1];
    simpl in *; [|congruence].
  specialize (Hres eq_refl).
  unfold track_results, bind, get. rewrite Hres.
  unfold on_tracker. rewrite Hsame, Htr.
  pose proof (update_stats_no_results t) as Hno.
  destruct (Tracker.update_stats PyDict.empty t) as [o t1].
  simpl in *. subst t1. destruct s1; reflexivity.
Qed.

(** C5. For a target other than [score] and [time], [compare_models]
    raises the [ValueError] whose message quotes the target, and leaves
    the experiment as it was, so that no score-based evaluation took
    place; [execute_all] with such a target leaves the tracker exactly as
    it was created, with no counter raised and no score recorded; and
    as soon as there is a run and a class to compare on, [execute_all]
    raises that same error. *)
Theorem invalid_target_is_rejected (target : string) :
  target <> "score" -> target <> "time" ->
  (forall st,
      compare_models target st =
      (Raise (ValueError ("Invalid target: `" ++ target ++ "`")%string), st)) /\
  (forall dataset tcs st,
      _tracker (snd (execute_all dataset tcs target st)) =
      Some (Tracker.init tcs (model_labels st))) /\
  (forall data rows cols rest tcs st key keys d r c,
      0 < nruns st ->
      PyDict.keys data = key :: keys ->
      PyDict.get key data = Some d ->
      PyDict.get key rows = Some r ->
      PyDict.get key cols = Some c ->
      fst (execute_all ((data, rows, cols) :: rest) tcs target st) =
      Raise (ValueError ("Invalid target: `" ++ target ++ "`")%string)).
Proof.
  intros Hs Ht. split; [|split].
  - intros st. apply compare_models_invalid; assumption.
  - intros dataset tcs st. unfold execute_all, bind, get, put.
    apply (for_each_preserves
             (fun s => _tracker s = Some (Tracker.init tcs (model_labels st))));
      [|reflexivity].
    intros _ s Hsome. unfold one_run.
    apply (for_each_preserves
             (fun s => _tracker s = Some (Tracker.init tcs (model_labels st))));
      [|assumption].
    intros entry s' Hs'. apply execute_entry_invalid; assumption.
  - intros data rows cols rest tcs st key keys d r c Hn Hkeys Hd Hr Hc.
    unfold execute_all, bind, get, put.
    destruct (Z.to_nat (nruns st)) as [|k] eqn:Hk; [lia|].
    simpl seq. rewrite for_each_cons. unfold one_run at 1.
    rewrite for_each_cons. unfold execute_entry at 1, bind.
    unfold execute at 1, bind, modify. rewrite Hkeys, for_each_cons.
    pose proof (execute_key_invalid_raises data rows cols target key
                  (set_results (Some PyDict.empty)
                     (set_tracker
                        (Some (Tracker.init tcs (model_labels st))) st))
                  d r c Hs Ht Hd Hr Hc) as Hraise.
    destruct (execute_key data rows cols target key _) as [[u|e] s1];
      simpl in Hraise; [discriminate|].
    simpl. unfold invalid_target in Hraise. exact Hraise.
Qed.

(** C6 (as amended). Selecting the [time] mode raises nothing that names
    the mode: [compare_models] returns [None] and leaves the experiment
    as it was, since [time_eval] has an empty body; [execute] stores that
    [None] as the result of the class; and an error comes only from
    unpacking that [None], in [execute] itself when [verbose] is
    positive, otherwise in [update_stats]. *)
Theorem time_mode_returns_none :
  (forall st, compare_models "time" st = (Return None, st)) /\
  (forall data rows cols key st d r c res,
      PyDict.get key data = Some d ->
      PyDict.get key rows = Some r ->
      PyDict.get key cols = Some c ->
      results st = Some res ->
      execute_key data rows cols "time" key st =
      (if verbose st >? 0 then Raise none_unpack else Return tt,
       set_results (Some (PyDict.set key None res))
         (set_rows_cols (Some r) (Some c) (set_data (Some d) st)))) /\
  (forall (results : pydict result) tc t,
      PyDict.get tc results = Some None ->
      Tracker.update_class results tc t = (Raise none_unpack, t)).
Proof.
  split; [|split].
  - intros st. reflexivity.
  - intros data rows cols key st d r c res Hd Hr Hc Hres.
    unfold execute_key, bind, lift, modify, PyDict.getitem.
    rewrite Hd, Hr, Hc, compare_models_time.
    unfold results_setitem, results_getitem, bind, lift, get, put, not_none.
    simpl. rewrite Hres. simpl.
    destruct (verbose st >? 0); [|reflexivity].
    cbn [results set_results]. unfold PyDict.getitem.
    rewrite get_set_same. reflexivity.
  - intros results tc t Hnone. rewrite update_class_eq, Hnone. reflexivity.
Qed.

(** *** [score_eval]: the library calls, then the selection *)

Lemma score_loop_fit_all (X : ndarray) :
  forall fams loc st,
    score_loop X fams loc st =
    match fit_all X fams st with
    | (Return gs, st') => (Return (select fams gs loc), st')
    | (Raise e, st') => (Raise e, st')
    end.
Proof.
  induction fams as [|fam fams IH]; intros loc st; simpl.
  - reflexivity.
  - unfold bind. destruct (grid_fit X fam st) as [[g|e] s1]; [|reflexivity].
    rewrite IH. destruct (fit_all X fams s1) as [[gs|e] s2]; reflexivity.
Qed.

Lemma fit_all_length (X : ndarray) :
  forall fams st gs st',
    fit_all X fams st = (Return gs, st') ->
    List.length gs = List.length fams.
Proof.
  induction fams as [|fam fams IH]; intros st gs st' Hrun; simpl in Hrun.
  - unfold ret in Hrun. inversion Hrun. reflexivity.
  - unfold bind in Hrun.
    destruct (grid_fit X fam st) as [[g|e] s1]; [|discriminate].
    destruct (fit_all X fams s1) as [[gs1|e] s2] eqn:E; [|discriminate].
    unfold ret in Hrun. inversion Hrun. subst. simpl.
    f_equal. eapply IH. eassumption.
Qed.

Lemma score_eval_select (st : Experiment) :
  score_eval st =
  match library_run st with
  | (Return gs, st') =>
      (return_winner (select (models_and_params st) gs locals_init), st')
  | (Raise e, st') => (Raise e, st')
  end.
Proof.
  unfold score_eval, library_run, prepare, bind, get, lift, modify, call_rng,
    shape_of_data.
  destruct (_data st) as [d|]; [|reflexivity].
  destruct (_shuffle d (random_state st) (np_random st))
    as [[[[train ri] ci]|e] w]; [|reflexivity].
  destruct (fit_transform train) as [X|e]; [|reflexivity].
  rewrite score_loop_fit_all. simpl models_and_params.
  destruct (fit_all X (models_and_params st) _) as [[gs|e] s2]; reflexivity.
Qed.

Lemma library_run_length (st : Experiment) (gs : list grid_result)
  (st' : Experiment) :
  library_run st = (Return gs, st') ->
  List.length gs = List.length (models_and_params st).
Proof.
  unfold library_run, prepare, bind, get, lift, modify, call_rng,
    shape_of_data.
  destruct (_data st) as [d|]; [|discriminate].
  destruct (_shuffle d (random_state st) (np_random st))
    as [[[[train ri] ci]|e] w]; [|discriminate].
  destruct (fit_transform train) as [X|e]; [|discriminate].
  simpl models_and_params. apply fit_all_length.
Qed.

(** The loop stops at the first family whose grid search raises. *)
Lemma score_loop_raises (X : ndarray) (fam : model * param_grid)
  (post : list (model * param_grid)) :
  forall pre loc st loc1 st1 e st2,
    score_loop X pre loc st = (Return loc1, st1) ->
    grid_fit X fam st1 = (Raise e, st2) ->
    score_loop X (pre ++ fam :: post) loc st = (Raise e, st2).
Proof.
  induction pre as [|p pre IH]; intros loc st loc1 st1 e st2 Hpre Hfit.
  - simpl in Hpre. unfold ret in Hpre. inversion Hpre. subst.
    simpl. unfold bind. rewrite Hfit. reflexivity.
  - simpl in *. unfold bind in *.
    destruct (grid_fit X p st) as [[g|e0] s0]; [|discriminate].
    eapply IH; eassumption.
Qed.

(** C1 (as amended). [score_eval] has no handler for an error of a fit:
    when the grid search of a family raises, the loop raises that error
    there, in the state that the failing search left, without searching
    the families after it, and so does [score_eval]; negative infinity
    is only where the running best score starts. When every library
    call returns, every family has been searched and the result is the
    selection over the best scores. *)
Theorem fit_error_aborts_sweep :
  (forall X pre fam post loc st loc1 st1 e st2,
      score_loop X pre loc st = (Return loc1, st1) ->
      grid_fit X fam st1 = (Raise e, st2) ->
      score_loop X (pre ++ fam :: post) loc st = (Raise e, st2)) /\
  (forall st e st',
      library_run st = (Raise e, st') -> score_eval st = (Raise e, st')) /\
  (forall st gs st',
      library_run st = (Return gs, st') ->
      List.length gs = List.length (models_and_params st) /\
      score_eval st =
      (return_winner (select (models_and_params st) gs locals_init), st')).
Proof.
  split; [|split].
  - intros X pre fam post loc st loc1 st1 e st2.
    apply score_loop_raises.
  - intros st e st' Hrun. rewrite score_eval_select, Hrun. reflexivity.
  - intros st gs st' Hrun. split.
    + eapply library_run_length. eassumption.
    + rewrite score_eval_select, Hrun. reflexivity.
Qed.

(** *** The selection *)

Lemma pick_chosen (fg : model * param_grid * grid_result) (loc : locals) :
  pick (fst (fst fg)) (snd fg) loc =
  if PyFloat.gt (best_score_ (snd fg)) (best_score loc)
  then chosen fg else loc.
Proof. reflexivity. Qed.

(** No family beats the running best score: the locals stay. *)
Lemma select_pairs_keeps :
  forall l loc,
    (forall fg, In fg l ->
                PyFloat.gt (best_score_ (snd fg)) (best_score loc) = false) ->
    select_pairs l loc = loc.
Proof.
  induction l as [|fg l IH]; intros loc Hall; [reflexivity|].
  unfold select_pairs. simpl. rewrite pick_chosen.
  rewrite (Hall fg (or_introl eq_refl)).
  apply IH. intros x Hx. apply Hall. right. assumption.
Qed.

(** Once a family is chosen, the locals are those of a chosen family to
    the end of the loop. *)
Lemma select_pairs_chosen (l0 : list (model * param_grid * grid_result)) :
  forall l loc,
    (forall fg, In fg l -> In fg l0) ->
    (exists fg, In fg l0 /\ loc = chosen fg) ->
    exists fg, In fg l0 /\ select_pairs l loc = chosen fg.
Proof.
  induction l as [|x l IH]; intros loc Hincl Hloc; [exact Hloc|].
  unfold select_pairs. simpl. apply IH.
  - intros fg Hfg. apply Hincl. right. assumption.
  - rewrite pick_chosen.
    destruct (PyFloat.gt (best_score_ (snd x)) (best_score loc)).
    + exists x. split; [apply Hincl; left|]; reflexivity.
    + exact Hloc.
Qed.

Lemma select_pairs_binds (l0 : list (model * param_grid * grid_result)) :
  forall l,
    (forall fg, In fg l -> In fg l0) ->
    (exists fg, In fg l /\
                PyFloat.gt (best_score_ (snd fg)) PyFloat.neg_inf = true) ->
    exists fg, In fg l0 /\ select_pairs l locals_init = chosen fg.
Proof.
  induction l as [|x l IH]; intros Hincl [fg [Hin Hgt]]; [contradiction|].
  unfold select_pairs. simpl. rewrite pick_chosen.
  change (best_score locals_init) with PyFloat.neg_inf.
  destruct (PyFloat.gt (best_score_ (snd x)) PyFloat.neg_inf) eqn:Hx.
  - apply (select_pairs_chosen l0).
    + intros y Hy. apply Hincl. right. assumption.
    + exists x. split; [apply Hincl; left|]; reflexivity.
  - apply IH.
    + intros y Hy. apply Hincl. right. assumption.
    + destruct Hin as [<-|Hin]; [congruence|]. exists fg. auto.
Qed.

Lemma in_combine_partner {A B} (b : B) :
  forall (l1 : list A) (l2 : list B),
    List.length l2 = List.length l1 -> In b l2 ->
    exists a, In (a, b) (combine l1 l2).
Proof.
  induction l1 as [|a l1 IH]; intros [|b' l2] Hlen Hin; simpl in *;
    try contradiction; try discriminate.
  destruct Hin as [->|Hin].
  - exists a. left. reflexivity.
  - destruct (IH l2) as [a' Ha']; [lia | assumption |].
    exists a'. right. assumption.
Qed.

Lemma combine_app_cons {A B} (a : A) (b : B) :
  forall (l1 : list A) (l2 : list B) (r1 : list A) (r2 : list B),
    List.length l2 = List.length l1 ->
    combine (l1 ++ a :: r1) (l2 ++ b :: r2) =
    combine l1 l2 ++ (a, b) :: combine r1 r2.
Proof.
  induction l1 as [|x l1 IH]; intros [|y l2] r1 r2 Hlen; simpl in *;
    try discriminate; [reflexivity|].
  f_equal. apply IH. lia.
Qed.

(** C9. [score_eval] binds the name it returns only in the branch of the
    strict comparison. When its library calls return: if the best score
    of some family exceeds negative infinity, it returns the name, the
    model and the best score of a registered family; and if no best
    score exceeds negative infinity (all of them NaN, say, or no family
    at all), it raises the unbound-name error and returns no value. *)
Theorem winner_bound_only_by_comparison (st : Experiment)
  (gs : list grid_result) (st' : Experiment) :
  library_run st = (Return gs, st') ->
  ((exists g, In g gs /\
              PyFloat.gt (best_score_ g) PyFloat.neg_inf = true) ->
   exists m grid g,
     In (m, grid, g) (combine (models_and_params st) gs) /\
     score_eval st =
     (Return (name__ m, construct m (best_params_ g), best_score_ g), st')) /\
  ((forall g, In g gs ->
              PyFloat.gt (best_score_ g) PyFloat.neg_inf = false) ->
   score_eval st =
   (Raise (UnboundLocalError
             "local variable 'winner_name' referenced before assignment"),
    st')).
Proof.
  intros Hrun. rewrite score_eval_select, Hrun. unfold select. split.
  - intros [g [Hin Hgt]].
    destruct (in_combine_partner g (models_and_params st) gs) as [fam Hfam];
      [eapply library_run_length; eassumption | assumption |].
    destruct (select_pairs_binds (combine (models_and_params st) gs)
                (combine (models_and_params st) gs))
      as [[[m grid] g'] [Hin' Hsel]].
    { auto. }
    { exists (fam, g). auto. }
    exists m, grid, g'. split; [assumption|]. rewrite Hsel. reflexivity.
  - intros Hall. rewrite select_pairs_keeps; [reflexivity|].
    intros [fam g] Hin. simpl. apply Hall.
    eapply in_combine_r. eassumption.
Qed.

(** A score that beats the running best, and that no family of [l]
    reaches, still beats the running best after [l]. *)
Lemma select_pairs_below (s : float) :
  forall l loc,
    PyFloat.gt s (best_score loc) = true ->
    (forall fg, In fg l ->
                PyFloat.gt (best_score_ (snd fg)) s = false /\
                PyFloat.eq (best_score_ (snd fg)) s = false) ->
    PyFloat.gt s (best_score (select_pairs l loc)) = true.
Proof.
  induction l as [|x l IH]; intros loc Hs Hall; [exact Hs|].
  unfold select_pairs. simpl. apply IH.
  - rewrite pick_chosen.
    destruct (PyFloat.gt (best_score_ (snd x)) (best_score loc)) eqn:Hx;
      [|exact Hs].
    simpl. destruct (Hall x (or_introl eq_refl)) as [Hgt Heq].
    apply gt_trichotomy; try assumption.
    + apply (gt_not_nan _ _ Hx).
    + apply (gt_not_nan _ _ Hs).
  - intros fg Hfg. apply Hall. right. assumption.
Qed.

(** C7. The winner is chosen by the strict comparison, in the order of
    [models_and_params]. When two families [A] and [B], [A] registered
    before [B], have equal best scores, no family has a higher one, and
    no family before [A] has that score, [score_eval] returns [A], with
    its model and that score: on a tie for the best score the family
    registered earlier wins. *)
Theorem earlier_family_wins_tie (st : Experiment) (gs : list grid_result)
  (st' : Experiment)
  (pre mid post : list (model * param_grid))
  (mA mB : model) (gridA gridB : param_grid)
  (gpre gmid gpost : list grid_result) (gA gB : grid_result) :
  library_run st = (Return gs, st') ->
  models_and_params st = pre ++ (mA, gridA) :: mid ++ (mB, gridB) :: post ->
  gs = gpre ++ gA :: gmid ++ gB :: gpost ->
  List.length gpre = List.length pre ->
  List.length gmid = List.length mid ->
  PyFloat.eq (best_score_ gA) (best_score_ gB) = true ->
  PyFloat.gt (best_score_ gA) PyFloat.neg_inf = true ->
  (forall g, In g gs -> PyFloat.gt (best_score_ g) (best_score_ gA) = false) ->
  (forall g, In g gpre -> PyFloat.eq (best_score_ g) (best_score_ gA) = false) ->
  score_eval st =
  (Return (name__ mA, construct mA (best_params_ gA), best_score_ gA), st').
Proof.
  intros Hrun Hfams Hgs Hlpre Hlmid Htie Hinf Hmax Hfirst.
  rewrite score_eval_select, Hrun, Hfams, Hgs. unfold select.
  rewrite (combine_app_cons (mA, gridA) gA pre gpre _ _ Hlpre).
  unfold select_pairs. rewrite fold_left_app. simpl fold_left.
  fold (select_pairs (combine pre gpre) locals_init).
  rewrite (pick_chosen (mA, gridA, gA)). simpl snd.
  assert (Hbelow : PyFloat.gt (best_score_ gA)
                     (best_score (select_pairs (combine pre gpre) locals_init))
                   = true).
  { apply select_pairs_below; [exact Hinf|].
    intros [fam g] Hin. simpl.
    assert (Hg : In g gpre) by (eapply in_combine_r; eassumption).
    split; [|apply Hfirst; assumption].
    apply Hmax. rewrite Hgs. apply in_or_app. left. assumption. }
  rewrite Hbelow.
  match goal with
  | |- context [fold_left ?f ?l (chosen ?fg)] =>
      change (fold_left f l (chosen fg)) with (select_pairs l (chosen fg))
  end.
  rewrite select_pairs_keeps; [reflexivity|].
  intros [fam g] Hin. simpl. apply Hmax. rewrite Hgs.
  apply in_or_app. right. right. eapply in_combine_r. eassumption.
Qed.

(** *** What the methods keep *)

Lemma keeps_refl (s : Experiment) : keeps s s.
Proof. unfold keeps. auto. Qed.

Lemma keeps_trans (s1 s2 s3 : Experiment) :
  keeps s1 s2 -> keeps s2 s3 -> keeps s1 s3.
Proof. unfold keeps. intuition congruence. Qed.

Lemma preserves_bind {A B} (P : Experiment -> Prop) (m : M Experiment A)
  (k : A -> M Experiment B) :
  preserves P m -> (forall a, preserves P (k a)) -> preserves P (bind m k).
Proof.
  intros Hm Hk s Hs. unfold bind. specialize (Hm s Hs).
  destruct (m s) as [[a|e] s1]; simpl in *.
  - apply Hk. assumption.
  - assumption.
Qed.

Lemma preserves_lift {A} (P : Experiment -> Prop) (o : outcome A) :
  preserves P (lift o).
Proof. intros s Hs. exact Hs. Qed.

Lemma preserves_ret {A} (P : Experiment -> Prop) (a : A) :
  preserves P (ret a).
Proof. intros s Hs. exact Hs. Qed.

Lemma preserves_raise {A} (P : Experiment -> Prop) (e : exn) :
  preserves P (@raise Experiment A e).
Proof. intros s Hs. exact Hs. Qed.

Lemma preserves_get (P : Experiment -> Prop) : preserves P get.
Proof. intros s Hs. exact Hs. Qed.

Lemma preserves_modify (P : Experiment -> Prop) (f : Experiment -> Experiment) :
  (forall s, P s -> P (f s)) -> preserves P (modify f).
Proof. intros Hf s Hs. apply Hf. exact Hs. Qed.

Lemma preserves_call_rng {A} (P : Experiment -> Prop)
  (f : rng_state -> outcome A * rng_state) :
  (forall w s, P s -> P (set_np_random w s)) -> preserves P (call_rng f).
Proof.
  intros Hf s Hs. unfold call_rng.
  destruct (f (np_random s)) as [o w]. apply Hf. exact Hs.
Qed.

Lemma preserves_for_each {A} (P : Experiment -> Prop) (l : list A)
  (body : A -> M Experiment unit) :
  (forall x, preserves P (body x)) -> preserves P (for_each l body).
Proof.
  intros Hbody s Hs. apply for_each_preserves; [|assumption].
  intros x s0 Hs0. apply Hbody. assumption.
Qed.

Lemma results_setitem_eq (key : string) (v : result) (s : Experiment) :
  results_setitem key v s =
  match results s with
  | Some d => (Return tt, set_results (Some (PyDict.set key v d)) s)
  | None =>
      (Raise (TypeError "'NoneType' object does not support item assignment"),
       s)
  end.
Proof.
  unfold results_setitem, bind, get, lift, put, not_none.
  destruct (results s); reflexivity.
Qed.

Lemma keeps_set_np_random (s0 : Experiment) (w : rng_state) (s : Experiment) :
  keeps s0 s -> keeps s0 (set_np_random w s).
Proof. unfold keeps. simpl. auto. Qed.

Lemma keeps_set_idx (s0 : Experiment) (r c : option (list nat))
  (s : Experiment) :
  keeps s0 s -> keeps s0 (set_idx r c s).
Proof. unfold keeps. simpl. auto. Qed.

Lemma keeps_set_data (s0 : Experiment) (d : option ndarray) (s : Experiment) :
  keeps s0 s -> keeps s0 (set_data d s).
Proof. unfold keeps. simpl. auto. Qed.

Lemma keeps_set_rows_cols (s0 : Experiment) (r c : option indicator)
  (s : Experiment) :
  keeps s0 s -> keeps s0 (set_rows_cols r c s).
Proof. unfold keeps. simpl. auto. Qed.

Lemma keeps_set_results (s0 : Experiment) (v : option (pydict result))
  (s : Experiment) :
  keeps s0 s -> keeps s0 (set_results v s).
Proof. unfold keeps. simpl. auto. Qed.

Lemma grid_fit_keeps (s0 : Experiment) (X : ndarray)
  (fam : model * param_grid) :
  preserves (keeps s0) (grid_fit X fam).
Proof.
  unfold grid_fit. apply preserves_bind; [apply preserves_get|].
  intros self. apply preserves_call_rng. intros w s.
  apply keeps_set_np_random.
Qed.

Lemma score_loop_keeps (s0 : Experiment) (X : ndarray) :
  forall fams loc, preserves (keeps s0) (score_loop X fams loc).
Proof.
  induction fams as [|fam fams IH]; intros loc; simpl.
  - apply preserves_ret.
  - apply preserves_bind; [apply grid_fit_keeps|]. intros g. apply IH.
Qed.

Lemma score_eval_keeps (s0 : Experiment) : preserves (keeps s0) score_eval.
Proof.
  unfold score_eval.
  apply preserves_bind; [apply preserves_get|]. intros self.
  apply preserves_bind; [apply preserves_lift|]. intros d.
  apply preserves_bind.
  { apply preserves_call_rng. intros w s. apply keeps_set_np_random. }
  intros [[train ri] ci].
  apply preserves_bind.
  { apply preserves_modify. intros s. apply keeps_set_idx. }
  intros _.
  apply preserves_bind; [apply preserves_lift|]. intros X.
  apply preserves_bind; [apply preserves_get|]. intros self'.
  apply preserves_bind; [apply score_loop_keeps|]. intros loc.
  apply preserves_lift.
Qed.

Lemma compare_models_keeps (s0 : Experiment) (target : string) :
  preserves (keeps s0) (compare_models target).
Proof.
  unfold compare_models, time_eval.
  destruct (String.eqb target "score").
  - apply preserves_bind; [apply score_eval_keeps|]. intros r.
    apply preserves_ret.
  - destruct (String.eqb target "time");
      [apply preserves_ret | apply preserves_raise].
Qed.

Lemma results_setitem_keeps (s0 : Experiment) (key : string) (v : result) :
  preserves (keeps s0) (results_setitem key v).
Proof.
  intros s Hs. rewrite results_setitem_eq.
  destruct (results s); simpl; [apply keeps_set_results|]; assumption.
Qed.

Lemma execute_key_keeps (s0 : Experiment) (data : pydict ndarray)
  (rows cols : pydict indicator) (target key : string) :
  preserves (keeps s0) (execute_key data rows cols target key).
Proof.
  unfold execute_key.
  apply preserves_bind; [apply preserves_lift|]. intros d.
  apply preserves_bind.
  { apply preserves_modify. intros s. apply keeps_set_data. }
  intros _.
  apply preserves_bind; [apply preserves_lift|]. intros r.
  apply preserves_bind; [apply preserves_lift|]. intros c.
  apply preserves_bind.
  { apply preserves_modify. intros s. apply keeps_set_rows_cols. }
  intros _.
  apply preserves_bind; [apply compare_models_keeps|]. intros res.
  apply preserves_bind; [apply results_setitem_keeps|]. intros _.
  apply preserves_bind; [apply preserves_get|]. intros self.
  destruct (verbose self >? 0); [|apply preserves_ret].
  apply preserves_bind.
  { unfold results_getitem.
    apply preserves_bind; [apply preserves_get|]. intros self0.
    apply preserves_bind; [apply preserves_lift|]. intros d0.
    apply preserves_lift. }
  intros v.
  apply preserves_bind; [apply preserves_lift|]. intros _.
  apply preserves_ret.
Qed.

(** [execute] assigns neither the configuration nor the tracker. *)
Lemma execute_keeps (s0 : Experiment) (data : pydict ndarray)
  (rows cols : pydict indicator) (target : string) :
  preserves (keeps s0) (execute data (rows, cols) target).
Proof.
  unfold execute.
  apply preserves_bind.
  { apply preserves_modify. intros s. apply keeps_set_results. }
  intros _. apply preserves_for_each. intros key. apply execute_key_keeps.
Qed.

(** *** Runs from the same configuration *)

Lemma call_rng_eq {A} (f : rng_state -> outcome A * rng_state)
  (s : Experiment) :
  call_rng f s =
  (fst (f (np_random s)), set_np_random (snd (f (np_random s))) s).
Proof. unfold call_rng. destruct (f (np_random s)); reflexivity. Qed.

Lemma agrees_bind {A B} (R1 R2 R3 : Experiment -> Experiment -> Prop)
  (m : M Experiment A) (k : A -> M Experiment B) :
  agrees R1 R2 m ->
  (forall s1 s2, R2 s1 s2 -> R3 s1 s2) ->
  (forall a, agrees R2 R3 (k a)) ->
  agrees R1 R3 (bind m k).
Proof.
  intros Hm Hweak Hk s1 s2 HR. unfold bind.
  destruct (Hm s1 s2 HR) as [Hfst HR2].
  destruct (m s1) as [[a1|e1] t1], (m s2) as [[a2|e2] t2]; simpl in *;
    inversion Hfst; subst.
  - apply Hk. assumption.
  - split; [reflexivity | apply Hweak; assumption].
Qed.

Lemma agrees_ret {A} (R : Experiment -> Experiment -> Prop) (a : A) :
  agrees R R (ret a).
Proof. intros s1 s2 HR. split; [reflexivity | exact HR]. Qed.

Lemma agrees_for_each {A} (R : Experiment -> Experiment -> Prop)
  (body : A -> M Experiment unit) :
  (forall x, agrees R R (body x)) ->
  forall l, agrees R R (for_each l body).
Proof.
  intros Hbody. induction l as [|x l IH]; simpl.
  - apply agrees_ret.
  - apply (agrees_bind R R R); auto.
Qed.

Lemma same_idx_data (s1 s2 : Experiment) : same_idx s1 s2 -> same_data s1 s2.
Proof. intros [H _]. exact H. Qed.

Lemma same_data_results (s1 s2 : Experiment) :
  same_data s1 s2 -> same_results s1 s2.
Proof. intros [H _]. exact H. Qed.

Lemma same_results_config (s1 s2 : Experiment) :
  same_results s1 s2 -> same_config s1 s2.
Proof. intros [H _]. exact H. Qed.

Lemma seeded_weaken (seed : Z) (R R' : Experiment -> Experiment -> Prop)
  (s1 s2 : Experiment) :
  (forall a b, R a b -> R' a b) -> seeded seed R s1 s2 -> seeded seed R' s1 s2.
Proof. intros H [Hs HR]. split; auto. Qed.

(** The scorer reads the ground truth and the shuffle indices only. *)
Lemma jaccard_same_idx (s1 s2 : Experiment) :
  same_idx s1 s2 -> forall e, jaccard s1 e = jaccard s2 e.
Proof.
  intros [[_ [_ [Hr Hc]]] [Hri Hci]] e. unfold jaccard.
  rewrite Hr, Hc, Hri, Hci. reflexivity.
Qed.

Lemma seeded_both (seed : Z) (R : Experiment -> Experiment -> Prop)
  (s1 s2 : Experiment) :
  (forall a b, R a b -> same_config a b) ->
  seeded seed R s1 s2 -> random_state s2 = Some seed.
Proof.
  intros Hcfg [Hs HR]. destruct (Hcfg _ _ HR) as [_ [_ [Hrs _]]]. congruence.
Qed.

Lemma same_idx_config (s1 s2 : Experiment) : same_idx s1 s2 -> same_config s1 s2.
Proof. intros H. apply same_results_config, same_data_results, same_idx_data, H. Qed.

Lemma same_data_config (s1 s2 : Experiment) :
  same_data s1 s2 -> same_config s1 s2.
Proof. intros H. apply same_results_config, same_data_results, H. Qed.

Section Determinism.
Variable seed : Z.
Hypothesis Hdet : deterministic_fitting seed.

Lemma grid_fit_agrees (X : ndarray) (fam : model * param_grid) :
  agrees (seeded seed same_idx) (seeded seed same_idx) (grid_fit X fam).
Proof.
  intros s1 s2 Hrel.
  pose proof (seeded_both seed same_idx s1 s2 same_idx_config Hrel) as Hs2.
  destruct Hrel as [Hs1 Hidx].
  unfold grid_fit, bind, get. rewrite !call_rng_eq. simpl fst. simpl snd.
  rewrite Hs1, Hs2. simpl seed_value. split.
  - apply (proj2 Hdet). apply jaccard_same_idx. exact Hidx.
  - split; [exact Hs1|].
    unfold same_idx, same_data, same_results, same_config in *. simpl.
    intuition.
Qed.

Lemma score_loop_agrees (X : ndarray) :
  forall fams loc,
    agrees (seeded seed same_idx) (seeded seed same_idx)
      (score_loop X fams loc).
Proof.
  induction fams as [|fam fams IH]; intros loc; simpl.
  - apply agrees_ret.
  - apply (agrees_bind _ (seeded seed same_idx) _);
      [apply grid_fit_agrees | auto | intros g; apply IH].
Qed.

Lemma score_eval_agrees :
  agrees (seeded seed same_data) (seeded seed same_data) score_eval.
Proof.
  intros s1 s2 Hrel.
  pose proof (seeded_both seed same_data s1 s2 same_data_config Hrel) as Hs2.
  destruct Hrel as [Hs1 Hdata].
  assert (Hmp : models_and_params s2 = models_and_params s1).
  { destruct (same_data_config _ _ Hdata) as [H _]. congruence. }
  assert (Hd : _data s2 = _data s1).
  { destruct Hdata as [_ [H _]]. congruence. }
  unfold score_eval, bind, get, lift, modify, shape_of_data.
  rewrite Hd. destruct (_data s1) as [d|] eqn:Hd1.
  2:{ simpl. split; [reflexivity | split; assumption]. }
  rewrite !call_rng_eq. rewrite Hs1, Hs2.
  pose proof (proj1 Hdet d (np_random s1) (np_random s2)) as Hsh.
  destruct (_shuffle d (Some seed) (np_random s1)) as [o1 w1].
  destruct (_shuffle d (Some seed) (np_random s2)) as [o2 w2].
  simpl in Hsh. subst o2. simpl fst. simpl snd.
  destruct o1 as [[[train ri] ci]|e].
  2:{ simpl. split; [reflexivity | split; [exact Hs1|]].
      unfold same_data, same_results, same_config in *. simpl. intuition. }
  assert (Hidx : seeded seed same_idx
                   (set_idx (Some ri) (Some ci) (set_np_random w1 s1))
                   (set_idx (Some ri) (Some ci) (set_np_random w2 s2))).
  { split; [exact Hs1|].
    unfold same_idx, same_data, same_results, same_config in *. simpl.
    intuition. }
  destruct (fit_transform train) as [X|e].
  2:{ simpl. split; [reflexivity|].
      apply (seeded_weaken seed same_idx same_data _ _ same_idx_data Hidx). }
  simpl models_and_params. rewrite Hmp.
  destruct (score_loop_agrees X (models_and_params s1) locals_init _ _ Hidx)
    as [Hfst Hafter].
  apply (seeded_weaken seed same_idx same_data _ _ same_idx_data) in Hafter.
  destruct (score_loop X (models_and_params s1) locals_init
              (set_idx (Some ri) (Some ci) (set_np_random w1 s1)))
    as [[loc1|e1] t1];
  destruct (score_loop X (models_and_params s1) locals_init
              (set_idx (Some ri) (Some ci) (set_np_random w2 s2)))
    as [[loc2|e2] t2];
    simpl in Hfst, Hafter; inversion Hfst; subst; simpl;
    split; try reflexivity; assumption.
Qed.

Lemma compare_models_agrees (target : string) :
  agrees (seeded seed same_data) (seeded seed same_data)
    (compare_models target).
Proof.
  unfold compare_models, time_eval.
  destruct (String.eqb target "score").
  - apply (agrees_bind _ (seeded seed same_data) _);
      [apply score_eval_agrees | auto | intros r; apply agrees_ret].
  - destruct (String.eqb target "time").
    + apply agrees_ret.
    + intros s1 s2 HR. split; [reflexivity | exact HR].
Qed.

(** Storing the result of a class, and the unpacking under [verbose]. *)
Lemma store_result_agrees (key : string) (res : result) :
  agrees (seeded seed same_data) (seeded seed same_results)
    (results_setitem key res ;;;
     self <- get ;;
     if verbose self >? 0 then
       v <- results_getitem key ;;
       _ <- lift (unpack3 v) ;;
       ret tt
     else ret tt).
Proof.
  intros s1 s2 [Hs1 Hdata].
  assert (Hres : results s2 = results s1).
  { destruct Hdata as [[_ H] _]. congruence. }
  assert (Hvb : verbose s2 = verbose s1).
  { destruct (same_data_config _ _ Hdata) as [_ [H _]]. congruence. }
  unfold bind. rewrite !results_setitem_eq, Hres.
  destruct (results s1) as [d|].
  2:{ simpl. split; [reflexivity | split; [exact Hs1|]].
      apply same_data_results. exact Hdata. }
  unfold get, results_getitem, bind, get, lift, not_none. simpl.
  rewrite Hvb.
  assert (Hrel : seeded seed same_results
                   (set_results (Some (PyDict.set key res d)) s1)
                   (set_results (Some (PyDict.set key res d)) s2)).
  { split; [exact Hs1|].
    unfold same_data, same_results, same_config in *. simpl. intuition. }
  destruct (verbose s1 >? 0); [|split; [reflexivity | exact Hrel]].
  cbn [results set_results]. unfold PyDict.getitem. rewrite !get_set_same.
  destruct (unpack3 res); simpl; split; try reflexivity; exact Hrel.
Qed.

Lemma execute_key_agrees (data : pydict ndarray) (rows cols : pydict indicator)
  (target key : string) :
  agrees (seeded seed same_results) (seeded seed same_results)
    (execute_key data rows cols target key).
Proof.
  intros s1 s2 Hrel.
  unfold execute_key.
  unfold bind at 1. unfold lift at 1.
  destruct (PyDict.getitem key data) as [d|e];
    [|split; [reflexivity | exact Hrel]].
  unfold bind at 1. unfold modify at 1.
  unfold bind at 1. unfold lift at 1.
  destruct (PyDict.getitem key rows) as [r|e].
  2:{ split; [reflexivity|]. destruct Hrel as [Hs1 HR]. split; [exact Hs1|].
      unfold same_results, same_config in *. simpl. intuition. }
  unfold bind at 1. unfold lift at 1.
  destruct (PyDict.getitem key cols) as [c|e].
  2:{ split; [reflexivity|]. destruct Hrel as [Hs1 HR]. split; [exact Hs1|].
      unfold same_results, same_config in *. simpl. intuition. }
  unfold bind at 1. unfold modify at 1.
  assert (Hdata : seeded seed same_data
                    (set_rows_cols (Some r) (Some c) (set_data (Some d) s1))
                    (set_rows_cols (Some r) (Some c) (set_data (Some d) s2))).
  { destruct Hrel as [Hs1 HR]. split; [exact Hs1|].
    unfold same_data, same_results, same_config in *. simpl. intuition. }
  apply (agrees_bind (seeded seed same_data) (seeded seed same_data)
           (seeded seed same_results) (compare_models target));
    [ apply compare_models_agrees
    | intros a b H;
      apply (seeded_weaken seed same_data same_results _ _
               same_data_results H)
    | intros res; apply store_result_agrees
    | exact Hdata ].
Qed.

(** Under deterministic fitting, [execute] does the same from any two
    experiments with the same seeded configuration, whatever earlier runs
    left in them and wherever the global generator stands: the same
    outcome, and the same results. *)
Lemma execute_agrees (data : pydict ndarray) (rows cols : pydict indicator)
  (target : string) :
  agrees (seeded seed same_config) (seeded seed same_results)
    (execute data (rows, cols) target).
Proof.
  intros s1 s2 [Hs1 Hcfg]. unfold execute, bind, modify.
  apply (agrees_for_each (seeded seed same_results)).
  - intros key. apply execute_key_agrees.
  - split; [exact Hs1|].
    unfold same_results, same_config in *. simpl. intuition.
Qed.

(** *** The runs of [execute_all] *)

Lemma for_each_app {S A} (body : A -> M S unit) (l2 : list A) :
  forall (l1 : list A) (s : S),
    for_each (l1 ++ l2) body s =
    match for_each l1 body s with
    | (Return _, s') => for_each l2 body s'
    | (Raise e, s') => (Raise e, s')
    end.
Proof.
  induction l1 as [|x l1 IH]; intros s; simpl.
  - reflexivity.
  - unfold bind. destruct (body x s) as [[u|e] s1]; [apply IH | reflexivity].
Qed.

Lemma track_results_returns (s s' : Experiment) :
  track_results s = (Return tt, s') ->
  exists r t t',
    results s = Some r /\ _tracker s = Some t /\
    Tracker.update_stats r t = (Return tt, t') /\
    s' = set_tracker (Some t') s.
Proof.
  unfold track_results, bind, get, on_tracker, raise.
  destruct (results s) as [r|]; [|discriminate].
  destruct (_tracker s) as [t|]; [|discriminate].
  destruct (Tracker.update_stats r t) as [[[]|e] t'] eqn:E; [|discriminate].
  intros H. inversion H. exists r, t, t'. auto.
Qed.

Variable target : string.
Variable st0 : Experiment.

(** One class group of a run, from an experiment configured as [st0]:
    the tracker is fed the results that [execute] leaves from [st0]. *)
Lemma execute_entry_replay (entry : dataset_entry) (s s' : Experiment)
  (t : PerformanceTracker) :
  seeded seed same_config st0 s ->
  _tracker s = Some t ->
  execute_entry target entry s = (Return tt, s') ->
  exists t',
    _tracker s' = Some t' /\
    Tracker.update_stats (entry_results target st0 entry) t = (Return tt, t') /\
    seeded seed same_config st0 s'.
Proof.
  intros Hrel Htr Hrun. destruct entry as [[data rows] cols].
  unfold execute_entry, bind in Hrun.
  destruct (execute_agrees data rows cols target st0 s Hrel)
    as [_ [_ [_ Hres]]].
  pose proof (execute_keeps s data rows cols target s (keeps_refl s))
    as Hkeep.
  remember (execute data (rows, cols) target st0) as ref eqn:Href.
  destruct (execute data (rows, cols) target s) as [[[]|e] s1] eqn:E;
    [|discriminate].
  simpl in Hres, Hkeep.
  destruct (track_results_returns s1 s' Hrun)
    as (r & t1 & t' & Hr & Ht1 & Hupd & Hs').
  destruct Hkeep as (Kmp & Kvb & Krs & Knr & Ktr).
  assert (t1 = t) by congruence. subst t1.
  exists t'. split; [subst s'; reflexivity|]. split.
  - unfold entry_results. rewrite <- Href, Hres, Hr. exact Hupd.
  - destruct Hrel as [Hseed (Cmp & Cvb & Crs & Cnr)].
    split; [exact Hseed|]. subst s'. unfold same_config. simpl.
    repeat split; congruence.
Qed.

Lemma one_run_replay :
  forall (dataset : list dataset_entry) (s s' : Experiment)
         (t : PerformanceTracker),
    seeded seed same_config st0 s ->
    _tracker s = Some t ->
    one_run dataset target s = (Return tt, s') ->
    exists t',
      _tracker s' = Some t' /\
      for_each (map (entry_results target st0) dataset)
        Tracker.update_stats t = (Return tt, t') /\
      seeded seed same_config st0 s'.
Proof.
  unfold one_run.
  induction dataset as [|entry dataset IH]; intros s s' t Hrel Htr Hrun.
  - simpl in Hrun. unfold ret in Hrun. inversion Hrun. subst s'.
    exists t. repeat split; try assumption; apply Hrel.
  - rewrite for_each_cons in Hrun.
    destruct (execute_entry target entry s) as [[[]|e] s1] eqn:E;
      [|discriminate].
    destruct (execute_entry_replay entry s s1 t Hrel Htr E)
      as (t1 & Ht1 & Hupd & Hrel1).
    destruct (IH s1 s' t1 Hrel1 Ht1 Hrun) as (t' & Ht' & Hrest & Hrel').
    exists t'. split; [assumption|]. split; [|assumption].
    simpl map. rewrite for_each_cons, Hupd. exact Hrest.
Qed.

Lemma runs_replay (dataset : list dataset_entry) :
  forall (n a : nat) (s s' : Experiment) (t : PerformanceTracker),
    seeded seed same_config st0 s ->
    _tracker s = Some t ->
    for_each (seq a n) (fun _ => one_run dataset target) s = (Return tt, s') ->
    exists t',
      _tracker s' = Some t' /\
      for_each (List.concat (repeat (map (entry_results target st0) dataset) n))
        Tracker.update_stats t = (Return tt, t') /\
      seeded seed same_config st0 s'.
Proof.
  induction n as [|n IH]; intros a s s' t Hrel Htr Hrun.
  - simpl in Hrun. unfold ret in Hrun. inversion Hrun. subst s'.
    exists t. repeat split; try assumption; apply Hrel.
  - simpl seq in Hrun. rewrite for_each_cons in Hrun.
    destruct (one_run dataset target s) as [[[]|e] s1] eqn:E; [|discriminate].
    destruct (one_run_replay dataset s s1 t Hrel Htr E)
      as (t1 & Ht1 & Hupd & Hrel1).
    destruct (IH (S a) s1 s' t1 Hrel1 Ht1 Hrun) as (t' & Ht' & Hrest & Hrel').
    exists t'. split; [assumption|]. split; [|assumption].
    simpl repeat. simpl List.concat. rewrite for_each_app, Hupd. exact Hrest.
Qed.

End Determinism.

(** C10. [execute_all] threads one seed, unchanged, into every run and
    every class. Under deterministic fitting with that seed, [execute]
    gives the same outcome and the same per-class results from any two
    experiments with that configuration, so in run [i] as in run [j];
    and when [execute_all] returns, the seed is the one it started with
    and the tracker has received, in each of the [nruns] runs, the very
    same results: those that [execute] leaves when started from the
    initial experiment. *)
Theorem repeated_runs_are_identical (seed : Z)
  (dataset : list dataset_entry) (tcs : list string) (target : string)
  (st st' : Experiment) :
  deterministic_fitting seed ->
  random_state st = Some seed ->
  execute_all dataset tcs target st = (Return tt, st') ->
  random_state st' = Some seed /\
  (forall s1 s2 data rows cols,
      seeded seed same_config s1 s2 ->
      fst (execute data (rows, cols) target s1) =
      fst (execute data (rows, cols) target s2) /\
      results (snd (execute data (rows, cols) target s1)) =
      results (snd (execute data (rows, cols) target s2))) /\
  (exists t',
      _tracker st' = Some t' /\
      for_each
        (List.concat (repeat (map (entry_results target st) dataset)
                   (Z.to_nat (nruns st))))
        Tracker.update_stats (Tracker.init tcs (model_labels st))
      = (Return tt, t')).
Proof.
  intros Hdet Hseed Hrun.
  assert (Hreplay :
            exists t',
              _tracker st' = Some t' /\
              for_each
                (List.concat (repeat (map (entry_results target st) dataset)
                           (Z.to_nat (nruns st))))
                Tracker.update_stats (Tracker.init tcs (model_labels st))
              = (Return tt, t') /\
              seeded seed same_config st st').
  { unfold execute_all, bind, get, put in Hrun.
    apply (runs_replay seed Hdet target st dataset (Z.to_nat (nruns st)) 0%nat
             (set_tracker (Some (Tracker.init tcs (model_labels st))) st)
             st' (Tracker.init tcs (model_labels st)));
      [|reflexivity|exact Hrun].
    split; [exact Hseed|]. unfold same_config. simpl. auto. }
  destruct Hreplay as (t' & Ht' & Hfeed & [_ (_ & _ & Hrs & _)]).
  split; [congruence|]. split.
  - intros s1 s2 data rows cols Hrel.
    destruct (execute_agrees seed Hdet data rows cols target s1 s2 Hrel)
      as [Hfst [_ [_ Hres]]].
    split; assumption.
  - exists t'. split; assumption.
Qed.

(** *** The trials of [execute_all] *)

Lemma execute_entry_updates (target : string) (entry : dataset_entry)
  (s s' : Experiment) (t : PerformanceTracker) :
  _tracker s = Some t ->
  execute_entry target entry s = (Return tt, s') ->
  exists r t',
    _tracker s' = Some t' /\
    Tracker.update_stats r t = (Return tt, t').
Proof.
  intros Htr Hrun. destruct entry as [[data rows] cols].
  unfold execute_entry, bind in Hrun.
  pose proof (execute_keeps s data rows cols target s (keeps_refl s))
    as Hkeep.
  destruct (execute data (rows, cols) target s) as [[[]|e] s1];
    [|discriminate].
  simpl in Hkeep. destruct Hkeep as (_ & _ & _ & _ & Ktr).
  destruct (track_results_returns s1 s' Hrun)
    as (r & t1 & t' & _ & Ht1 & Hupd & Hs').
  assert (t1 = t) by congruence. subst t1.
  exists r, t'. split; [subst s'; reflexivity | exact Hupd].
Qed.

(** A returning run calls [update_stats] once per class group, and each
    of those calls returns. *)
Lemma one_run_updates (target : string) :
  forall (dataset : list dataset_entry) (s s' : Experiment)
         (t : PerformanceTracker),
    _tracker s = Some t ->
    one_run dataset target s = (Return tt, s') ->
    exists rs t',
      List.length rs = List.length dataset /\
      _tracker s' = Some t' /\
      for_each rs Tracker.update_stats t = (Return tt, t').
Proof.
  unfold one_run.
  induction dataset as [|entry dataset IH]; intros s s' t Htr Hrun.
  - simpl in Hrun. unfold ret in Hrun. inversion Hrun. subst s'.
    exists [], t. auto.
  - rewrite for_each_cons in Hrun.
    destruct (execute_entry target entry s) as [[[]|e] s1] eqn:E;
      [|discriminate].
    destruct (execute_entry_updates target entry s s1 t Htr E)
      as (r & t1 & Ht1 & Hupd).
    destruct (IH s1 s' t1 Ht1 Hrun) as (rs & t' & Hlen & Ht' & Hrest).
    exists (r :: rs), t'. split; [simpl; lia|]. split; [assumption|].
    rewrite for_each_cons, Hupd. exact Hrest.
Qed.

Lemma runs_updates (target : string) (dataset : list dataset_entry) :
  forall (n a : nat) (s s' : Experiment) (t : PerformanceTracker),
    _tracker s = Some t ->
    for_each (seq a n) (fun _ => one_run dataset target) s = (Return tt, s') ->
    exists rs t',
      List.length rs = (n * List.length dataset)%nat /\
      _tracker s' = Some t' /\
      for_each rs Tracker.update_stats t = (Return tt, t').
Proof.
  induction n as [|n IH]; intros a s s' t Htr Hrun.
  - simpl in Hrun. unfold ret in Hrun. inversion Hrun. subst s'.
    exists [], t. auto.
  - simpl seq in Hrun. rewrite for_each_cons in Hrun.
    destruct (one_run dataset target s) as [[[]|e] s1] eqn:E; [|discriminate].
    destruct (one_run_updates target dataset s s1 t Htr E)
      as (rs1 & t1 & Hlen1 & Ht1 & Hupd).
    destruct (IH (S a) s1 s' t1 Ht1 Hrun) as (rs & t' & Hlen & Ht' & Hrest).
    exists (rs1 ++ rs), t'. split; [rewrite length_app; simpl; lia|].
    split; [assumption|]. rewrite for_each_app, Hupd. exact Hrest.
Qed.

(** C3. After [rs] recorded trials, that is [List.length rs] returning
    calls of [update_stats] on a fresh tracker over distinct class labels,
    the counts [winning_stats[c][f]] of every class [c] sum, over
    the registered families, to the number of trials; one returning
    call adds the win of a class to exactly one family, the one that the
    result of the class names; and when [execute_all] returns, the
    counts of every class sum to the number of trials it ran, one per
    run and class group. *)
Theorem wins_sum_to_trials (tcs ms : list string)
  (rs : list (pydict result)) (t' : PerformanceTracker) :
  NoDup tcs ->
  for_each rs Tracker.update_stats (Tracker.init tcs ms) = (Return tt, t') ->
  (forall c, In c tcs ->
             total_wins t' c = Some (Z.of_nat (List.length rs))) /\
  (forall t results t1 c,
      test_classes t = tcs -> In c tcs ->
      Tracker.update_stats results t = (Return tt, t1) ->
      exists name est score,
        PyDict.get c results = Some (Some (name, est, score)) /\
        forall f,
          lookup2 (winning_stats t1) c f =
          if String.eqb f name
          then option_map Z.succ (lookup2 (winning_stats t) c f)
          else lookup2 (winning_stats t) c f) /\
  (forall dataset target st st',
      execute_all dataset tcs target st = (Return tt, st') ->
      exists t1,
        _tracker st' = Some t1 /\
        forall c, In c tcs ->
                  total_wins t1 c =
                  Some (Z.of_nat (Z.to_nat (nruns st) * List.length dataset))).
Proof.
  intros Hnd Hrun. split; [|split].
  - intros c Hin.
    apply (update_sequence_total tcs c Hnd Hin rs (Tracker.init tcs ms) t' 0);
      try assumption; try reflexivity.
    rewrite init_total_wins.
    rewrite (proj2 (mem_In c tcs) Hin). reflexivity.
  - intros t results t1 c Htcs Hin Hcall.
    unfold Tracker.update_stats, bind, get in Hcall.
    apply (update_loop_one_family results c (test_classes t) t t1);
      try assumption; rewrite Htcs; assumption.
  - intros dataset target st st' Hall.
    unfold execute_all, bind, get, put in Hall.
    destruct (runs_updates target dataset (Z.to_nat (nruns st)) 0%nat
                (set_tracker (Some (Tracker.init tcs (model_labels st))) st)
                st' (Tracker.init tcs (model_labels st)) eq_refl Hall)
      as (us & t1 & Hlen & Ht1 & Hus).
    exists t1. split; [assumption|]. intros c Hin. rewrite <- Hlen.
    apply (update_sequence_total tcs c Hnd Hin us
             (Tracker.init tcs (model_labels st)) t1 0);
      try assumption; try reflexivity.
    rewrite init_total_wins.
    rewrite (proj2 (mem_In c tcs) Hin). reflexivity.
Qed.

End ExperimentProperties.

(** ** The properties on the concrete inputs *)

Lemma wins_sum_to_trials_witness :
  NoDup ["dense"] /\
  for_each [Example.results_A; Example.results_B] Tracker.update_stats
    (Tracker.init ["dense"] ["A"; "B"]) = (Return tt, Example.tracker2) /\
  total_wins Example.tracker2 "dense" = Some 2.
Proof.
  assert (Hnd : NoDup ["dense"]).
  { constructor; [intros H; inversion H | constructor]. }
  assert (Hrun : for_each [Example.results_A; Example.results_B]
                   Tracker.update_stats (Tracker.init ["dense"] ["A"; "B"])
                 = (Return tt, Example.tracker2)).
  { reflexivity. }
  split; [exact Hnd | split; [exact Hrun |]].
  apply (proj1 (wins_sum_to_trials (sk := Toy.sklearn) ["dense"] ["A"; "B"]
                  [Example.results_A; Example.results_B] Example.tracker2
                  Hnd Hrun) "dense").
  left. reflexivity.
Defined.

Lemma jaccard_empty_is_zero_witness :
  biclusters_ Example.est_empty = Some ([], [[true]]) /\
  jaccard (sk := Toy.sklearn) Example.st_tie Example.est_empty =
  Return (S754_zero false).
Proof.
  split; [reflexivity|].
  apply (jaccard_empty_is_zero (sk := Toy.sklearn) Example.st_tie
           Example.est_empty [] [[true]]).
  - reflexivity.
  - left. reflexivity.
Defined.

Lemma invalid_target_is_rejected_witness :
  "bogus" <> "score" /\ "bogus" <> "time" /\
  compare_models (sk := Toy.sklearn) "bogus" Example.st_runs =
  (Raise (ValueError "Invalid target: `bogus`"), Example.st_runs) /\
  _tracker (snd (execute_all (sk := Toy.sklearn) [Example.dense_entry]
                   ["dense"] "bogus" Example.st_runs)) =
  Some (Tracker.init ["dense"] ["A"; "B"]).
Proof.
  assert (H1 : "bogus" <> "score") by discriminate.
  assert (H2 : "bogus" <> "time") by discriminate.
  split; [exact H1 | split; [exact H2 |]].
  pose proof (invalid_target_is_rejected (sk := Toy.sklearn) "bogus" H1 H2)
    as [Hcmp [Htr _]].
  split.
  - exact (Hcmp Example.st_runs).
  - exact (Htr [Example.dense_entry] ["dense"] Example.st_runs).
Defined.

(** C6, the claim as stated fails: with the [time] target nothing is
    raised, [compare_models] returns [None], and a quiet [execute]
    returns with [None] stored as the result of the class. *)
Lemma time_mode_is_silent :
  fst (compare_models (sk := Toy.sklearn) "time" Example.st_runs) =
  Return None /\
  fst (execute (sk := Toy.sklearn) Example.dense_data
         (Example.dense_rows, Example.dense_cols) "time" Example.st_runs) =
  Return tt /\
  results
    (snd (execute (sk := Toy.sklearn) Example.dense_data
            (Example.dense_rows, Example.dense_cols) "time" Example.st_runs)) =
  Some [("dense", None)].
Proof. repeat split. Qed.

Lemma time_mode_returns_none_witness :
  compare_models (sk := Toy.sklearn) "time" Example.st_runs =
  (Return None, Example.st_runs) /\
  Tracker.update_class [("dense", None)] "dense" Example.tracker0 =
  (Raise none_unpack, Example.tracker0).
Proof.
  pose proof (time_mode_returns_none (sk := Toy.sklearn)) as [Hcmp [_ Hupd]].
  split.
  - exact (Hcmp Example.st_runs).
  - apply Hupd. reflexivity.
Defined.

(** C1, the claim as stated fails: the grid search of [A] raises, and
    [score_eval] raises that error instead of returning a triple,
    although [B], searched alone, would have been returned with 0.5. *)
Lemma fit_error_is_not_caught :
  fst (score_eval (sk := Toy.sklearn) Example.st_broken) =
  Raise (LibraryError "fit failed") /\
  ~ (exists t, fst (score_eval (sk := Toy.sklearn) Example.st_broken)
               = Return t) /\
  fst (score_eval (sk := Toy.sklearn) Example.st_only_B) =
  Return ("B", construct Example.B [("score", PFloat Example.half)],
          Example.half).
Proof.
  split; [reflexivity | split; [|reflexivity]].
  intros [t Ht]. discriminate Ht.
Qed.

Lemma fit_error_aborts_sweep_witness :
  library_run (sk := Toy.sklearn) Example.st_broken =
  (Raise (LibraryError "fit failed"),
   snd (library_run (sk := Toy.sklearn) Example.st_broken)) /\
  score_eval (sk := Toy.sklearn) Example.st_broken =
  (Raise (LibraryError "fit failed"),
   snd (library_run (sk := Toy.sklearn) Example.st_broken)).
Proof.
  assert (Hrun : library_run (sk := Toy.sklearn) Example.st_broken =
                 (Raise (LibraryError "fit failed"),
                  snd (library_run (sk := Toy.sklearn) Example.st_broken)))
    by reflexivity.
  split; [exact Hrun|].
  exact (proj1 (proj2 (fit_error_aborts_sweep (sk := Toy.sklearn)))
           Example.st_broken _ _ Hrun).
Defined.

Lemma winner_bound_only_by_comparison_witness :
  library_run (sk := Toy.sklearn) Example.st_nan =
  (Return [ {| best_score_ := PyFloat.nan; best_params_ := [] |};
            {| best_score_ := PyFloat.nan; best_params_ := [] |} ],
   snd (library_run (sk := Toy.sklearn) Example.st_nan)) /\
  score_eval (sk := Toy.sklearn) Example.st_nan =
  (Raise (UnboundLocalError
            "local variable 'winner_name' referenced before assignment"),
   snd (library_run (sk := Toy.sklearn) Example.st_nan)).
Proof.
  assert (Hrun : library_run (sk := Toy.sklearn) Example.st_nan =
                 (Return [ {| best_score_ := PyFloat.nan; best_params_ := [] |};
                           {| best_score_ := PyFloat.nan; best_params_ := [] |} ],
                  snd (library_run (sk := Toy.sklearn) Example.st_nan)))
    by reflexivity.
  split; [exact Hrun|].
  apply (proj2 (winner_bound_only_by_comparison (sk := Toy.sklearn)
                  Example.st_nan _ _ Hrun)).
  intros g [<-|[<-|[]]]; reflexivity.
Defined.

Lemma earlier_family_wins_tie_witness :
  PyFloat.eq (best_score_ (Example.fitted Example.half))
    (best_score_ (Example.fitted Example.half)) = true /\
  score_eval (sk := Toy.sklearn) Example.st_tie =
  (Return ("A", construct Example.A [("score", PFloat Example.half)],
           Example.half),
   snd (library_run (sk := Toy.sklearn) Example.st_tie)).
Proof.
  split; [reflexivity|].
  apply (earlier_family_wins_tie (sk := Toy.sklearn) Example.st_tie
           [Example.fitted Example.quarter; Example.fitted Example.half;
            Example.fitted Example.half]
           (snd (library_run (sk := Toy.sklearn) Example.st_tie))
           [(Example.C, Example.scoring Example.quarter)] [] []
           Example.A Example.B
           (Example.scoring Example.half) (Example.scoring Example.half)
           [Example.fitted Example.quarter] [] []
           (Example.fitted Example.half) (Example.fitted Example.half));
    try reflexivity.
  - intros g [<-|[<-|[<-|[]]]]; reflexivity.
  - intros g [<-|[]]. reflexivity.
Defined.

Lemma toy_fitting_is_deterministic (seed : Z) :
  deterministic_fitting (sk := Toy.sklearn) seed.
Proof.
  split; intros; [reflexivity|].
  simpl. unfold Toy.fit.
  destruct (Toy.grid_lookup "raise" grid); [reflexivity|].
  destruct (Toy.grid_lookup "score" grid) as [[|[] ?]|]; reflexivity.
Qed.

Lemma repeated_runs_are_identical_witness :
  random_state Example.st_runs = Some 1 /\
  execute_all (sk := Toy.sklearn) [Example.dense_entry] ["dense"]
    "score" Example.st_runs = (Return tt, Example.st_runs_done) /\
  exists t',
    _tracker Example.st_runs_done = Some t' /\
    for_each
      (List.concat
         (repeat (map (entry_results (sk := Toy.sklearn) "score"
                         Example.st_runs) [Example.dense_entry])
            (Z.to_nat (nruns Example.st_runs))))
      Tracker.update_stats
      (Tracker.init ["dense"] (model_labels Example.st_runs))
    = (Return tt, t').
Proof.
  assert (Hrun : execute_all (sk := Toy.sklearn) [Example.dense_entry]
                   ["dense"] "score" Example.st_runs
                 = (Return tt, Example.st_runs_done)).
  { vm_compute. reflexivity. }
  split; [reflexivity | split; [exact Hrun|]].
  exact (proj2 (proj2
    (repeated_runs_are_identical (sk := Toy.sklearn) 1
       [Example.dense_entry] ["dense"] "score" Example.st_runs
       Example.st_runs_done
       (toy_fitting_is_deterministic 1) eq_refl Hrun))).
Defined.

(** The three runs of the example: family [A] wins each of them with the
    same score. *)
Example runs_of_example :
  option_map (fun t => (lookup2 (winning_stats t) "dense" "A",
                        lookup2 (model_scores t) "dense" "A"))
    (_tracker (snd (execute_all (sk := Toy.sklearn) [Example.dense_entry]
                      ["dense"] "score" Example.st_runs))) =
  Some (Some 3, Some [Example.half; Example.half; Example.half]).
Proof. reflexivity. Qed.

(** * Further properties *)

(** ** The shape of the tracker *)

Lemma keys_set_present {V} (k : string) (v v0 : V) (d : pydict V) :
  PyDict.get k d = Some v0 ->
  PyDict.keys (PyDict.set k v d) = PyDict.keys d.
Proof.
  induction d as [|[k0 x] d IH]; simpl; [discriminate|].
  destruct (String.eqb k k0); simpl.
  - reflexivity.
  - intros H. f_equal. apply IH. assumption.
Qed.

Lemma get_defined {V} (k : string) (d : pydict V) :
  match PyDict.get k d with
  | Some _ => mem k (PyDict.keys d) = true
  | None => mem k (PyDict.keys d) = false
  end.
Proof.
  induction d as [|[k0 x] d IH]; simpl; [reflexivity|].
  destruct (String.eqb k k0); simpl; [reflexivity | exact IH].
Qed.

Lemma get_some_mem {V} (k : string) (d : pydict V) (v : V) :
  PyDict.get k d = Some v -> mem k (PyDict.keys d) = true.
Proof. intros H. pose proof (get_defined k d) as Hd. rewrite H in Hd. exact Hd. Qed.

Lemma mem_get_some {V} (k : string) (d : pydict V) :
  mem k (PyDict.keys d) = true -> exists v, PyDict.get k d = Some v.
Proof.
  intros H. pose proof (get_defined k d) as Hd.
  destruct (PyDict.get k d) as [v|]; [eauto | congruence].
Qed.

Lemma get_none_mem {V} (k : string) (d : pydict V) :
  PyDict.get k d = None <-> mem k (PyDict.keys d) = false.
Proof.
  pose proof (get_defined k d) as Hd.
  destruct (PyDict.get k d) as [v|]; split; congruence.
Qed.

Lemma shape_set {V} (tc : string) (inner inner' : pydict V)
  (d : pydict (pydict V)) :
  PyDict.get tc d = Some inner ->
  PyDict.keys inner' = PyDict.keys inner ->
  shape (PyDict.set tc inner' d) = shape d.
Proof.
  intros Hget Hkeys. induction d as [|[c0 x] d IH]; simpl in *; [discriminate|].
  destruct (String.eqb tc c0); simpl.
  - inversion Hget. subst x. rewrite Hkeys. reflexivity.
  - f_equal. apply IH. assumption.
Qed.

Lemma shape_get {V W} (d : pydict (pydict V)) (d' : pydict (pydict W))
  (c : string) :
  shape d' = shape d ->
  option_map PyDict.keys (PyDict.get c d') =
  option_map PyDict.keys (PyDict.get c d).
Proof.
  revert d'. induction d as [|[c0 x] d IH]; intros [|[c1 y] d'] H;
    simpl in *; try discriminate; [reflexivity|].
  inversion H. subst c1.
  destruct (String.eqb c c0); simpl; [congruence | apply IH; assumption].
Qed.

(** Two nested mappings of the same shape have the same entries
    defined. *)
Lemma shape_lookup2 {V W} (d : pydict (pydict V)) (d' : pydict (pydict W))
  (c f : string) :
  shape d' = shape d ->
  (lookup2 d' c f = None <-> lookup2 d c f = None).
Proof.
  intros H. pose proof (shape_get d d' c H) as Hc. unfold lookup2.
  destruct (PyDict.get c d') as [i'|], (PyDict.get c d) as [i|];
    simpl in Hc; try discriminate; [|tauto].
  inversion Hc as [Hk]. rewrite !get_none_mem, Hk. tauto.
Qed.

Lemma update_class_shape (results : pydict result) (tc : string)
  (t : PerformanceTracker) :
  shape (winning_stats (snd (Tracker.update_class results tc t))) =
  shape (winning_stats t) /\
  shape (model_scores (snd (Tracker.update_class results tc t))) =
  shape (model_scores t) /\
  models (snd (Tracker.update_class results tc t)) = models t.
Proof.
  rewrite update_class_eq.
  destruct (PyDict.get tc results) as [[[[name est] score]|]|]; auto.
  destruct (PyDict.get tc (winning_stats t)) as [wi|] eqn:Hwi; auto.
  destruct (PyDict.get name wi) as [n0|] eqn:Hn0; auto.
  cbv zeta.
  assert (Hws : shape (PyDict.set tc (PyDict.set name (n0 + 1) wi)
                         (winning_stats t)) = shape (winning_stats t)).
  { apply (shape_set tc wi); [assumption|].
    apply (keys_set_present name _ n0). assumption. }
  destruct (PyDict.get tc (model_scores t)) as [si|] eqn:Hsi; simpl; auto.
  destruct (PyDict.get name si) as [h0|] eqn:Hh0; simpl; auto.
  repeat split; try assumption.
  apply (shape_set tc si); [assumption|].
  apply (keys_set_present name _ h0). assumption.
Qed.

(** X1. [update_stats] never adds, removes or reorders a class or a
    family: whatever the results are, and whether the call returns or
    raises, the classes of [winning_stats] and of [model_scores], the
    families of each class and their insertion order are as before, and
    so are [test_classes] and [models]. *)
Theorem update_stats_keeps_shape (results : pydict result)
  (t : PerformanceTracker) :
  shape (winning_stats (snd (Tracker.update_stats results t))) =
  shape (winning_stats t) /\
  shape (model_scores (snd (Tracker.update_stats results t))) =
  shape (model_scores t) /\
  test_classes (snd (Tracker.update_stats results t)) = test_classes t /\
  models (snd (Tracker.update_stats results t)) = models t.
Proof.
  assert (H : shape (winning_stats (snd (Tracker.update_stats results t))) =
              shape (winning_stats t) /\
              shape (model_scores (snd (Tracker.update_stats results t))) =
              shape (model_scores t) /\
              models (snd (Tracker.update_stats results t)) = models t).
  { unfold Tracker.update_stats, bind, get.
    apply (for_each_preserves
             (fun s => shape (winning_stats s) = shape (winning_stats t) /\
                       shape (model_scores s) = shape (model_scores t) /\
                       models s = models t)); [|auto].
    intros x s (Hw & Hs & Hm).
    destruct (update_class_shape results x s) as (Hw' & Hs' & Hm').
    repeat split; congruence. }
  destruct H as (Hw & Hs & Hm).
  repeat split; try assumption. apply update_stats_test_classes.
Qed.

Lemma update_stats_shape (results : pydict result) (t : PerformanceTracker) :
  shape (winning_stats (snd (Tracker.update_stats results t))) =
  shape (winning_stats t) /\
  shape (model_scores (snd (Tracker.update_stats results t))) =
  shape (model_scores t).
Proof.
  unfold Tracker.update_stats, bind, get.
  apply (for_each_preserves
           (fun s => shape (winning_stats s) = shape (winning_stats t) /\
                     shape (model_scores s) = shape (model_scores t)));
    [|auto].
  intros x s (Hw & Hs).
  destruct (update_class_shape results x s) as (Hw' & Hs' & _).
  split; congruence.
Qed.

Lemma reachable_fresh_shape (tcs ms : list string) (t : PerformanceTracker) :
  reachable tcs ms t -> fresh_shape tcs ms t /\ test_classes t = tcs.
Proof.
  induction 1 as [|t results Hreach [[Hw Hs] Htc]].
  - split; [split|]; reflexivity.
  - destruct (update_stats_shape results t) as [Hw' Hs'].
    split; [split; congruence|].
    rewrite update_stats_test_classes. assumption.
Qed.

Lemma reachable_consistent (tcs ms : list string) (t : PerformanceTracker) :
  reachable tcs ms t -> consistent t.
Proof.
  induction 1; [apply init_consistent | apply update_stats_consistent];
    assumption.
Qed.

Lemma fresh_shape_registered (tcs ms : list string) (t : PerformanceTracker)
  (c f : string) :
  fresh_shape tcs ms t -> In c tcs -> In f ms ->
  exists wi n si h,
    PyDict.get c (winning_stats t) = Some wi /\ PyDict.get f wi = Some n /\
    PyDict.get c (model_scores t) = Some si /\ PyDict.get f si = Some h.
Proof.
  intros [Hw Hs] Hc Hf.
  apply mem_In in Hc. apply mem_In in Hf.
  pose proof (shape_lookup2 _ _ c f Hw) as Lw.
  pose proof (shape_lookup2 _ _ c f Hs) as Ls.
  rewrite init_winning_stats, Hc, Hf in Lw.
  rewrite init_model_scores, Hc, Hf in Ls. simpl in Lw, Ls.
  unfold lookup2 in Lw, Ls.
  destruct (PyDict.get c (winning_stats t)) as [wi|];
    [|destruct Lw as [L _]; specialize (L eq_refl); discriminate].
  destruct (PyDict.get f wi) as [n|] eqn:En;
    [|destruct Lw as [L _]; specialize (L eq_refl); discriminate].
  destruct (PyDict.get c (model_scores t)) as [si|];
    [|destruct Ls as [L _]; specialize (L eq_refl); discriminate].
  destruct (PyDict.get f si) as [h|] eqn:Eh;
    [|destruct Ls as [L _]; specialize (L eq_refl); discriminate].
  exists wi, n, si, h. auto.
Qed.

Lemma fresh_shape_unregistered (tcs ms : list string) (t : PerformanceTracker)
  (c f : string) :
  fresh_shape tcs ms t -> In c tcs -> ~ In f ms ->
  exists wi, PyDict.get c (winning_stats t) = Some wi /\
             PyDict.get f wi = None.
Proof.
  intros [Hw _] Hc Hf.
  apply mem_In in Hc.
  assert (Hf' : mem f ms = false).
  { destruct (mem f ms) eqn:E; [|reflexivity].
    apply mem_In in E. contradiction. }
  pose proof (shape_get _ _ c Hw) as Hk.
  simpl winning_stats in Hk at 2. unfold Tracker._setup_model_win_stats in Hk.
  rewrite (get_fold_set (fun _ => PyDict.comprehension (fun _ => 0) ms)) in Hk.
  rewrite Hc in Hk. simpl in Hk.
  destruct (PyDict.get c (winning_stats t)) as [wi|]; [|discriminate].
  exists wi. split; [reflexivity|]. simpl in Hk. inversion Hk as [Hkeys].
  apply get_none_mem. rewrite Hkeys. apply get_none_mem.
  rewrite get_comprehension, Hf'. reflexivity.
Qed.


(** ** When [update_stats] returns and when it raises *)

Lemma for_each_total {S A} (P : S -> Prop) (body : A -> M S unit)
  (l : list A) :
  (forall x s, In x l -> P s -> exists s', body x s = (Return tt, s') /\ P s') ->
  forall s, P s -> exists s', for_each l body s = (Return tt, s') /\ P s'.
Proof.
  induction l as [|x l IH]; intros Hbody s Hs.
  - exists s. split; [reflexivity | assumption].
  - destruct (Hbody x s (or_introl eq_refl) Hs) as [s1 [E Hs1]].
    destruct (IH (fun y s0 Hy => Hbody y s0 (or_intror Hy)) s1 Hs1)
      as [s' [E' Hs']].
    exists s'. split; [|assumption]. rewrite for_each_cons, E. exact E'.
Qed.

Lemma update_class_registered (tcs ms : list string) (results : pydict result)
  (c name : string) (est : estimator) (score : float)
  (t : PerformanceTracker) :
  fresh_shape tcs ms t -> In c tcs ->
  PyDict.get c results = Some (Some (name, est, score)) -> In name ms ->
  exists t', Tracker.update_class results c t = (Return tt, t') /\
             fresh_shape tcs ms t'.
Proof.
  intros Hshape Hc Hres Hname.
  destruct (fresh_shape_registered tcs ms t c name Hshape Hc Hname)
    as (wi & n & si & h & Hwi & Hn & Hsi & Hh).
  pose proof (update_class_shape results c t) as (Hw' & Hs' & _).
  rewrite update_class_eq in *. rewrite Hres, Hwi, Hn in *.
  cbv zeta in *. rewrite Hsi, Hh in *. simpl in Hw', Hs'.
  eexists. split; [reflexivity|].
  destruct Hshape as [Hw Hs]. unfold fresh_shape.
  cbn [winning_stats model_scores Tracker.set_model_scores
         Tracker.set_winning_stats].
  split; congruence.
Qed.

(** X3. On a tracker reached from a fresh one, [update_stats] returns as
    soon as the results give every test class a triple whose name is a
    registered family. *)
Theorem update_stats_returns (tcs ms : list string) (t : PerformanceTracker)
  (results : pydict result) :
  reachable tcs ms t ->
  (forall c, In c tcs ->
             exists name est score,
               PyDict.get c results = Some (Some (name, est, score)) /\
               In name ms) ->
  exists t', Tracker.update_stats results t = (Return tt, t').
Proof.
  intros Hreach Hres.
  destruct (reachable_fresh_shape tcs ms t Hreach) as [Hshape Htcs].
  unfold Tracker.update_stats, bind, get. rewrite Htcs.
  destruct (for_each_total (fresh_shape tcs ms)
              (Tracker.update_class results) tcs) with (s := t)
    as [t' [E _]]; [|assumption|eauto].
  intros c s Hc Hs.
  destruct (Hres c Hc) as (name & est & score & Hget & Hname).
  eapply update_class_registered; eassumption.
Qed.

(** X4. [update_stats] is not atomic: when the results lack a test
    class, it raises [KeyError] for that class after having recorded the
    classes that come before it in [test_classes], and records none of
    the classes after it. *)
Theorem update_stats_missing_class (results : pydict result)
  (t t1 : PerformanceTracker) (pre post : list string) (c : string) :
  test_classes t = pre ++ c :: post ->
  for_each pre (Tracker.update_class results) t = (Return tt, t1) ->
  PyDict.get c results = None ->
  Tracker.update_stats results t = (Raise (KeyError c), t1).
Proof.
  intros Htcs Hpre Hnone.
  unfold Tracker.update_stats, bind, get.
  rewrite Htcs, for_each_app, Hpre, for_each_cons, update_class_eq, Hnone.
  reflexivity.
Qed.

(** X5. When the result of a class names a family that is not
    registered, [update_stats] on a reached tracker raises [KeyError]
    for that name; the classes before it have been recorded, and neither
    the counters nor the histories of the class itself were touched. *)
Theorem update_stats_unknown_family (tcs ms : list string)
  (results : pydict result) (t t1 : PerformanceTracker)
  (pre post : list string) (c name : string) (est : estimator)
  (score : float) :
  reachable tcs ms t ->
  tcs = pre ++ c :: post ->
  for_each pre (Tracker.update_class results) t = (Return tt, t1) ->
  PyDict.get c results = Some (Some (name, est, score)) ->
  ~ In name ms ->
  Tracker.update_stats results t = (Raise (KeyError name), t1).
Proof.
  intros Hreach Htcs Hpre Hres Hname.
  destruct (reachable_fresh_shape tcs ms t Hreach) as [Hshape Htc].
  assert (Hshape1 : fresh_shape tcs ms t1).
  { apply (for_each_returns (fresh_shape tcs ms)
             (Tracker.update_class results)) with (l := pre) (s := t);
      [|assumption|assumption].
    intros x s s' [Hw Hs] E.
    pose proof (update_class_shape results x s) as (Hw' & Hs' & _).
    rewrite E in Hw', Hs'. simpl in Hw', Hs'. split; congruence. }
  destruct (fresh_shape_unregistered tcs ms t1 c name Hshape1)
    as (wi & Hwi & Hn); [rewrite Htcs; apply in_elt | assumption |].
  unfold Tracker.update_stats, bind, get.
  rewrite Htc, Htcs, for_each_app, Hpre, for_each_cons, update_class_eq.
  rewrite Hres, Hwi, Hn. reflexivity.
Qed.

(** ** The histories as a function of the trials *)

Lemma update_loop_scores_other (results : pydict result) (c : string) :
  forall (l : list string) (t t' : PerformanceTracker),
    ~ In c l ->
    for_each l (Tracker.update_class results) t = (Return tt, t') ->
    forall f, lookup2 (model_scores t') c f = lookup2 (model_scores t) c f.
Proof.
  induction l as [|x l IH]; intros t t' Hnin Hrun f.
  - simpl in Hrun. unfold ret in Hrun. inversion Hrun. reflexivity.
  - rewrite for_each_cons in Hrun.
    destruct (Tracker.update_class results x t) as [[[]|e] t1] eqn:E;
      [|discriminate].
    rewrite (IH t1 t' (fun H => Hnin (or_intror H)) Hrun f).
    destruct (update_class_returns _ _ _ _ E)
      as (name & est & score & n & h & _ & _ & _ & _ & Hs).
    rewrite Hs.
    destruct (String.eqb_spec c x) as [->|Hc]; simpl.
    + exfalso. apply Hnin. left. reflexivity.
    + reflexivity.
Qed.

Lemma update_loop_scores (results : pydict result) (c f : string) :
  forall (l : list string) (t t' : PerformanceTracker) (h : list float),
    NoDup l -> In c l ->
    for_each l (Tracker.update_class results) t = (Return tt, t') ->
    lookup2 (model_scores t) c f = Some h ->
    lookup2 (model_scores t') c f = Some (h ++ won_score c f results).
Proof.
  induction l as [|x l IH]; intros t t' h Hnd Hin Hrun Hh; [contradiction|].
  rewrite for_each_cons in Hrun.
  destruct (Tracker.update_class results x t) as [[[]|e] t1] eqn:E;
    [|discriminate].
  inversion Hnd as [|x' l' Hxl Hndl]. subst x' l'.
  destruct (update_class_returns _ _ _ _ E)
    as (name & est & score & n & h0 & Hres & _ & Hh0 & _ & Hs).
  destruct (string_dec x c) as [->|Hxc].
  - rewrite (update_loop_scores_other results c l t1 t' Hxl Hrun f), Hs.
    rewrite String.eqb_refl. simpl. unfold won_score. rewrite Hres.
    rewrite (String.eqb_sym name f).
    destruct (String.eqb_spec f name) as [->|Hf].
    + rewrite Hh0 in Hh. inversion Hh. reflexivity.
    + rewrite Hh, app_nil_r. reflexivity.
  - destruct Hin as [Hin|Hin]; [contradiction|].
    apply (IH t1 t' h Hndl Hin Hrun). rewrite Hs.
    destruct (String.eqb_spec c x) as [->|Hc]; [congruence|]. exact Hh.
Qed.

Lemma update_sequence_scores (tcs : list string) (c f : string) :
  NoDup tcs -> In c tcs ->
  forall (rs : list (pydict result)) (t t' : PerformanceTracker)
         (h : list float),
    test_classes t = tcs ->
    lookup2 (model_scores t) c f = Some h ->
    for_each rs Tracker.update_stats t = (Return tt, t') ->
    lookup2 (model_scores t') c f = Some (h ++ won_scores c f rs).
Proof.
  intros Hnd Hin. induction rs as [|r rs IH]; intros t t' h Htcs Hh Hrun.
  - simpl in Hrun. unfold ret in Hrun. inversion Hrun. subst t'.
    simpl. rewrite app_nil_r. exact Hh.
  - rewrite for_each_cons in Hrun.
    destruct (Tracker.update_stats r t) as [[[]|e] t1] eqn:E; [|discriminate].
    assert (Ht1 : test_classes t1 = tcs).
    { pose proof (update_stats_test_classes r t) as H.
      rewrite E in H. simpl in H. congruence. }
    assert (Hh1 : lookup2 (model_scores t1) c f = Some (h ++ won_score c f r)).
    { unfold Tracker.update_stats, bind, get in E.
      apply (update_loop_scores r c f (test_classes t) t t1 h);
        try assumption; rewrite Htcs; assumption. }
    rewrite (IH t1 t' _ Ht1 Hh1 Hrun).
    unfold won_scores. simpl. rewrite app_assoc. reflexivity.
Qed.

Lemma update_sequence_reachable (tcs ms : list string) :
  forall (rs : list (pydict result)) (t : PerformanceTracker),
    reachable tcs ms t ->
    reachable tcs ms (snd (for_each rs Tracker.update_stats t)).
Proof.
  induction rs as [|r rs IH]; intros t Ht; [exact Ht|].
  rewrite for_each_cons.
  pose proof (reach_update tcs ms t r Ht) as Ht1.
  destruct (Tracker.update_stats r t) as [[[]|e] t1]; simpl in Ht1.
  - apply IH. assumption.
  - assumption.
Qed.

(** X6. After any number of recorded trials on a fresh tracker over
    distinct class labels, the history [model_scores[c][f]] is the list
    of the scores of the trials in which [f] was the winner of [c], in
    the order of the trials, and [winning_stats[c][f]] is the number of
    those trials; the scores of the other families of a trial are not
    kept. *)
Theorem history_is_scores_of_wins (tcs ms : list string)
  (rs : list (pydict result)) (t' : PerformanceTracker) (c f : string) :
  NoDup tcs -> In c tcs -> In f ms ->
  for_each rs Tracker.update_stats (Tracker.init tcs ms) = (Return tt, t') ->
  lookup2 (model_scores t') c f = Some (won_scores c f rs) /\
  lookup2 (winning_stats t') c f =
  Some (Z.of_nat (List.length (won_scores c f rs))).
Proof.
  intros Hnd Hc Hf Hrun.
  assert (Hs : lookup2 (model_scores t') c f = Some (won_scores c f rs)).
  { apply (update_sequence_scores tcs c f Hnd Hc rs (Tracker.init tcs ms) t' []);
      [reflexivity | | assumption].
    rewrite init_model_scores.
    rewrite (proj2 (mem_In c tcs) Hc), (proj2 (mem_In f ms) Hf). reflexivity. }
  split; [exact Hs|].
  pose proof (update_sequence_reachable tcs ms rs (Tracker.init tcs ms)
                (reach_init tcs ms)) as Hreach.
  rewrite Hrun in Hreach. simpl in Hreach.
  rewrite (reachable_consistent tcs ms t' Hreach c f), Hs. reflexivity.
Qed.

(** ** What one call of [update_stats] records *)

Lemma won_score_eq (c f name : string) (est : estimator) (score : float)
  (results : pydict result) :
  PyDict.get c results = Some (Some (name, est, score)) ->
  won_score c f results = if String.eqb name f then [score] else [].
Proof. intros H. unfold won_score. rewrite H. reflexivity. Qed.

Lemma concat_repeat_nil {A} (k : nat) :
  List.concat (repeat (@nil A) k) = [].
Proof. induction k as [|k IH]; simpl; [reflexivity | exact IH]. Qed.

(** A returning loop over the classes [l] appends to every history what
    the results record for it, as often as its class stands in [l]. *)
Lemma update_loop_recorded (results : pydict result) :
  forall (l : list string) (t t' : PerformanceTracker),
    for_each l (Tracker.update_class results) t = (Return tt, t') ->
    forall c f,
      lookup2 (model_scores t') c f =
      option_map (fun h => h ++ recorded l c f results)
        (lookup2 (model_scores t) c f).
Proof.
  induction l as [|x l IH]; intros t t' Hrun c f.
  - simpl in Hrun. unfold ret in Hrun. inversion Hrun. subst t'.
    unfold recorded. simpl.
    destruct (lookup2 (model_scores t) c f); simpl; [|reflexivity].
    rewrite app_nil_r. reflexivity.
  - rewrite for_each_cons in Hrun.
    destruct (Tracker.update_class results x t) as [[[]|e] t1] eqn:E;
      [|discriminate].
    rewrite (IH t1 t' Hrun c f).
    destruct (update_class_returns _ _ _ _ E)
      as (name & est & score & n & h0 & Hres & _ & Hh0 & _ & Hs).
    rewrite Hs. unfold recorded. simpl count_occ.
    destruct (string_dec x c) as [->|Hxc].
    + rewrite String.eqb_refl. simpl andb. simpl repeat. simpl List.concat.
      rewrite (won_score_eq c f name est score results Hres).
      rewrite (String.eqb_sym name f).
      destruct (String.eqb_spec f name) as [->|Hf].
      * rewrite Hh0. simpl. rewrite <- app_assoc. reflexivity.
      * reflexivity.
    + destruct (String.eqb_spec c x) as [->|Hc]; [congruence|]. reflexivity.
Qed.

(** In a returning loop over distinct classes, the winner of a class has
    its counter raised by one and its score appended, and the other
    families of the class are as before. *)
Lemma update_loop_winner (results : pydict result) (c : string) :
  forall (l : list string) (t t' : PerformanceTracker),
    NoDup l -> In c l ->
    for_each l (Tracker.update_class results) t = (Return tt, t') ->
    exists name est score n h,
      PyDict.get c results = Some (Some (name, est, score)) /\
      lookup2 (winning_stats t) c name = Some n /\
      lookup2 (model_scores t) c name = Some h /\
      (forall f,
          lookup2 (winning_stats t') c f =
          if String.eqb f name then Some (n + 1)
          else lookup2 (winning_stats t) c f) /\
      (forall f,
          lookup2 (model_scores t') c f =
          if String.eqb f name then Some (h ++ [score])
          else lookup2 (model_scores t) c f).
Proof.
  induction l as [|x l IH]; intros t t' Hnd Hin Hrun; [contradiction|].
  rewrite for_each_cons in Hrun.
  destruct (Tracker.update_class results x t) as [[[]|e] t1] eqn:E;
    [|discriminate].
  inversion Hnd as [|x' l' Hxl Hndl]. subst x' l'.
  destruct (update_class_returns _ _ _ _ E)
    as (name & est & score & n & h & Hres & Hn & Hh & Hw & Hs).
  destruct (string_dec x c) as [->|Hxc].
  - exists name, est, score, n, h. repeat split; try assumption.
    + intros f.
      rewrite (update_loop_other results c l t1 t' Hxl Hrun f), Hw.
      rewrite String.eqb_refl. reflexivity.
    + intros f.
      rewrite (update_loop_scores_other results c l t1 t' Hxl Hrun f), Hs.
      rewrite String.eqb_refl. reflexivity.
  - destruct Hin as [Hin|Hin]; [contradiction|].
    destruct (IH t1 t' Hndl Hin Hrun)
      as (name' & est' & score' & n' & h' & Hres' & Hn' & Hh' & Hw' & Hs').
    assert (Hcx : String.eqb c x = false).
    { destruct (String.eqb_spec c x) as [->|]; [congruence | reflexivity]. }
    exists name', est', score', n', h'. repeat split; try assumption.
    + rewrite Hw, Hcx in Hn'. exact Hn'.
    + rewrite Hs, Hcx in Hh'. exact Hh'.
    + intros f. rewrite Hw', Hw, Hcx. reflexivity.
    + intros f. rewrite Hs', Hs, Hcx. reflexivity.
Qed.

(** C2. In every tracker reached from a fresh one by calls of
    [update_stats], the length of the score history
    [model_scores[c][f]] is the win count [winning_stats[c][f]], for
    every class [c] and family [f]. A further call of [update_stats],
    returning or not, appends to a history what it adds to its counter
    and leaves what was recorded before in place. A call that returns
    appends to every history exactly the scores that the results record
    for it and raises its counter by their number; over distinct class
    labels that is: for every test class, the counter of the winner
    that the results name is raised by one, the winner's score is
    appended to the winner's history, and the other families of the
    class keep their counters and histories. The same holds of each
    returning pass of the loop. *)
Theorem update_stats_history_matches_wins (tcs ms : list string)
  (t : PerformanceTracker) :
  reachable tcs ms t ->
  consistent t /\
  (forall results, grows t (snd (Tracker.update_stats results t))) /\
  (forall results tc t',
      Tracker.update_class results tc t = (Return tt, t') ->
      exists name est score n h,
        PyDict.get tc results = Some (Some (name, est, score)) /\
        lookup2 (winning_stats t) tc name = Some n /\
        lookup2 (model_scores t) tc name = Some h /\
        (forall c f,
            lookup2 (winning_stats t') c f =
            if (String.eqb c tc && String.eqb f name)%bool then Some (n + 1)
            else lookup2 (winning_stats t) c f) /\
        (forall c f,
            lookup2 (model_scores t') c f =
            if (String.eqb c tc && String.eqb f name)%bool
            then Some (h ++ [score])
            else lookup2 (model_scores t) c f)) /\
  (forall results t',
      Tracker.update_stats results t = (Return tt, t') ->
      forall c f,
        lookup2 (model_scores t') c f =
        option_map (fun h => h ++ recorded tcs c f results)
          (lookup2 (model_scores t) c f) /\
        lookup2 (winning_stats t') c f =
        option_map
          (fun n => n + Z.of_nat (List.length (recorded tcs c f results)))
          (lookup2 (winning_stats t) c f)) /\
  (forall results t' c,
      NoDup tcs -> In c tcs ->
      Tracker.update_stats results t = (Return tt, t') ->
      exists name est score n h,
        PyDict.get c results = Some (Some (name, est, score)) /\
        lookup2 (winning_stats t) c name = Some n /\
        lookup2 (model_scores t) c name = Some h /\
        lookup2 (winning_stats t') c name = Some (n + 1) /\
        lookup2 (model_scores t') c name = Some (h ++ [score]) /\
        forall f, f <> name ->
                  lookup2 (winning_stats t') c f =
                  lookup2 (winning_stats t) c f /\
                  lookup2 (model_scores t') c f =
                  lookup2 (model_scores t) c f).
Proof.
  intros Hreach.
  destruct (reachable_fresh_shape tcs ms t Hreach) as [_ Htcs].
  split; [|split; [|split; [|split]]].
  - apply (reachable_consistent tcs ms t Hreach).
  - intros results. apply update_stats_grows.
  - intros results tc t'. apply update_class_returns.
  - intros results t' Hcall c f.
    assert (Hsc : lookup2 (model_scores t') c f =
                  option_map (fun h => h ++ recorded tcs c f results)
                    (lookup2 (model_scores t) c f)).
    { unfold Tracker.update_stats, bind, get in Hcall. rewrite Htcs in Hcall.
      apply (update_loop_recorded results tcs t t' Hcall). }
    split; [exact Hsc|].
    pose proof (reach_update tcs ms t results Hreach) as Hreach'.
    rewrite Hcall in Hreach'. simpl in Hreach'.
    rewrite (reachable_consistent tcs ms t' Hreach' c f), Hsc.
    rewrite (reachable_consistent tcs ms t Hreach c f).
    destruct (lookup2 (model_scores t) c f) as [h|]; simpl; [|reflexivity].
    rewrite length_app, Nat2Z.inj_add. reflexivity.
  - intros results t' c Hnd Hin Hcall.
    unfold Tracker.update_stats, bind, get in Hcall. rewrite Htcs in Hcall.
    destruct (update_loop_winner results c tcs t t' Hnd Hin Hcall)
      as (name & est & score & n & h & Hres & Hn & Hh & Hw & Hs).
    exists name, est, score, n, h. repeat split; try assumption.
    + rewrite Hw, String.eqb_refl. reflexivity.
    + rewrite Hs, String.eqb_refl. reflexivity.
    + rewrite Hw. destruct (String.eqb_spec f name); [contradiction|].
      reflexivity.
    + rewrite Hs. destruct (String.eqb_spec f name); [contradiction|].
      reflexivity.
Qed.

Lemma update_stats_history_matches_wins_witness :
  reachable ["dense"] ["A"; "B"] Example.tracker0 /\
  Tracker.update_stats Example.results_A Example.tracker0 =
  (Return tt, Example.tracker1) /\
  lookup2 (model_scores Example.tracker1) "dense" "A" = Some [Example.half] /\
  lookup2 (winning_stats Example.tracker1) "dense" "A" = Some 1 /\
  lookup2 (model_scores Example.tracker1) "dense" "B" = Some [] /\
  lookup2 (winning_stats Example.tracker1) "dense" "B" = Some 0 /\
  reachable ["dense"] ["A"; "B"] Example.tracker1 /\
  consistent Example.tracker1.
Proof.
  assert (H0 : reachable ["dense"] ["A"; "B"] Example.tracker0)
    by apply reach_init.
  assert (Hcall : Tracker.update_stats Example.results_A Example.tracker0 =
                  (Return tt, Example.tracker1)) by reflexivity.
  assert (H1 : reachable ["dense"] ["A"; "B"] Example.tracker1).
  { unfold Example.tracker1. apply reach_update. exact H0. }
  pose proof (proj1 (proj2 (proj2 (proj2
                (update_stats_history_matches_wins
                   ["dense"] ["A"; "B"] Example.tracker0 H0))))
                Example.results_A Example.tracker1 Hcall) as Hrec.
  split; [exact H0 | split; [exact Hcall |]].
  split; [exact (proj1 (Hrec "dense" "A")) |].
  split; [exact (proj2 (Hrec "dense" "A")) |].
  split; [exact (proj1 (Hrec "dense" "B")) |].
  split; [exact (proj2 (Hrec "dense" "B")) |].
  split; [exact H1 |].
  exact (proj1 (update_stats_history_matches_wins
                  ["dense"] ["A"; "B"] Example.tracker1 H1)).
Defined.

(** ** The winner of a class *)

Lemma max_from_is_max (l : list (string * Z)) :
  forall cur,
    (Tracker.max_from cur l = cur \/ In (Tracker.max_from cur l) l) /\
    snd cur <= snd (Tracker.max_from cur l) /\
    (forall x, In x l -> snd x <= snd (Tracker.max_from cur l)).
Proof.
  induction l as [|x l IH]; intros cur; simpl.
  - repeat split; [left; reflexivity | lia | intros x []].
  - destruct (IH (if snd x >? snd cur then x else cur)) as (Hin & Hle & Hall).
    destruct (Z.gtb_spec (snd x) (snd cur)) as [Hgt|Hng].
    + repeat split.
      * destruct Hin as [->|Hin]; right; [left; reflexivity | right; assumption].
      * lia.
      * intros y [<-|Hy]; [assumption | apply Hall; assumption].
    + repeat split.
      * destruct Hin as [Hin|Hin]; [left | right; right]; assumption.
      * assumption.
      * intros y [<-|Hy]; [lia | apply Hall; assumption].
Qed.

Lemma max_item_is_max (l : list (string * Z)) (r : string * Z) :
  Tracker.max_item l = Return r ->
  In r l /\ forall x, In x l -> snd x <= snd r.
Proof.
  destruct l as [|x l]; simpl; [discriminate|].
  intros H. inversion H. subst r. clear H.
  destruct (max_from_is_max l x) as (Hin & Hle & Hall). split.
  - destruct Hin as [->|Hin]; [left; reflexivity | right; assumption].
  - intros y [<-|Hy]; [assumption | apply Hall; assumption].
Qed.

Lemma winner_loop_defined (t : PerformanceTracker) :
  forall (l : list string) (w0 winners : pydict string),
    for_each l (Tracker.winner_class t) w0 = (Return tt, winners) ->
    forall c, In c l -> exists w, class_winner t c = Some w.
Proof.
  induction l as [|x l IH]; intros w0 winners Hrun c Hin; [contradiction|].
  rewrite for_each_cons in Hrun.
  destruct (Tracker.winner_class t x w0) as [[[]|e] w1] eqn:E; [|discriminate].
  destruct Hin as [<-|Hin]; [|eapply IH; eassumption].
  unfold Tracker.winner_class, bind, lift, modify, PyDict.getitem in E.
  unfold class_winner.
  destruct (PyDict.get x (winning_stats t)) as [cand|]; [|discriminate].
  destruct (Tracker.max_item (PyDict.items cand)) as [[w n]|e];
    [eauto | discriminate].
Qed.

Lemma get_In {V} (k : string) (v : V) (d : pydict V) :
  PyDict.get k d = Some v -> In (k, v) d.
Proof.
  induction d as [|[k0 v0] d IH]; simpl; [discriminate|].
  destruct (String.eqb_spec k k0) as [->|Hk].
  - intros H. inversion H. left. reflexivity.
  - intros H. right. apply IH. assumption.
Qed.

(** X7. Whenever [winner_models] returns, the family it gives a test
    class is one of the candidates of the class, and no family of the
    class has more wins than it. *)
Theorem winner_has_most_wins (t : PerformanceTracker)
  (winners : pydict string) (c w : string) :
  Tracker.winner_models t = Return winners ->
  In c (test_classes t) ->
  PyDict.get c winners = Some w ->
  exists candidates n,
    PyDict.get c (winning_stats t) = Some candidates /\
    In (w, n) candidates /\
    forall f n', lookup2 (winning_stats t) c f = Some n' -> n' <= n.
Proof.
  intros Hret Hin Hget.
  unfold Tracker.winner_models in Hret.
  destruct (for_each (test_classes t) (Tracker.winner_class t) PyDict.empty)
    as [[[]|e] ws] eqn:E; [|discriminate].
  inversion Hret. subst ws. clear Hret.
  pose proof (winner_loop_defined t _ _ _ E) as Hdef.
  destruct (winner_loop t (test_classes t) PyDict.empty Hdef)
    as [winners' [Hrun Hgets]].
  rewrite E in Hrun. inversion Hrun. subst winners'. clear Hrun.
  rewrite Hgets, (proj2 (mem_In c _) Hin) in Hget.
  unfold class_winner in Hget. unfold lookup2.
  destruct (PyDict.get c (winning_stats t)) as [cand|]; [|discriminate].
  destruct (Tracker.max_item (PyDict.items cand)) as [[w' n]|e0] eqn:Hmax;
    [|discriminate].
  inversion Hget. subst w'.
  destruct (max_item_is_max _ _ Hmax) as [Hw Hall].
  exists cand, n. repeat split; try assumption.
  intros f n' Hf. apply (Hall (f, n')). apply get_In. assumption.
Qed.

(** X8. With no registered family, [winner_models] on a fresh tracker
    raises the [ValueError] of [max] on an empty sequence as soon as
    there is a test class, and returns the empty mapping when there is
    none. *)
Theorem winner_models_without_family (tcs : list string) :
  Tracker.winner_models (Tracker.init tcs []) =
  match tcs with
  | [] => Return PyDict.empty
  | _ :: _ => Raise (ValueError "max() arg is an empty sequence")
  end.
Proof.
  destruct tcs as [|c tcs]; [reflexivity|].
  unfold Tracker.winner_models.
  cbn [test_classes Tracker.init]. rewrite for_each_cons.
  unfold Tracker.winner_class at 1. unfold bind, lift, PyDict.getitem.
  cbn [winning_stats Tracker.init]. unfold Tracker._setup_model_win_stats.
  rewrite (get_fold_set (fun _ => PyDict.comprehension (fun _ => 0) [])).
  assert (Hmem : mem c (c :: tcs) = true) by (apply mem_In; left; reflexivity).
  rewrite Hmem. reflexivity.
Qed.

(** ** The order of the floats *)

Lemma gt_key (a b : float) :
  PyFloat.gt a b = true <->
  PyFloat.is_nan a = false /\ PyFloat.is_nan b = false /\
  key_lt (float_key b) (float_key a).
Proof.
  unfold PyFloat.gt, SFltb, key_lt.
  destruct a as [sa|sa| |sa ma ea], b as [sb|sb| |sb mb eb];
    try destruct sa; try destruct sb; simpl;
    try (split; [discriminate | intros (H1 & H2 & H3); try discriminate; lia]);
    try (split; [intros _; repeat split; lia | reflexivity]).
  - change (Pos.compare_cont Eq mb ma) with (Pos.compare mb ma).
    destruct (Z.compare_spec eb ea); destruct (Pos.compare_spec mb ma);
      simpl; split; try discriminate; try reflexivity;
      try (intros _; repeat split; lia);
      try (intros (_ & _ & H3); lia).
  - change (Pos.compare_cont Eq mb ma) with (Pos.compare mb ma).
    destruct (Z.compare_spec eb ea); destruct (Pos.compare_spec mb ma);
      simpl; split; try discriminate; try reflexivity;
      try (intros _; repeat split; lia);
      try (intros (_ & _ & H3); lia).
Qed.

Lemma gt_trans (a b c : float) :
  PyFloat.gt a b = true -> PyFloat.gt b c = true -> PyFloat.gt a c = true.
Proof.
  rewrite !gt_key. unfold key_lt.
  destruct (float_key a) as [[a1 a2] a3], (float_key b) as [[b1 b2] b3],
    (float_key c) as [[c1 c2] c3]. simpl.
  intros (Ha & Hb & H1) (_ & Hc & H2). repeat split; try assumption. lia.
Qed.

(** [x > r] and not [b > r], with [b] not NaN, give [x > b]. *)
Lemma gt_above (x r b : float) :
  PyFloat.gt x r = true -> PyFloat.gt b r = false ->
  PyFloat.is_nan b = false -> PyFloat.gt x b = true.
Proof.
  intros Hx Hb Hnan.
  assert (Hnot : ~ (PyFloat.is_nan b = false /\ PyFloat.is_nan r = false /\
                    key_lt (float_key r) (float_key b))).
  { intros H. apply gt_key in H. congruence. }
  apply gt_key in Hx. apply gt_key. destruct Hx as (Hxn & Hrn & Hlt).
  repeat split; try assumption.
  unfold key_lt in *.
  destruct (float_key x) as [[x1 x2] x3], (float_key b) as [[b1 b2] b3],
    (float_key r) as [[r1 r2] r3]. simpl in *.
  assert (Hge : ~ (r1 < b1 \/ r1 = b1 /\ (r2 < b2 \/ r2 = b2 /\ r3 < b3))).
  { intros H. apply Hnot. auto. }
  lia.
Qed.

Section MoreExperimentProperties.
Context {sk : Sklearn}.

(** ** What [score_eval] returns *)

(** The running best score is never NaN and never decreases, and at the
    end no family of the loop exceeds it. *)
Lemma select_pairs_max :
  forall l loc,
    PyFloat.is_nan (best_score loc) = false ->
    PyFloat.is_nan (best_score (select_pairs l loc)) = false /\
    PyFloat.gt (best_score loc) (best_score (select_pairs l loc)) = false /\
    forall fg, In fg l ->
               PyFloat.gt (best_score_ (snd fg))
                 (best_score (select_pairs l loc)) = false.
Proof.
  induction l as [|x l IH]; intros loc Hnan.
  - simpl. repeat split; [assumption | apply gt_irrefl | intros fg []].
  - unfold select_pairs. simpl.
    fold (select_pairs l (pick (fst (fst x)) (snd x) loc)).
    rewrite pick_chosen.
    destruct (PyFloat.gt (best_score_ (snd x)) (best_score loc)) eqn:Hx.
    + destruct (IH (chosen x)) as (Hn & Hle & Hall).
      { simpl. apply (gt_not_nan _ _ Hx). }
      simpl in Hle. repeat split; [assumption | |].
      * destruct (PyFloat.gt (best_score loc)
                    (best_score (select_pairs l (chosen x)))) eqn:E;
          [|reflexivity].
        rewrite (gt_trans _ _ _ Hx E) in Hle. discriminate.
      * intros fg [<-|Hfg]; [assumption | apply Hall; assumption].
    + destruct (IH loc Hnan) as (Hn & Hle & Hall).
      repeat split; [assumption | assumption |].
      intros fg [<-|Hfg]; [|apply Hall; assumption].
      destruct (PyFloat.gt (best_score_ (snd x))
                  (best_score (select_pairs l loc))) eqn:E; [|reflexivity].
      rewrite (gt_above _ _ _ E Hle Hnan) in Hx. discriminate.
Qed.

(** The winner that the loop holds, if any, is a family of the loop. *)
Lemma select_pairs_origin (l0 : list (model * param_grid * grid_result)) :
  forall l loc,
    (forall fg, In fg l -> In fg l0) ->
    (winner loc = None \/ exists fg, In fg l0 /\ loc = chosen fg) ->
    winner (select_pairs l loc) = None \/
    exists fg, In fg l0 /\ select_pairs l loc = chosen fg.
Proof.
  induction l as [|x l IH]; intros loc Hincl Hloc; [exact Hloc|].
  unfold select_pairs. simpl. apply IH.
  - intros fg Hfg. apply Hincl. right. assumption.
  - rewrite pick_chosen.
    destruct (PyFloat.gt (best_score_ (snd x)) (best_score loc));
      [|exact Hloc].
    right. exists x. split; [apply Hincl; left|]; reflexivity.
Qed.

Lemma return_winner_chosen (fams : list (model * param_grid))
  (gs : list grid_result) (name : string) (est : estimator) (s : float) :
  return_winner (select fams gs locals_init) = Return (name, est, s) ->
  exists m grid g,
    In (m, grid, g) (combine fams gs) /\
    name = name__ m /\ est = construct m (best_params_ g) /\
    s = best_score_ g /\
    s = best_score (select fams gs locals_init).
Proof.
  unfold return_winner, select. intros Hret.
  destruct (select_pairs_origin (combine fams gs) (combine fams gs)
              locals_init (fun fg H => H) (or_introl eq_refl))
    as [Hnone | [[[m grid] g] [Hin Hsel]]].
  - rewrite Hnone in Hret. discriminate.
  - rewrite Hsel in *. simpl in Hret. inversion Hret.
    exists m, grid, g. auto.
Qed.

(** X9. When [score_eval] returns, what it returns is the name, the
    model and the best score of one registered family, and no family has
    a best score greater than the score returned. *)
Theorem returned_score_is_maximal (st st' : Experiment)
  (gs : list grid_result) (name : string) (est : estimator) (s : float) :
  library_run st = (Return gs, st') ->
  score_eval st = (Return (name, est, s), st') ->
  (exists m grid g,
      In (m, grid, g) (combine (models_and_params st) gs) /\
      name = name__ m /\ est = construct m (best_params_ g) /\
      s = best_score_ g) /\
  (forall g, In g gs -> PyFloat.gt (best_score_ g) s = false).
Proof.
  intros Hrun Hret. rewrite score_eval_select, Hrun in Hret.
  inversion Hret as [Hwin]. clear Hret.
  destruct (return_winner_chosen _ _ _ _ _ Hwin)
    as (m & grid & g & Hin & Hn & He & Hs & Hbest).
  split; [exists m, grid, g; auto|].
  intros g' Hg'.
  destruct (in_combine_partner g' (models_and_params st) gs) as [fam Hfam];
    [eapply library_run_length; eassumption | assumption |].
  destruct (select_pairs_max (combine (models_and_params st) gs) locals_init
              eq_refl) as (_ & _ & Hall).
  rewrite Hbest. unfold select. apply (Hall (fam, g')). assumption.
Qed.

Lemma score_eval_registered (s s' : Experiment) (name : string)
  (est : estimator) (sc : float) :
  score_eval s = (Return (name, est, sc), s') -> In name (model_labels s).
Proof.
  rewrite score_eval_select.
  destruct (library_run s) as [[gs|e] s1]; [|discriminate].
  intros Hret. inversion Hret as [[Hwin Hs]].
  destruct (return_winner_chosen _ _ _ _ _ Hwin)
    as (m & grid & g & Hin & Hn & _).
  subst name. unfold model_labels.
  apply in_combine_l in Hin.
  apply (in_map (fun mp => name__ (fst mp)) _ (m, grid)). assumption.
Qed.

(** ** What [score_eval] assigns *)

Lemma grid_fit_preserves (P : Experiment -> Prop) (X : ndarray)
  (fam : model * param_grid) :
  (forall w s, P s -> P (set_np_random w s)) ->
  preserves P (grid_fit X fam).
Proof.
  intros Hrng. unfold grid_fit. apply preserves_bind; [apply preserves_get|].
  intros self. apply preserves_call_rng. assumption.
Qed.

Lemma score_loop_preserves (P : Experiment -> Prop) (X : ndarray) :
  (forall w s, P s -> P (set_np_random w s)) ->
  forall fams loc, preserves P (score_loop X fams loc).
Proof.
  intros Hrng. induction fams as [|fam fams IH]; intros loc; simpl.
  - apply preserves_ret.
  - apply preserves_bind; [apply grid_fit_preserves; assumption|].
    intros g. apply IH.
Qed.

Lemma score_eval_preserves (P : Experiment -> Prop) :
  (forall w s, P s -> P (set_np_random w s)) ->
  (forall r c s, P s -> P (set_idx r c s)) ->
  preserves P score_eval.
Proof.
  intros Hrng Hidx. unfold score_eval.
  apply preserves_bind; [apply preserves_get|]. intros self.
  apply preserves_bind; [apply preserves_lift|]. intros d.
  apply preserves_bind; [apply preserves_call_rng; assumption|].
  intros [[train ri] ci].
  apply preserves_bind; [apply preserves_modify; intros s; apply Hidx|].
  intros _.
  apply preserves_bind; [apply preserves_lift|]. intros X.
  apply preserves_bind; [apply preserves_get|]. intros self'.
  apply preserves_bind; [apply score_loop_preserves; assumption|]. intros loc.
  apply preserves_lift.
Qed.

Lemma compare_models_preserves (P : Experiment -> Prop) (target : string) :
  (forall w s, P s -> P (set_np_random w s)) ->
  (forall r c s, P s -> P (set_idx r c s)) ->
  preserves P (compare_models target).
Proof.
  intros Hrng Hidx. unfold compare_models, time_eval.
  destruct (String.eqb target "score").
  - apply preserves_bind; [apply score_eval_preserves; assumption|].
    intros r. apply preserves_ret.
  - destruct (String.eqb target "time");
      [apply preserves_ret | apply preserves_raise].
Qed.

Lemma untouched_refl (s : Experiment) : untouched s s.
Proof. unfold untouched, keeps. auto 10. Qed.

Lemma compare_models_untouched (target : string) (s : Experiment) :
  untouched s (snd (compare_models target s)).
Proof.
  apply (compare_models_preserves (untouched s) target);
    [| |apply untouched_refl];
    unfold untouched, keeps; simpl; intros; intuition.
Qed.

(** X10. [compare_models], and with it [score_eval], assigns nothing but
    the shuffle indices, whether it returns or raises: the
    configuration, the data and the ground truth of the class, the
    results and the tracker are those it started with. *)
Theorem compare_models_assigns_only_indices (target : string)
  (s : Experiment) :
  models_and_params (snd (compare_models target s)) = models_and_params s /\
  verbose (snd (compare_models target s)) = verbose s /\
  random_state (snd (compare_models target s)) = random_state s /\
  nruns (snd (compare_models target s)) = nruns s /\
  _tracker (snd (compare_models target s)) = _tracker s /\
  results (snd (compare_models target s)) = results s /\
  _data (snd (compare_models target s)) = _data s /\
  _rows (snd (compare_models target s)) = _rows s /\
  _cols (snd (compare_models target s)) = _cols s.
Proof.
  destruct (compare_models_untouched target s)
    as ((H1 & H2 & H3 & H4 & H5) & H6 & H7 & H8 & H9).
  repeat split; assumption.
Qed.

(** X11. After [score_eval] the shuffle indices of the experiment are
    the permutations that the shuffle of this very call returned, also
    when a later step of the call raises; and when the shuffle itself
    raises, the indices are the ones left by an earlier call. *)
Theorem score_eval_stores_shuffle (s : Experiment) (d : ndarray) :
  _data s = Some d ->
  match fst (_shuffle d (random_state s) (np_random s)) with
  | Return (_, ri, ci) =>
      row_idx (snd (score_eval s)) = Some ri /\
      col_idx (snd (score_eval s)) = Some ci
  | Raise _ =>
      row_idx (snd (score_eval s)) = row_idx s /\
      col_idx (snd (score_eval s)) = col_idx s
  end.
Proof.
  intros Hd. unfold score_eval, bind, get, lift, modify, shape_of_data.
  rewrite Hd, call_rng_eq.
  destruct (_shuffle d (random_state s) (np_random s))
    as [[[[train ri] ci]|e] w]; simpl fst; simpl snd; [|split; reflexivity].
  destruct (fit_transform train) as [X|e]; [|split; reflexivity].
  pose proof (score_loop_preserves
                (fun s0 => row_idx s0 = Some ri /\ col_idx s0 = Some ci) X
                (fun w0 s0 H => H)
                (models_and_params
                   (set_idx (Some ri) (Some ci) (set_np_random w s)))
                locals_init
                (set_idx (Some ri) (Some ci) (set_np_random w s))
                (conj eq_refl eq_refl)) as Hkeep.
  destruct (score_loop X _ locals_init _) as [[loc|e] s1]; exact Hkeep.
Qed.

(** ** [execute] *)

Lemma execute_key_eq (data : pydict ndarray) (rows cols : pydict indicator)
  (target key : string) (s : Experiment) :
  execute_key data rows cols target key s =
  match PyDict.get key data with
  | None => (Raise (KeyError key), s)
  | Some d =>
      match PyDict.get key rows with
      | None => (Raise (KeyError key), set_data (Some d) s)
      | Some r =>
          match PyDict.get key cols with
          | None => (Raise (KeyError key), set_data (Some d) s)
          | Some c =>
              match compare_models target
                      (set_rows_cols (Some r) (Some c) (set_data (Some d) s))
              with
              | (Raise e, s1) => (Raise e, s1)
              | (Return res, s1) =>
                  match results s1 with
                  | None =>
                      (Raise (TypeError
                         "'NoneType' object does not support item assignment"),
                       s1)
                  | Some rd =>
                      let s2 :=
                        set_results (Some (PyDict.set key res rd)) s1 in
                      if verbose s1 >? 0 then
                        match unpack3 res with
                        | Return _ => (Return tt, s2)
                        | Raise e => (Raise e, s2)
                        end
                      else (Return tt, s2)
                  end
              end
          end
      end
  end.
Proof.
  unfold execute_key, bind, lift, modify, PyDict.getitem.
  destruct (PyDict.get key data) as [d|]; [|reflexivity].
  destruct (PyDict.get key rows) as [r|]; [|reflexivity].
  destruct (PyDict.get key cols) as [c|]; [|reflexivity].
  destruct (compare_models target _) as [[res|e] s1]; [|reflexivity].
  rewrite results_setitem_eq.
  destruct (results s1) as [rd|]; [|reflexivity].
  unfold get, results_getitem, bind, get, lift, not_none.
  cbn [results set_results verbose]. cbv zeta.
  destruct (verbose s1 >? 0); [|reflexivity].
  cbn [results set_results]. unfold PyDict.getitem. rewrite get_set_same.
  destruct (unpack3 res); reflexivity.
Qed.

Lemma keys_set_absent {V} (k : string) (v : V) (d : pydict V) :
  PyDict.get k d = None ->
  PyDict.keys (PyDict.set k v d) = PyDict.keys d ++ [k].
Proof.
  induction d as [|[k0 x] d IH]; simpl; [reflexivity|].
  destruct (String.eqb k k0); simpl; [discriminate|].
  intros H. f_equal. apply IH. assumption.
Qed.

(** What a returning pass of the loop of [execute] leaves: the result of
    the comparison stored under the key, the other results as they
    were. *)
Lemma execute_key_returns (data : pydict ndarray) (rows cols : pydict indicator)
  (target key : string) (s s' : Experiment) :
  execute_key data rows cols target key s = (Return tt, s') ->
  exists res rd,
    results s = Some rd /\
    results s' = Some (PyDict.set key res rd) /\
    model_labels s' = model_labels s /\
    (target = "score" -> recordable (model_labels s) res).
Proof.
  rewrite execute_key_eq.
  destruct (PyDict.get key data) as [d|]; [|discriminate].
  destruct (PyDict.get key rows) as [r|]; [|discriminate].
  destruct (PyDict.get key cols) as [c|]; [|discriminate].
  pose proof (compare_models_untouched target
                (set_rows_cols (Some r) (Some c) (set_data (Some d) s)))
    as ((Hmp & _) & Hres & _).
  destruct (compare_models target _) as [[res|e] s1] eqn:E; [|discriminate].
  simpl in Hmp, Hres.
  destruct (results s1) as [rd|] eqn:Hrd; [|discriminate].
  cbv zeta. intros Hret.
  assert (Hs' : s' = set_results (Some (PyDict.set key res rd)) s1).
  { destruct (verbose s1 >? 0); [destruct (unpack3 res)|];
      inversion Hret; reflexivity. }
  subst s'. exists res, rd. repeat split.
  - congruence.
  - unfold model_labels. simpl. rewrite Hmp. reflexivity.
  - intros ->. unfold compare_models in E. simpl in E. unfold bind in E.
    destruct (score_eval _) as [[[[name est] sc]|e] s2] eqn:Es;
      [|discriminate].
    unfold ret in E. inversion E. subst res s2.
    exists name, est, sc. split; [reflexivity|].
    apply (score_eval_registered _ _ _ _ _ Es).
Qed.

Lemma execute_loop_results (data : pydict ndarray)
  (rows cols : pydict indicator) (target : string) (labels : list string) :
  forall (l : list string) (s s' : Experiment) (rd : pydict result),
    NoDup (PyDict.keys rd ++ l) ->
    results s = Some rd ->
    model_labels s = labels ->
    (forall k v, PyDict.get k rd = Some v ->
                 target = "score" -> recordable labels v) ->
    for_each l (execute_key data rows cols target) s = (Return tt, s') ->
    exists rd',
      results s' = Some rd' /\
      PyDict.keys rd' = PyDict.keys rd ++ l /\
      (forall k v, PyDict.get k rd' = Some v ->
                   target = "score" -> recordable labels v).
Proof.
  induction l as [|key l IH]; intros s s' rd Hnd Hres Hlab Hval Hrun.
  - simpl in Hrun. unfold ret in Hrun. inversion Hrun. subst s'.
    exists rd. rewrite app_nil_r. auto.
  - rewrite for_each_cons in Hrun.
    destruct (execute_key data rows cols target key s) as [[[]|e] s1] eqn:E;
      [|discriminate].
    destruct (execute_key_returns _ _ _ _ _ _ _ E)
      as (res & rd0 & Hrd0 & Hrd1 & Hlab1 & Hrec).
    assert (rd0 = rd) by congruence. subst rd0.
    assert (Hfresh : PyDict.get key rd = None).
    { apply get_none_mem. destruct (mem key (PyDict.keys rd)) eqn:Em;
        [|reflexivity].
      apply mem_In in Em. exfalso.
      apply NoDup_remove_2 in Hnd. apply Hnd.
      apply in_or_app. left. assumption. }
    destruct (IH s1 s' (PyDict.set key res rd)) as (rd' & Hr' & Hk' & Hv').
    + rewrite (keys_set_absent _ _ _ Hfresh), <- app_assoc. exact Hnd.
    + exact Hrd1.
    + congruence.
    + intros k v Hget Htarget. rewrite get_set in Hget.
      destruct (String.eqb k key).
      * inversion Hget. subst v. rewrite <- Hlab. apply Hrec. assumption.
      * apply (Hval k v Hget Htarget).
    + exact Hrun.
    + exists rd'. split; [assumption|]. split; [|assumption].
      rewrite Hk', (keys_set_absent _ _ _ Hfresh), <- app_assoc. reflexivity.
Qed.

Lemma execute_results (data : pydict ndarray)
  (rows cols : pydict indicator) (target : string) (s s' : Experiment) :
  NoDup (PyDict.keys data) ->
  execute data (rows, cols) target s = (Return tt, s') ->
  exists r,
    results s' = Some r /\
    PyDict.keys r = PyDict.keys data /\
    (forall k v, PyDict.get k r = Some v ->
                 target = "score" -> recordable (model_labels s) v).
Proof.
  intros Hnd Hrun. unfold execute, bind, modify in Hrun.
  apply (execute_loop_results data rows cols target (model_labels s)
           (PyDict.keys data) (set_results (Some PyDict.empty) s) s'
           PyDict.empty); try assumption; try reflexivity.
  intros k v Hget. discriminate Hget.
Qed.

(** X12. When [execute] returns, the results it leaves have exactly the
    keys of the data, in their order, whatever an earlier call had left
    there; and with the [score] target every result is a triple whose
    name is the label of a registered model. *)
Theorem execute_leaves_one_result_per_class (data : pydict ndarray)
  (rows cols : pydict indicator) (target : string) (s s' : Experiment) :
  NoDup (PyDict.keys data) ->
  execute data (rows, cols) target s = (Return tt, s') ->
  exists r,
    results s' = Some r /\
    PyDict.keys r = PyDict.keys data /\
    (target = "score" ->
     forall k v, PyDict.get k r = Some v ->
                 exists name est score,
                   v = Some (name, est, score) /\
                   In name (model_labels s)).
Proof.
  intros Hnd Hrun.
  destruct (execute_results data rows cols target s s' Hnd Hrun)
    as (r & Hr & Hk & Hv).
  exists r. repeat split; try assumption.
  intros Ht k v Hget. apply (Hv k v Hget Ht).
Qed.

(** X13. When the ground truth lacks the first class of the data,
    [execute] raises [KeyError] for it, having already emptied the
    results and assigned the data of the class, while the ground truth
    of the experiment is still the one of an earlier class. *)
Theorem execute_missing_ground_truth (data : pydict ndarray)
  (rows cols : pydict indicator) (target key : string) (rest : list string)
  (d : ndarray) (s : Experiment) :
  PyDict.keys data = key :: rest ->
  PyDict.get key data = Some d ->
  PyDict.get key rows = None \/ PyDict.get key cols = None ->
  execute data (rows, cols) target s =
  (Raise (KeyError key), set_data (Some d) (set_results (Some PyDict.empty) s)).
Proof.
  intros Hkeys Hd Hmiss. unfold execute, bind, modify.
  rewrite Hkeys, for_each_cons, execute_key_eq, Hd.
  destruct Hmiss as [Hr|Hc].
  - rewrite Hr. reflexivity.
  - rewrite Hc. destruct (PyDict.get key rows); reflexivity.
Qed.

(** ** [execute_all] *)

Lemma no_entry_runs (target : string) :
  forall (n a : nat) (s : Experiment),
    for_each (seq a n) (fun _ => one_run [] target) s = (Return tt, s).
Proof.
  induction n as [|n IH]; intros a s; [reflexivity|].
  simpl seq. rewrite for_each_cons. unfold one_run at 1. simpl. apply IH.
Qed.

(** X14. With [nruns] not positive, or with no class group in the
    dataset, [execute_all] returns without comparing anything, leaving a
    fresh tracker; [class_winners] then names, for every test class, the
    first registered model, though no trial was run. *)
Theorem execute_all_without_trial (dataset : list dataset_entry)
  (tcs : list string) (target : string) (st : Experiment)
  (m : model) (grid : param_grid) (rest : list (model * param_grid)) :
  nruns st <= 0 \/ dataset = [] ->
  models_and_params st = (m, grid) :: rest ->
  execute_all dataset tcs target st =
  (Return tt, set_tracker (Some (Tracker.init tcs (model_labels st))) st) /\
  exists winners,
    class_winners (snd (execute_all dataset tcs target st)) = Return winners /\
    forall c, In c tcs -> PyDict.get c winners = Some (name__ m).
Proof.
  intros Hnone Hmp.
  assert (Hrun : execute_all dataset tcs target st =
                 (Return tt,
                  set_tracker (Some (Tracker.init tcs (model_labels st))) st)).
  { unfold execute_all, bind, get, put. destruct Hnone as [Hn| ->].
    - replace (Z.to_nat (nruns st)) with 0%nat by lia. reflexivity.
    - apply no_entry_runs. }
  split; [exact Hrun|]. rewrite Hrun.
  unfold class_winners. cbn [snd _tracker set_tracker].
  unfold model_labels. rewrite Hmp. simpl map.
  destruct (winner_models_returns
              (Tracker.init tcs (name__ m :: map (fun mp => name__ (fst mp)) rest)))
    as [winners [Hret Hget]].
  { intros c Hin. exists (name__ m). apply init_class_winner. exact Hin. }
  exists winners. split; [assumption|]. intros c Hin.
  rewrite (Hget c Hin). apply init_class_winner. exact Hin.
Qed.

Lemma update_stats_recordable (tcs ms : list string) (t : PerformanceTracker)
  (results : pydict result) :
  reachable tcs ms t ->
  (forall c, In c tcs ->
             exists v, PyDict.get c results = Some v /\ recordable ms v) ->
  exists t', Tracker.update_stats results t = (Return tt, t').
Proof.
  intros Hreach Hres.
  destruct (reachable_fresh_shape tcs ms t Hreach) as [Hshape Htcs].
  unfold Tracker.update_stats, bind, get. rewrite Htcs.
  destruct (for_each_total (fresh_shape tcs ms)
              (Tracker.update_class results) tcs) with (s := t)
    as [t' [E _]]; [|assumption|eauto].
  intros c s Hc Hs.
  destruct (Hres c Hc) as (v & Hget & name & est & score & -> & Hname).
  eapply update_class_registered; eassumption.
Qed.

(** X15. In the [score] mode the tracker accepts whatever [execute]
    produced: when [execute] returns for a class group whose data has
    every test class, the update of the tracker that follows it in
    [execute_all] returns too, and the tracker is again one reached from
    the fresh tracker. *)
Theorem score_results_are_recorded (tcs : list string)
  (data : pydict ndarray) (rows cols : pydict indicator)
  (s s1 : Experiment) (t : PerformanceTracker) :
  _tracker s = Some t ->
  reachable tcs (model_labels s) t ->
  NoDup (PyDict.keys data) ->
  (forall c, In c tcs -> In c (PyDict.keys data)) ->
  execute data (rows, cols) "score" s = (Return tt, s1) ->
  exists s2 t',
    execute_entry "score" (data, rows, cols) s = (Return tt, s2) /\
    _tracker s2 = Some t' /\
    reachable tcs (model_labels s) t'.
Proof.
  intros Htr Hreach Hnd Hall Hrun.
  destruct (execute_results data rows cols "score" s s1 Hnd Hrun)
    as (r & Hr & Hk & Hv).
  pose proof (execute_keeps s data rows cols "score" s (keeps_refl s))
    as Hkeep.
  rewrite Hrun in Hkeep. simpl in Hkeep.
  destruct Hkeep as (_ & _ & _ & _ & Ktr).
  destruct (update_stats_recordable tcs (model_labels s) t r Hreach)
    as [t' Hupd].
  { intros c Hc. specialize (Hall c Hc). rewrite <- Hk in Hall.
    apply mem_In in Hall. destruct (mem_get_some c r Hall) as [v Hget].
    exists v. split; [assumption|]. apply (Hv c v Hget eq_refl). }
  exists (set_tracker (Some t') s1), t'. split; [|split].
  - unfold execute_entry, bind. rewrite Hrun.
    unfold track_results, bind, get. rewrite Hr.
    unfold on_tracker. rewrite Ktr, Htr, Hupd. reflexivity.
  - reflexivity.
  - pose proof (reach_update tcs (model_labels s) t r Hreach) as H.
    rewrite Hupd in H. exact H.
Qed.

End MoreExperimentProperties.

(** ** The reports *)

Lemma NoDup_keys_get {V} (k : string) (v : V) (d : pydict V) :
  NoDup (PyDict.keys d) -> In (k, v) d -> PyDict.get k d = Some v.
Proof.
  induction d as [|[k0 v0] d IH]; simpl; intros Hnd Hin; [contradiction|].
  inversion Hnd as [|x l Hk0 Hd]. subst x l.
  destruct Hin as [Heq|Hin].
  - inversion Heq. subst. rewrite String.eqb_refl. reflexivity.
  - destruct (String.eqb_spec k k0) as [->|Hk].
    + exfalso. apply Hk0.
      apply (in_map fst _ (k0, v)) in Hin. exact Hin.
    + apply IH; assumption.
Qed.

Lemma keys_set {V} (k : string) (v : V) (d : pydict V) :
  PyDict.keys (PyDict.set k v d) =
  if mem k (PyDict.keys d) then PyDict.keys d else PyDict.keys d ++ [k].
Proof.
  pose proof (get_defined k d) as Hd.
  destruct (PyDict.get k d) as [v0|] eqn:E; rewrite Hd.
  - apply (keys_set_present k v v0). assumption.
  - apply keys_set_absent. assumption.
Qed.

Lemma NoDup_keys_set {V} (k : string) (v : V) (d : pydict V) :
  NoDup (PyDict.keys d) -> NoDup (PyDict.keys (PyDict.set k v d)).
Proof.
  intros Hnd. rewrite keys_set.
  destruct (mem k (PyDict.keys d)) eqn:E; [assumption|].
  apply NoDup_app; [assumption | constructor; [intros []|constructor] |].
  intros x Hx [<-|[]]. apply mem_In in Hx. congruence.
Qed.

Lemma NoDup_keys_comprehension {V} (g : string -> V) (ks : list string) :
  NoDup (PyDict.keys (PyDict.comprehension g ks)).
Proof.
  unfold PyDict.comprehension.
  assert (Hgen : forall d0 : pydict V,
             NoDup (PyDict.keys d0) ->
             NoDup (PyDict.keys
                      (fold_left (fun d x => PyDict.set x (g x) d) ks d0))).
  { induction ks as [|k ks IH]; intros d0 Hd0; simpl; [assumption|].
    apply IH. apply NoDup_keys_set. assumption. }
  apply Hgen. constructor.
Qed.

Lemma winner_class_returns (t : PerformanceTracker) (x : string)
  (w0 w1 : pydict string) :
  Tracker.winner_class t x w0 = (Return tt, w1) ->
  exists w, class_winner t x = Some w /\ w1 = PyDict.set x w w0.
Proof.
  unfold Tracker.winner_class, bind, lift, modify, PyDict.getitem, class_winner.
  destruct (PyDict.get x (winning_stats t)) as [cand|]; [|discriminate].
  destruct (Tracker.max_item (PyDict.items cand)) as [[w n]|e];
    [|discriminate].
  intros H. inversion H. exists w. auto.
Qed.

Lemma winner_loop_keys (t : PerformanceTracker) :
  forall (l : list string) (w0 winners : pydict string),
    NoDup (PyDict.keys w0 ++ l) ->
    for_each l (Tracker.winner_class t) w0 = (Return tt, winners) ->
    PyDict.keys winners = PyDict.keys w0 ++ l.
Proof.
  induction l as [|x l IH]; intros w0 winners Hnd Hrun.
  - simpl in Hrun. unfold ret in Hrun. inversion Hrun.
    rewrite app_nil_r. reflexivity.
  - rewrite for_each_cons in Hrun.
    destruct (Tracker.winner_class t x w0) as [[[]|e] w1] eqn:E;
      [|discriminate].
    destruct (winner_class_returns t x w0 w1 E) as [w [_ ->]].
    assert (Hfresh : mem x (PyDict.keys w0) = false).
    { destruct (mem x (PyDict.keys w0)) eqn:Em; [|reflexivity].
      apply mem_In in Em. exfalso.
      apply NoDup_remove_2 in Hnd. apply Hnd.
      apply in_or_app. left. assumption. }
    rewrite (IH (PyDict.set x w w0) winners); [| |assumption];
      rewrite keys_set, Hfresh, <- app_assoc; [reflexivity | exact Hnd].
Qed.

(** The winner of a class in a reached tracker is a registered family:
    its history is there, as long as its count, and no family of the
    class has a higher count. *)
Lemma class_winner_registered (tcs ms : list string) (t : PerformanceTracker)
  (c w : string) :
  reachable tcs ms t -> In c tcs ->
  class_winner t c = Some w ->
  exists h,
    lookup2 (model_scores t) c w = Some h /\
    lookup2 (winning_stats t) c w = Some (Z.of_nat (List.length h)) /\
    forall f n', lookup2 (winning_stats t) c f = Some n' ->
                 n' <= Z.of_nat (List.length h).
Proof.
  intros Hreach Hc Hwin.
  destruct (reachable_fresh_shape tcs ms t Hreach) as [Hshape _].
  pose proof (reachable_consistent tcs ms t Hreach) as Hcons.
  unfold class_winner in Hwin.
  destruct (PyDict.get c (winning_stats t)) as [cand|] eqn:Hcand;
    [|discriminate].
  destruct (Tracker.max_item (PyDict.items cand)) as [[w' n]|e] eqn:Hmax;
    [|discriminate].
  inversion Hwin. subst w'. clear Hwin.
  destruct (max_item_is_max _ _ Hmax) as [Hin Hall].
  unfold PyDict.items in Hin, Hall.
  (* the keys of the class are those of the fresh tracker *)
  pose proof (shape_get _ _ c (proj1 Hshape)) as Hk.
  rewrite Hcand in Hk. simpl winning_stats in Hk.
  unfold Tracker._setup_model_win_stats in Hk.
  rewrite (get_fold_set (fun _ => PyDict.comprehension (fun _ => 0) ms)) in Hk.
  rewrite (proj2 (mem_In c tcs) Hc) in Hk. simpl in Hk.
  inversion Hk as [Hkeys]. clear Hk.
  assert (Hnd : NoDup (PyDict.keys cand)).
  { rewrite Hkeys. apply NoDup_keys_comprehension. }
  assert (Hget : PyDict.get w cand = Some n)
    by (apply NoDup_keys_get; assumption).
  assert (Hw : lookup2 (winning_stats t) c w = Some n).
  { unfold lookup2. rewrite Hcand. exact Hget. }
  pose proof (Hcons c w) as Hcw. rewrite Hw in Hcw.
  destruct (lookup2 (model_scores t) c w) as [h|] eqn:Hh; [|discriminate].
  simpl in Hcw. inversion Hcw as [Hn].
  exists h. split; [reflexivity|]. split; [rewrite Hw; congruence|].
  intros f n' Hf. unfold lookup2 in Hf. rewrite Hcand in Hf.
  apply get_In in Hf. rewrite <- Hn. apply (Hall (f, n')). assumption.
Qed.

Section Reports.
Context {np : Numpy}.

Lemma report_loop (t : PerformanceTracker) :
  forall (items : list (string * string)) (stats : list report_row)
         (idx : list string),
    (forall item, In item items ->
                  exists h, lookup2 (model_scores t) (fst item) (snd item)
                            = Some h) ->
    exists rows,
      for_each items (report_class t) (stats, idx) =
      (Return tt, (stats ++ rows, idx ++ map fst items)) /\
      Forall2 (reports t) items rows.
Proof.
  induction items as [|item items IH]; intros stats idx Hall.
  - exists []. rewrite !app_nil_r. split; [reflexivity | constructor].
  - destruct (Hall item (or_introl eq_refl)) as [h Hh].
    destruct (IH (stats ++ [(snd item, np_mean h, np_std h)])
                (idx ++ [fst item])) as [rows [Hrun Hrows]].
    { intros i Hi. apply Hall. right. assumption. }
    exists ((snd item, np_mean h, np_std h) :: rows). split.
    + rewrite for_each_cons.
      unfold report_class at 1. unfold bind, lift, modify, PyDict.getitem.
      unfold lookup2 in Hh.
      destruct (PyDict.get (fst item) (model_scores t)) as [inner|];
        [|discriminate].
      rewrite Hh. simpl fst. simpl snd.
      etransitivity; [exact Hrun|].
      rewrite <- !app_assoc. reflexivity.
    + constructor; [|assumption]. exists h. auto.
Qed.

Lemma combine_reports (t : PerformanceTracker) :
  forall (items : list (string * string)) (rows : list report_row)
         (c : string) (row : report_row),
    Forall2 (reports t) items rows ->
    In (c, row) (combine (map fst items) rows) ->
    exists w, In (c, w) items /\ reports t (c, w) row.
Proof.
  intros items rows c row H. induction H as [|[c0 w0] r items rows Hr H IH];
    simpl; intros Hin; [contradiction|].
  destruct Hin as [Heq|Hin].
  - inversion Heq. subst. exists w0. split; [left; reflexivity | assumption].
  - destruct (IH Hin) as [w [Hw Hrep]]. exists w. split; [right|]; assumption.
Qed.

(** X16. On a tracker reached from a fresh one over distinct classes and
    at least one family, [performance_report] returns one row per test
    class, in the order of the classes. The model of a row is a
    registered family with the most wins in the class, and its two
    statistics are [np.mean] and [np.std] of the score history of that
    family, which has one score per win: before any trial they are taken
    of the empty list. *)
Theorem performance_report_rows (tcs : list string) (m0 : string)
  (ms : list string) (self : Experiment) (t : PerformanceTracker) :
  reachable tcs (m0 :: ms) t ->
  NoDup tcs ->
  _tracker self = Some t ->
  exists rows,
    performance_report self = Return rows /\
    map fst rows = tcs /\
    forall c w mu sd,
      In (c, (w, mu, sd)) rows ->
      exists h,
        lookup2 (model_scores t) c w = Some h /\
        mu = np_mean h /\ sd = np_std h /\
        lookup2 (winning_stats t) c w = Some (Z.of_nat (List.length h)) /\
        forall f n', lookup2 (winning_stats t) c f = Some n' ->
                     n' <= Z.of_nat (List.length h).
Proof.
  intros Hreach Hnd Htr.
  destruct (reachable_fresh_shape tcs (m0 :: ms) t Hreach) as [Hshape Htcs].
  (* every class has a winner *)
  assert (Hdef : forall c, In c (test_classes t) ->
                           exists w, class_winner t c = Some w).
  { intros c Hc. rewrite Htcs in Hc.
    destruct (fresh_shape_registered tcs (m0 :: ms) t c m0 Hshape Hc
                (or_introl eq_refl)) as (wi & n & _ & _ & Hwi & Hn & _).
    unfold class_winner. rewrite Hwi.
    destruct wi as [|x wi]; [discriminate|]. simpl.
    destruct (Tracker.max_from x wi) as [w k]. eauto. }
  destruct (winner_loop t (test_classes t) PyDict.empty Hdef)
    as [winners [Hrun Hgets]].
  assert (Hkeys : PyDict.keys winners = tcs).
  { rewrite <- Htcs.
    apply (winner_loop_keys t (test_classes t) PyDict.empty winners);
      [rewrite Htcs; exact Hnd | exact Hrun]. }
  assert (Hitem : forall c w, In (c, w) winners ->
                              In c tcs /\ class_winner t c = Some w).
  { intros c w Hin.
    assert (Hc : In c tcs).
    { rewrite <- Hkeys. apply (in_map fst _ (c, w)). assumption. }
    split; [assumption|].
    assert (Hget : PyDict.get c winners = Some w).
    { apply NoDup_keys_get; [rewrite Hkeys|]; assumption. }
    rewrite Hgets in Hget. rewrite <- Htcs in Hc.
    rewrite (proj2 (mem_In c _) Hc) in Hget. exact Hget. }
  destruct (report_loop t (PyDict.items winners) [] []) as [rows [Hrep Hrows]].
  { intros [c w] Hin. destruct (Hitem c w Hin) as [Hc Hw].
    destruct (class_winner_registered tcs (m0 :: ms) t c w Hreach Hc Hw)
      as [h [Hh _]].
    exists h. exact Hh. }
  exists (combine (map fst (PyDict.items winners)) rows).
  split; [|split].
  - unfold performance_report, class_winners. rewrite Htr.
    unfold Tracker.winner_models. rewrite Hrun, Hrep. reflexivity.
  - assert (Hlen : List.length rows = List.length (PyDict.items winners)).
    { symmetry. eapply Forall2_length. eassumption. }
    assert (Hfst : forall (A B : Type) (l1 : list A) (l2 : list B),
               List.length l2 = List.length l1 ->
               map fst (combine l1 l2) = l1).
    { intros A B. induction l1 as [|a l1 IH]; intros [|b l2] H; simpl in *;
        try discriminate; [reflexivity|]. f_equal. apply IH. lia. }
    rewrite Hfst; [exact Hkeys | rewrite length_map; exact Hlen].
  - intros c w mu sd Hin.
    destruct (combine_reports t _ _ c (w, mu, sd) Hrows Hin)
      as [w' [Hw' [h [Hh Hrow]]]].
    simpl in Hh, Hrow. inversion Hrow. subst w' mu sd.
    destruct (Hitem c w Hw') as [Hc Hw].
    destruct (class_winner_registered tcs (m0 :: ms) t c w Hreach Hc Hw)
      as [h' [Hh' [Hn Hmax]]].
    assert (h' = h) by congruence. subst h'.
    exists h. auto.
Qed.

End Reports.

(** ** The tracker across [execute_all] *)

Section TrackerOfExecuteAll.
Context {sk : Sklearn}.

Lemma track_results_reachable (tcs ms : list string) (s : Experiment) :
  (exists t, _tracker s = Some t /\ reachable tcs ms t) ->
  exists t, _tracker (snd (track_results s)) = Some t /\ reachable tcs ms t.
Proof.
  intros [t [Ht Hreach]]. unfold track_results, bind, get.
  destruct (results s) as [r|]; [|exists t; auto].
  unfold on_tracker. rewrite Ht.
  pose proof (reach_update tcs ms t r Hreach) as Hnext.
  destruct (Tracker.update_stats r t) as [o t']. simpl in *.
  exists t'. auto.
Qed.

(** X17. Whatever [execute_all] does, and whether it returns or raises
    on the way, the tracker it leaves is one reached from the fresh
    tracker over the test classes and the labels of the models: in it
    every score history is as long as its win count. *)
Theorem execute_all_leaves_reached_tracker (dataset : list dataset_entry)
  (tcs : list string) (target : string) (st : Experiment) :
  exists t,
    _tracker (snd (execute_all dataset tcs target st)) = Some t /\
    reachable tcs (model_labels st) t /\
    forall c f,
      lookup2 (winning_stats t) c f =
      option_map (fun h => Z.of_nat (List.length h))
        (lookup2 (model_scores t) c f).
Proof.
  assert (H : exists t,
             _tracker (snd (execute_all dataset tcs target st)) = Some t /\
             reachable tcs (model_labels st) t).
  { unfold execute_all, bind, get, put.
    apply (for_each_preserves
             (fun s => exists t, _tracker s = Some t /\
                                 reachable tcs (model_labels st) t)).
    - intros _ s Hs. unfold one_run.
      apply (for_each_preserves
               (fun s => exists t, _tracker s = Some t /\
                                   reachable tcs (model_labels st) t));
        [|assumption].
      intros [[data rows] cols] s0 Hs0. unfold execute_entry, bind.
      pose proof (execute_keeps s0 data rows cols target s0 (keeps_refl s0))
        as (_ & _ & _ & _ & Ktr).
      destruct (execute data (rows, cols) target s0) as [[u|e] s1];
        simpl in Ktr; simpl snd.
      + apply track_results_reachable. rewrite Ktr. exact Hs0.
      + rewrite Ktr. exact Hs0.
    - exists (Tracker.init tcs (model_labels st)).
      split; [reflexivity | apply reach_init]. }
  destruct H as [t [Ht Hreach]]. exists t.
  repeat split; try assumption.
  apply (reachable_consistent tcs (model_labels st) t Hreach).
Qed.

End TrackerOfExecuteAll.

(** ** The further properties on concrete inputs *)

Lemma update_stats_returns_witness :
  reachable ["dense"] ["A"; "B"] Example.tracker1 /\
  exists t', Tracker.update_stats Example.results_B Example.tracker1
             = (Return tt, t').
Proof.
  assert (H : reachable ["dense"] ["A"; "B"] Example.tracker1).
  { unfold Example.tracker1. apply reach_update. apply reach_init. }
  split; [exact H|].
  apply (update_stats_returns ["dense"] ["A"; "B"] Example.tracker1
           Example.results_B H).
  intros c [<-|[]].
  exists "B", Example.est_B, Example.quarter.
  split; [reflexivity | right; left; reflexivity].
Defined.

Lemma update_stats_missing_class_witness :
  Tracker.update_stats Cases.results_dense_only Cases.tracker_two =
  (Raise (KeyError "sparse"), Cases.tracker_two_dense) /\
  lookup2 (winning_stats Cases.tracker_two_dense) "dense" "A" = Some 1.
Proof.
  split; [|reflexivity].
  apply (update_stats_missing_class Cases.results_dense_only
           Cases.tracker_two Cases.tracker_two_dense ["dense"] [] "sparse");
    reflexivity.
Defined.

Lemma update_stats_unknown_family_witness :
  ~ In "Z" ["A"; "B"] /\
  Tracker.update_stats Cases.results_unknown Cases.tracker_two =
  (Raise (KeyError "Z"), Cases.tracker_two_dense).
Proof.
  assert (Hz : ~ In "Z" ["A"; "B"]).
  { intros [H|[H|[]]]; discriminate H. }
  split; [exact Hz|].
  apply (update_stats_unknown_family ["dense"; "sparse"] ["A"; "B"]
           Cases.results_unknown Cases.tracker_two Cases.tracker_two_dense
           ["dense"] [] "sparse" "Z" Example.est_A Example.half);
    try reflexivity; try assumption.
  apply reach_init.
Defined.

Lemma history_is_scores_of_wins_witness :
  for_each [Example.results_A; Example.results_B] Tracker.update_stats
    (Tracker.init ["dense"] ["A"; "B"]) = (Return tt, Example.tracker2) /\
  lookup2 (model_scores Example.tracker2) "dense" "A" = Some [Example.half] /\
  lookup2 (winning_stats Example.tracker2) "dense" "A" = Some 1.
Proof.
  assert (Hrun : for_each [Example.results_A; Example.results_B]
                   Tracker.update_stats (Tracker.init ["dense"] ["A"; "B"])
                 = (Return tt, Example.tracker2)) by reflexivity.
  split; [exact Hrun|].
  apply (history_is_scores_of_wins ["dense"] ["A"; "B"]
           [Example.results_A; Example.results_B] Example.tracker2
           "dense" "A").
  - constructor; [intros [] | constructor].
  - left. reflexivity.
  - left. reflexivity.
  - exact Hrun.
Defined.

Lemma winner_has_most_wins_witness :
  Tracker.winner_models Example.tracker2 = Return [("dense", "A")] /\
  exists candidates n,
    PyDict.get "dense" (winning_stats Example.tracker2) = Some candidates /\
    In ("A", n) candidates /\
    forall f n', lookup2 (winning_stats Example.tracker2) "dense" f = Some n' ->
                 n' <= n.
Proof.
  split; [reflexivity|].
  apply (winner_has_most_wins Example.tracker2 [("dense", "A")] "dense" "A").
  - reflexivity.
  - left. reflexivity.
  - reflexivity.
Defined.

Lemma returned_score_is_maximal_witness :
  score_eval (sk := Toy.sklearn) Example.st_tie =
  (Return ("A", construct Example.A [("score", PFloat Example.half)],
           Example.half), MoreCases.st_tie_done) /\
  forall g, In g [Example.fitted Example.quarter; Example.fitted Example.half;
                  Example.fitted Example.half] ->
            PyFloat.gt (best_score_ g) Example.half = false.
Proof.
  assert (Hret : score_eval (sk := Toy.sklearn) Example.st_tie =
                 (Return ("A",
                          construct Example.A [("score", PFloat Example.half)],
                          Example.half), MoreCases.st_tie_done))
    by (vm_compute; reflexivity).
  assert (Hlib : library_run (sk := Toy.sklearn) Example.st_tie =
                 (Return [Example.fitted Example.quarter;
                          Example.fitted Example.half;
                          Example.fitted Example.half],
                  MoreCases.st_tie_done))
    by (vm_compute; reflexivity).
  split; [exact Hret|].
  exact (proj2 (returned_score_is_maximal (sk := Toy.sklearn)
                  Example.st_tie MoreCases.st_tie_done
                  [Example.fitted Example.quarter; Example.fitted Example.half;
                   Example.fitted Example.half]
                  "A" (construct Example.A [("score", PFloat Example.half)])
                  Example.half Hlib Hret)).
Defined.

Lemma score_eval_stores_shuffle_witness :
  _data Example.st_tie = Some [[Example.half]] /\
  row_idx (snd (score_eval (sk := Toy.sklearn) Example.st_tie)) = Some [] /\
  col_idx (snd (score_eval (sk := Toy.sklearn) Example.st_tie)) = Some [].
Proof.
  split; [reflexivity|].
  exact (score_eval_stores_shuffle (sk := Toy.sklearn) Example.st_tie
           [[Example.half]] eq_refl).
Defined.

Lemma execute_leaves_one_result_per_class_witness :
  NoDup (PyDict.keys Example.dense_data) /\
  exists r,
    results MoreCases.st_executed = Some r /\
    PyDict.keys r = ["dense"].
Proof.
  assert (Hnd : NoDup (PyDict.keys Example.dense_data)).
  { constructor; [intros [] | constructor]. }
  split; [exact Hnd|].
  destruct (execute_leaves_one_result_per_class (sk := Toy.sklearn)
              Example.dense_data Example.dense_rows Example.dense_cols
              "score" Example.st_runs MoreCases.st_executed Hnd)
    as (r & Hr & Hk & _).
  { vm_compute. reflexivity. }
  exists r. split; assumption.
Defined.

Lemma execute_missing_ground_truth_witness :
  execute (sk := Toy.sklearn) Example.dense_data ([], Example.dense_cols)
    "score" Example.st_runs =
  (Raise (KeyError "dense"),
   set_data (Some [[Example.half]])
     (set_results (Some PyDict.empty) Example.st_runs)).
Proof.
  apply (execute_missing_ground_truth (sk := Toy.sklearn) Example.dense_data
           [] Example.dense_cols "score" "dense" [] [[Example.half]]
           Example.st_runs).
  - reflexivity.
  - reflexivity.
  - left. reflexivity.
Defined.

Lemma execute_all_without_trial_witness :
  nruns MoreCases.st_no_run <= 0 /\
  exists winners,
    class_winners
      (snd (execute_all (sk := Toy.sklearn) [Example.dense_entry] ["dense"]
              "score" MoreCases.st_no_run)) = Return winners /\
    forall c, In c ["dense"] -> PyDict.get c winners = Some "A".
Proof.
  assert (Hn : nruns MoreCases.st_no_run <= 0) by (simpl; lia).
  split; [exact Hn|].
  exact (proj2 (execute_all_without_trial (sk := Toy.sklearn)
                  [Example.dense_entry] ["dense"] "score" MoreCases.st_no_run
                  Example.A (Example.scoring Example.half)
                  [(Example.B, Example.scoring Example.quarter)]
                  (or_introl Hn) eq_refl)).
Defined.

Lemma score_results_are_recorded_witness :
  reachable ["dense"] (model_labels MoreCases.st_tracked) Example.tracker0 /\
  exists s2 t',
    execute_entry (sk := Toy.sklearn) "score" Example.dense_entry
      MoreCases.st_tracked = (Return tt, s2) /\
    _tracker s2 = Some t' /\
    reachable ["dense"] (model_labels MoreCases.st_tracked) t'.
Proof.
  assert (Hreach : reachable ["dense"] (model_labels MoreCases.st_tracked)
                     Example.tracker0) by apply reach_init.
  split; [exact Hreach|].
  apply (score_results_are_recorded (sk := Toy.sklearn) ["dense"]
           Example.dense_data Example.dense_rows Example.dense_cols
           MoreCases.st_tracked MoreCases.st_tracked_executed
           Example.tracker0).
  - reflexivity.
  - exact Hreach.
  - constructor; [intros [] | constructor].
  - intros c Hc. exact Hc.
  - vm_compute. reflexivity.
Defined.

Lemma performance_report_rows_witness :
  reachable ["dense"] ["A"; "B"] Example.tracker2 /\
  exists rows,
    performance_report (np := ToyNumpy.numpy) MoreCases.st_reported
    = Return rows /\
    map fst rows = ["dense"].
Proof.
  assert (Hreach : reachable ["dense"] ["A"; "B"] Example.tracker2).
  { exact (update_sequence_reachable ["dense"] ["A"; "B"]
             [Example.results_A; Example.results_B]
             (Tracker.init ["dense"] ["A"; "B"])
             (reach_init ["dense"] ["A"; "B"])). }
  split; [exact Hreach|].
  destruct (performance_report_rows (np := ToyNumpy.numpy) ["dense"] "A" ["B"]
              MoreCases.st_reported Example.tracker2 Hreach)
    as (rows & Hret & Hidx & _).
  - constructor; [intros [] | constructor].
  - reflexivity.
  - exists rows. split; assumption.
Defined.

(** The report of the example: class [dense] goes to [A], whose history
    holds the one score 0.5. *)
Example report_of_example :
  performance_report (np := ToyNumpy.numpy) MoreCases.st_reported =
  Return [("dense", ("A", Example.half, PyFloat.zero))].
Proof. reflexivity. Qed.

(** ** [best_models] *)

Section BestModels.
Context {sk : Sklearn}.

(** X18. [best_models] after a returning [execute_all] holds the results
    of the last class group only: its keys are the classes of the data
    of that group, and the results of the groups before it, and of the
    runs before the last, are gone. *)
Theorem best_models_of_last_group (dataset : list dataset_entry)
  (data : pydict ndarray) (rows cols : pydict indicator)
  (tcs : list string) (target : string) (st st' : Experiment) :
  0 < nruns st ->
  NoDup (PyDict.keys data) ->
  execute_all (dataset ++ [(data, rows, cols)]) tcs target st
  = (Return tt, st') ->
  exists r, best_models st' = Some r /\ PyDict.keys r = PyDict.keys data.
Proof.
  intros Hn Hnd Hrun. unfold execute_all, bind, get, put in Hrun.
  destruct (Z.to_nat (nruns st)) as [|k] eqn:Hk; [lia|].
  rewrite seq_S, for_each_app in Hrun.
  destruct (for_each (seq 0 k) _ _) as [[[]|e] s1]; [|discriminate].
  rewrite for_each_cons in Hrun.
  destruct (one_run (dataset ++ [(data, rows, cols)]) target s1)
    as [[[]|e] s2] eqn:Elast; [|discriminate].
  simpl in Hrun. unfold ret in Hrun. inversion Hrun. subst s2. clear Hrun.
  unfold one_run in Elast. rewrite for_each_app in Elast.
  destruct (for_each dataset (execute_entry target) s1) as [[[]|e] s3];
    [|discriminate].
  rewrite for_each_cons in Elast.
  destruct (execute_entry target (data, rows, cols) s3) as [[[]|e] s4] eqn:Ee;
    [|discriminate].
  simpl in Elast. unfold ret in Elast. inversion Elast. subst s4. clear Elast.
  unfold execute_entry, bind in Ee.
  destruct (execute data (rows, cols) target s3) as [[[]|e] s5] eqn:Ex;
    [|discriminate].
  destruct (execute_results data rows cols target s3 s5 Hnd Ex)
    as (r & Hr & Hkeys & _).
  destruct (track_results_returns s5 st' Ee) as (_ & _ & t' & _ & _ & _ & ->).
  exists r. split; [exact Hr | exact Hkeys].
Qed.

End BestModels.

Lemma best_models_of_last_group_witness :
  0 < nruns Example.st_runs /\
  exists r, best_models Example.st_runs_done = Some r /\
            PyDict.keys r = ["dense"].
Proof.
  assert (Hn : 0 < nruns Example.st_runs) by (simpl; lia).
  split; [exact Hn|].
  apply (best_models_of_last_group (sk := Toy.sklearn) []
           Example.dense_data Example.dense_rows Example.dense_cols
           ["dense"] "score" Example.st_runs Example.st_runs_done Hn).
  - constructor; [intros [] | constructor].
  - vm_compute. reflexivity.
Defined.

(** The scores of the examples are binary64 floats in their canonical
    encoding, ordered as the numbers they stand for. *)
Example example_scores_are_binary64 :
  valid_binary 53 1024 Example.quarter = true /\
  valid_binary 53 1024 Example.half = true /\
  valid_binary 53 1024 Example.three_quarters = true /\
  PyFloat.gt Example.half Example.quarter = true /\
  PyFloat.gt Example.three_quarters Example.half = true /\
  PyFloat.gt Example.half Example.three_quarters = false.
Proof. repeat split; vm_compute; reflexivity. Qed.
